(** * A shallow embedding of the pipeline execution engine

    The engine (src/engine) interprets a declarative pipeline: it keeps an
    execution context, gates every step with a tree of conditions,
    substitutes context values into prompt templates, sends the prompts to a
    task backend through a submit/poll protocol and folds extracted values
    back into the context.

    Python values are embedded as a closed tagged union, dictionaries as
    association lists in insertion order, text as byte strings (UTF-8), and
    the backend as a script of replies consumed by the requests the engine
    issues.  Facilities of the Python runtime that are not code of this
    repository (the JSON decoder, the decimal reading and printing of
    floats, the quoting of [repr], object identity) are the fields of the
    class [PyHost]; every theorem holds for every host.  The decoder of a
    host can raise any exception, so that the RecursionError of a response
    nested too deep has its path through the engine; the other resource
    limits of the interpreter (the recursion depth of the engine's own
    calls, the digit limit of int/str conversions) are not modelled. *)

From Stdlib Require Import ZArith List String Ascii Bool Lia.
From Stdlib Require Import Floats DecimalString.
Import ListNotations.

Open Scope string_scope.
Open Scope list_scope.
Open Scope Z_scope.

Set Warnings "-register-all".

(** ** Text *)

Fixpoint join (sep : string) (l : list string) : string :=
  match l with
  | [] => ""
  | [x] => x
  | x :: l' => (x ++ sep ++ join sep l')%string
  end.

(** [s.split(sep)] for a one-character separator: never empty, the empty
    string splits to one empty piece. *)
Fixpoint split (sep : ascii) (s : string) : list string :=
  match s with
  | EmptyString => [""]
  | String c s' =>
      if Ascii.eqb c sep then "" :: split sep s'
      else match split sep s' with
           | [] => [String c ""]
           | w :: ws => String c w :: ws
           end
  end.

Fixpoint lstrip (ch : ascii) (s : string) : string :=
  match s with
  | String c s' => if Ascii.eqb c ch then lstrip ch s' else s
  | EmptyString => ""
  end.

Fixpoint rstrip (ch : ascii) (s : string) : string :=
  match s with
  | EmptyString => ""
  | String c s' =>
      match rstrip ch s' with
      | EmptyString => if Ascii.eqb c ch then "" else String c ""
      | r => String c r
      end
  end.

(** [s.strip(ch)] *)
Definition strip (ch : ascii) (s : string) : string := rstrip ch (lstrip ch s).

(** [s.startswith(p)] *)
Definition startswith (s p : string) : bool := String.prefix p s.

(** [t in s] on two strings *)
Fixpoint is_substring (t s : string) : bool :=
  String.prefix t s ||
  match s with
  | EmptyString => false
  | String _ s' => is_substring t s'
  end.

Definition lower_ascii (c : ascii) : ascii :=
  let n := N_of_ascii c in
  if ((65 <=? n) && (n <=? 90))%N then ascii_of_N (n + 32) else c.

(** [s.lower()], on the ASCII letters.  The engine only tests the result for
    membership in lists of lower-case ASCII words that have no letter k, and
    no character outside ASCII lower-cases to such a letter. *)
Fixpoint lower (s : string) : string :=
  match s with
  | EmptyString => ""
  | String c s' => String (lower_ascii c) (lower s')
  end.

(** Order of two strings by code point, which on UTF-8 is the order of the
    bytes. *)
Fixpoint string_ltb (s t : string) : bool :=
  match s, t with
  | _, EmptyString => false
  | EmptyString, String _ _ => true
  | String c s', String d t' =>
      match (N_of_ascii c ?= N_of_ascii d)%N with
      | Lt => true
      | Gt => false
      | Eq => string_ltb s' t'
      end
  end.

Definition mem_string (x : string) (l : list string) : bool :=
  existsb (String.eqb x) l.

(** [str(z)] for an int *)
Definition str_of_Z (z : Z) : string := NilZero.string_of_int (Z.to_int z).

(** ** Values *)

Inductive value : Type :=
| VNone
| VBool (b : bool)
| VInt (z : Z)
| VFloat (f : float)
| VStr (s : string)
| VList (l : list value)
| VDict (d : list (string * value)).

(** A dict with string keys, in insertion order. *)
Abbreviation dict := (list (string * value)).

Fixpoint dict_get {A : Type} (d : list (string * A)) (k : string) : option A :=
  match d with
  | [] => None
  | (k', v) :: d' => if String.eqb k k' then Some v else dict_get d' k
  end.

(** [k in d] *)
Definition dict_has {A : Type} (d : list (string * A)) (k : string) : bool :=
  match dict_get d k with Some _ => true | None => false end.

(** [d[k] = v]: an existing key keeps its place, a new one goes last. *)
Fixpoint dict_set {A : Type} (d : list (string * A)) (k : string) (v : A)
  : list (string * A) :=
  match d with
  | [] => [(k, v)]
  | (k', v') :: d' =>
      if String.eqb k k' then (k, v) :: d' else (k', v') :: dict_set d' k v
  end.

(** Exceptions, by their Python class. *)
Inductive exn : Type :=
| TypeError
| ValueError (msg : string)
| KeyError (key : string)
| AttributeError
| OverflowError
| JSONDecodeError
| RecursionError
| HTTPStatusError
| RequestError.

(** The result of code that can raise. *)
Inductive result (A : Type) : Type :=
| Ok (x : A)
| Raise (e : exn).
Arguments Ok {A} x.
Arguments Raise {A} e.

Definition bind {A B : Type} (r : result A) (k : A -> result B) : result B :=
  match r with
  | Ok x => k x
  | Raise e => Raise e
  end.

Notation "x <- r ;; k" := (bind r (fun x => k))
  (at level 61, r at next level, right associativity).

(** ** The Python runtime *)

Class PyHost : Type := {
  (** [float(s)] on a string; [None] is ValueError *)
  float_of_str : string -> option float;
  (** [repr(f)] of a float *)
  float_repr : float -> string;
  (** [repr(s)] of a string *)
  str_repr : string -> string;
  (** [a is b] *)
  is_same : value -> value -> bool;
  (** [json.loads(s)]: the document read, or the exception raised, which is
      json.JSONDecodeError where the decoder rejects the text and can be
      another one (RecursionError on a nesting the interpreter cannot
      follow) *)
  json_loads : string -> result value
}.

(** Numbers: bool is a subtype of int. *)
Inductive num : Type :=
| NInt (z : Z)
| NFloat (f : float).

Definition to_num (v : value) : option num :=
  match v with
  | VBool b => Some (NInt (if b then 1 else 0))
  | VInt z => Some (NInt z)
  | VFloat f => Some (NFloat f)
  | _ => None
  end.

(** The exact comparison of an int with a float; [None] for a NaN. *)
Definition compare_Z_float (z : Z) (f : float) : option comparison :=
  match Prim2SF f with
  | S754_nan => None
  | S754_zero _ => Some (z ?= 0)
  | S754_infinity s => Some (if s then Gt else Lt)
  | S754_finite s m e =>
      let v := if s then Z.neg m else Z.pos m in
      Some (if 0 <=? e then z ?= v * 2 ^ e else z * 2 ^ (- e) ?= v)
  end.

Definition num_eqb (x y : num) : bool :=
  match x, y with
  | NInt a, NInt b => a =? b
  | NFloat f, NFloat g => PrimFloat.eqb f g
  | NInt a, NFloat g =>
      match compare_Z_float a g with Some Eq => true | _ => false end
  | NFloat f, NInt b =>
      match compare_Z_float b f with Some Eq => true | _ => false end
  end.

Definition num_ltb (x y : num) : bool :=
  match x, y with
  | NInt a, NInt b => a <? b
  | NFloat f, NFloat g => PrimFloat.ltb f g
  | NInt a, NFloat g =>
      match compare_Z_float a g with Some Lt => true | _ => false end
  | NFloat f, NInt b =>
      match compare_Z_float b f with Some Gt => true | _ => false end
  end.

(** [float(z)] for an int, rounding to nearest; [None] is OverflowError. *)
Definition float_of_Z (z : Z) : option float :=
  match binary_normalize 53 1024 z 0 false with
  | S754_infinity _ => None
  | sf => Some (SF2Prim sf)
  end.

(** ** Operations of the language on values *)

Section PythonOps.
Context {host : PyHost}.

(** [repr(v)] and [str(v)]: they differ on strings only. *)
Fixpoint py_repr (v : value) : string :=
  match v with
  | VNone => "None"
  | VBool b => if b then "True" else "False"
  | VInt z => str_of_Z z
  | VFloat f => float_repr f
  | VStr s => str_repr s
  | VList l => "[" ++ join ", " (map py_repr l) ++ "]"
  | VDict d =>
      "{" ++ join ", "
               (map (fun kv => str_repr (fst kv) ++ ": " ++ py_repr (snd kv)) d)
          ++ "}"
  end%string.

Definition py_str (v : value) : string :=
  match v with
  | VStr s => s
  | _ => py_repr v
  end.

(** [bool(v)] *)
Definition truthy (v : value) : bool :=
  match v with
  | VNone => false
  | VBool b => b
  | VInt z => negb (z =? 0)
  | VFloat f => negb (PrimFloat.eqb f 0%float)
  | VStr s => negb (String.eqb s "")
  | VList l => match l with [] => false | _ => true end
  | VDict d => match d with [] => false | _ => true end
  end.

(** [a == b].  Containers compare their items by identity first, then by
    equality. *)
Fixpoint py_eq (a b : value) {struct a} : bool :=
  match a, b with
  | VNone, VNone => true
  | VStr s, VStr t => String.eqb s t
  | VList la, VList lb =>
      (fix eq_items (la lb : list value) {struct la} : bool :=
         match la, lb with
         | [], [] => true
         | x :: la', y :: lb' => (is_same x y || py_eq x y) && eq_items la' lb'
         | _, _ => false
         end) la lb
  | VDict da, VDict db =>
      Nat.eqb (List.length da) (List.length db) &&
      (fix eq_entries (da : dict) {struct da} : bool :=
         match da with
         | [] => true
         | (k, x) :: da' =>
             match dict_get db k with
             | Some y => (is_same x y || py_eq x y) && eq_entries da'
             | None => false
             end
         end) da
  | _, _ =>
      match to_num a, to_num b with
      | Some x, Some y => num_eqb x y
      | _, _ => false
      end
  end.

(** [a < b]; [None] is TypeError. *)
Fixpoint py_lt (a b : value) {struct a} : option bool :=
  match a, b with
  | VStr s, VStr t => Some (string_ltb s t)
  | VList la, VList lb =>
      (fix lt_items (la lb : list value) {struct la} : option bool :=
         match la, lb with
         | [], [] => Some false
         | [], _ :: _ => Some true
         | _ :: _, [] => Some false
         | x :: la', y :: lb' =>
             if is_same x y || py_eq x y then lt_items la' lb' else py_lt x y
         end) la lb
  | _, _ =>
      match to_num a, to_num b with
      | Some x, Some y => Some (num_ltb x y)
      | _, _ => None
      end
  end.

(** [a > b], which the built-in types answer as [b < a]. *)
Definition py_gt (a b : value) : option bool := py_lt b a.

(** [b in a]; [None] is TypeError (a is no container, b is no string where
    a is one, or b is unhashable where a is a dict). *)
Definition py_contains (a b : value) : option bool :=
  match a with
  | VStr s =>
      match b with
      | VStr t => Some (is_substring t s)
      | _ => None
      end
  | VList l => Some (existsb (fun x => is_same x b || py_eq x b) l)
  | VDict d =>
      match b with
      | VStr k => Some (dict_has d k)
      | VList _ | VDict _ => None
      | _ => Some false
      end
  | _ => None
  end.

(** [v[k]] for a string key. *)
Definition py_getitem (v : value) (k : string) : result value :=
  match v with
  | VDict d =>
      match dict_get d k with
      | Some x => Ok x
      | None => Raise (KeyError k)
      end
  | _ => Raise TypeError
  end.

(** [float(v)] *)
Definition py_float (v : value) : result float :=
  match v with
  | VFloat f => Ok f
  | VInt z =>
      match float_of_Z z with
      | Some f => Ok f
      | None => Raise OverflowError
      end
  | VBool b => Ok (if b then 1%float else 0%float)
  | VStr s =>
      match float_of_str s with
      | Some f => Ok f
      | None => Raise (ValueError "could not convert string to float")
      end
  | _ => Raise TypeError
  end.

End PythonOps.

(** ** The pipeline document (engine/pipelines/models.py) *)

Module Condition.
(** A node embeds the lists of its nested clauses. *)
Inductive t : Type :=
| Build (a : string) (op : string) (b : value)
        (and_ : option (list t)) (or_ : option (list t)).

Definition a (c : t) : string := match c with Build x _ _ _ _ => x end.
Definition op (c : t) : string := match c with Build _ x _ _ _ => x end.
Definition b (c : t) : value := match c with Build _ _ x _ _ => x end.
Definition and_ (c : t) : option (list t) :=
  match c with Build _ _ _ x _ => x end.
Definition or_ (c : t) : option (list t) :=
  match c with Build _ _ _ _ x => x end.
End Condition.

Module Message.
Record t : Type := Build {
  chat_history : list (list (string * string));
  system : string;
  user : string
}.
End Message.

Module ExtractRule.
Record t : Type := Build {
  name : string;
  jq : option string;
  fulltext : option bool;
  type : option string
}.
End ExtractRule.

Module Step.
Record t : Type := Build {
  action : string;
  if_condition : option (list Condition.t);
  json : option bool;
  model : option string;
  lang : option string;
  message : option Message.t;
  extract : option (list ExtractRule.t)
}.
End Step.

Module Pipeline.
Record t : Type := Build {
  name : string;
  steps : list Step.t
}.
End Pipeline.

(** The truth value of an optional field: unset, [False] and the empty
    string are false. *)
Definition opt_bool (o : option bool) : bool :=
  match o with Some b => b | None => false end.

Definition opt_str (o : option string) : bool :=
  match o with Some s => negb (String.eqb s "") | None => false end.

Definition opt_items {A : Type} (o : option (list A)) : list A :=
  match o with Some l => l | None => [] end.

(** ** Regular-expression substitution *)

(** One match of [\$\{([^}]+)\}] at the start of the text: the group and
    the text after the closing brace. *)
Fixpoint until_brace (t : string) : option (string * string) :=
  match t with
  | EmptyString => None
  | String d t' =>
      if Ascii.eqb d "}" then Some ("", t')
      else match until_brace t' with
           | Some (p, rest) => Some (String d p, rest)
           | None => None
           end
  end.

Definition match_placeholder (s : string) : option (string * string) :=
  match s with
  | String "$" (String "{" s2) =>
      match until_brace s2 with
      | Some (String d p, rest) => Some (String d p, rest)
      | _ => None
      end
  | _ => None
  end.

(** The same match inside the loop of [re.sub]: [k] rebuilds the group read
    so far, [found] is what to do with the group and the text after the
    closing brace, [none] what to do when there is no match. *)
Section ScanGroup.
Context {A : Type} (found : string -> string -> A) (none : A).

Fixpoint scan_group (t : string) (k : string -> string) {struct t} : A :=
  match t with
  | EmptyString => none
  | String d t' =>
      if Ascii.eqb d "}" then
        match k "" with
        | EmptyString => none
        | p => found p t'
        end
      else scan_group t' (fun q => k (String d q))
  end.

End ScanGroup.

(** [re.sub(r"\$\{([^}]+)\}", repl, s)]: the matches are found from left
    to right, do not overlap, and the text between them is copied. *)
Fixpoint re_sub (repl : string -> string) (s : string) {struct s} : string :=
  match s with
  | EmptyString => ""
  | String c s1 =>
      let copy := String c (re_sub repl s1) in
      if Ascii.eqb c "$" then
        match s1 with
        | String c2 s2 =>
            if Ascii.eqb c2 "{" then
              scan_group (fun p rest => (repl p ++ re_sub repl rest)%string)
                copy s2 (fun q => q)
            else copy
        | EmptyString => copy
        end
      else copy
  end.

(** [asyncio.gather] over coroutines that do no input or output: every one
    is run, and the first exception, if any, is the outcome. *)
Fixpoint gather {A : Type} (rs : list (result A)) : result (list A) :=
  match rs with
  | [] => Ok []
  | r :: rs' =>
      x <- r ;;
      xs <- gather rs' ;;
      Ok (x :: xs)
  end.

(** ** The backend *)

(** What one request gets back: a fault (no connection, an error status,
    a body that is no JSON) or the decoded body. *)
Inductive reply : Type :=
| Fault (e : exn)
| Json (body : value).

(** What the engine does to the outside, in the order it does it. *)
Inductive event : Type :=
| Post (url : string) (body : value)
| Sleep (seconds : Z).

(** The backend is the script of its replies to come; every request takes
    the next one.  The trace records the requests and the pauses so far. *)
Record world : Type := World {
  script : list reply;
  trace : list event
}.

(** Code that talks to the backend.  No outcome ([None]) means that the
    script ran out: the request is sent and the call never returns. *)
Definition io (A : Type) : Type := world -> option (result A) * world.

Definition io_ret {A : Type} (x : A) : io A := fun w => (Some (Ok x), w).

Definition io_lift {A : Type} (r : result A) : io A := fun w => (Some r, w).

Definition io_bind {A B : Type} (m : io A) (k : A -> io B) : io B :=
  fun w =>
    match m w with
    | (Some (Ok x), w') => k x w'
    | (Some (Raise e), w') => (Some (Raise e), w')
    | (None, w') => (None, w')
    end.

Notation "x <~ m ;; k" := (io_bind m (fun x => k))
  (at level 61, m at next level, right associativity).

(** [session.post(url, json=body)], [raise_for_status()] and [json()]. *)
Definition http_post (url : string) (body : value) : io value :=
  fun w =>
    let tr := trace w ++ [Post url body] in
    match script w with
    | [] => (None, World [] tr)
    | Fault e :: rest => (Some (Raise e), World rest tr)
    | Json v :: rest => (Some (Ok v), World rest tr)
    end.

(** ** urllib.parse.quote with no safe character *)

Definition hex_digit (n : N) : ascii :=
  ascii_of_N (if (n <? 10)%N then 48 + n else 55 + n).

Definition always_safe (c : ascii) : bool :=
  let n := N_of_ascii c in
  (((65 <=? n) && (n <=? 90)) || ((97 <=? n) && (n <=? 122)) ||
   ((48 <=? n) && (n <=? 57)) ||
   (n =? 95) || (n =? 46) || (n =? 45) || (n =? 126))%N.

Fixpoint quote (s : string) : string :=
  match s with
  | EmptyString => ""
  | String c s' =>
      if always_safe c then String c (quote s')
      else
        let n := N_of_ascii c in
        String "%" (String (hex_digit (n / 16)) (String (hex_digit (n mod 16))
          (quote s')))
  end.

(** ** The completion waiter (engine/waiter.py) *)

Module ApiWaiter.
Section Waiter.
Context {host : PyHost}.

Record t : Type := Build {
  url : string;
  payload : value
}.

(** The body of the [try] on one reply: the payload to return, nothing when
    control falls through to the pause, or the exception a handler takes. *)
Definition _poll_reply (r : reply) : result (option value) :=
  match r with
  | Fault e => Raise e
  | Json data =>
      match py_contains data (VStr "status") with
      | None => Raise TypeError
      | Some false => Ok None
      | Some true =>
          st <- py_getitem data "status" ;;
          match st with
          | VStr s =>
              let status := lower s in
              if mem_string status ["completed"; "failed"; "canceled"]
              then Ok (Some data)
              else Ok None
          | _ => Raise AttributeError
          end
      end
  end.

(** The [while True] loop: one request per turn, a pause of five seconds
    after every turn that does not return. *)
Fixpoint _poll_loop (self : t) (replies : list reply) (tr : list event)
  : option (result value) * world :=
  let tr1 := tr ++ [Post (url self) (payload self)] in
  match replies with
  | [] => (None, World [] tr1)
  | r :: rest =>
      match _poll_reply r with
      | Ok (Some data) => (Some (Ok data), World rest tr1)
      | _ => _poll_loop self rest (tr1 ++ [Sleep 5])
      end
  end.

Definition wait_for_status (self : t) : io value :=
  fun w => _poll_loop self (script w) (trace w).

End Waiter.
End ApiWaiter.

(** ** The backend client (engine/apiclient.py) *)

Module BackendAPIClient.
Section Client.
Context {host : PyHost}.

Record t : Type := Build {
  token : string;
  backend_url : string
}.

(** [qpart]: [value or ""] is quoted; [quote] raises TypeError on what is
    no text. *)
Definition qpart (v : value) : result string :=
  match (if truthy v then v else VStr "") with
  | VStr s => Ok (quote s)
  | _ => Raise TypeError
  end.

Definition check_capabilities_online (self : t) : io value :=
  http_post (backend_url self ++ "/api/capabilities/online")
            (VDict [("apiKey", VStr (token self))]).

Definition submit_task (self : t) (model system_message user_message : string)
    (json_mode : bool) : io value :=
  let messages :=
    VList [VDict [("role", VStr "system"); ("content", VStr system_message)];
           VDict [("role", VStr "user"); ("content", VStr user_message)]] in
  let payload :=
    VDict [("model", VStr model);
           ("format", if json_mode then VStr "json" else VNone);
           ("stream", VBool false);
           ("messages", messages)] in
  http_post (backend_url self ++ "/api/task/submit")
            (VDict [("capability", VStr model);
                    ("urgent", VBool false);
                    ("payload", payload);
                    ("apiKey", VStr (token self))]).

Definition create_task_waiter (self : t) (capability task_id : value)
  : result ApiWaiter.t :=
  encoded_capability <- qpart capability ;;
  Ok (ApiWaiter.Build
        (backend_url self ++ "/api/task/poll/" ++ encoded_capability ++ "/"
           ++ py_str task_id)
        (VDict [("apiKey", VStr (token self))])).

(** [__init__] and the two setters: the address is kept without the
    slashes at its end. *)
Definition init (token backend_url : string) : t :=
  Build token (rstrip "/" backend_url).

Definition set_token (self : t) (token : string) : t :=
  Build token (backend_url self).

Definition set_backend_url (self : t) (backend_url : string) : t :=
  Build (token self) (rstrip "/" backend_url).

(** [poll_task], on a capability and a task id that are text. *)
Definition poll_task (self : t) (capability task_id : string) : io value :=
  match qpart (VStr capability) with
  | Ok encoded_capability =>
      http_post (backend_url self ++ "/api/task/poll/" ++ encoded_capability
                   ++ "/" ++ task_id)
                (VDict [("apiKey", VStr (token self))])
  | Raise e => io_lift (Raise e)
  end.

End Client.
End BackendAPIClient.

(** ** The model picker (engine/model_picker.py) *)

(** The items a [for] loop gets from a value; TypeError when it has none. *)
Definition py_iter (v : value) : result (list value) :=
  match v with
  | VList l => Ok l
  | VDict d => Ok (map (fun kv => VStr (fst kv)) d)
  | VStr s => Ok (map (fun c => VStr (String c "")) (list_ascii_of_string s))
  | _ => Raise TypeError
  end.

Module ModelPicker.
Section Picker.
Context {host : PyHost}.

Record t : Type := Build {
  client : BackendAPIClient.t
}.

(** [[x for x in available if x.startswith("LLM::")]]; what is no text has
    no [startswith]. *)
Fixpoint _usable (available : list value) : result (list string) :=
  match available with
  | [] => Ok []
  | VStr x :: rest =>
      usable <- _usable rest ;;
      Ok (if startswith x "LLM::" then x :: usable else usable)
  | _ :: _ => Raise AttributeError
  end.

Definition consider_model (self : t) (request : string) (lang : option string)
  : io (option string) :=
  available <~ BackendAPIClient.check_capabilities_online (client self) ;;
  items <~ io_lift (py_iter available) ;;
  usable <~ io_lift (_usable items) ;;
  match usable with
  | first :: _ => io_ret (Some first)
  | [] => io_ret None
  end.

End Picker.
End ModelPicker.

(** ** The query sender (engine/pipelines/query_send.py) *)

Module QuerySender.
Section Sender.
Context {host : PyHost}.

Record t : Type := Build {
  model_picker : ModelPicker.t;
  client : BackendAPIClient.t
}.

Definition execute (self : t) (lang : option string) (model_requested : string)
    (payload_json : option bool) (system_message user_message : string)
  : io value :=
  picked <~ ModelPicker.consider_model (model_picker self) model_requested lang ;;
  match picked with
  | None =>
      io_lift (Raise (ValueError ("Cannot find a model for request "
                                    ++ model_requested)))
  | Some picked_model =>
      task <~ BackendAPIClient.submit_task (client self) picked_model
                system_message user_message (opt_bool payload_json) ;;
      task_id <~ io_lift (id <- py_getitem task "id" ;; py_getitem id "id") ;;
      task_capability <~
        io_lift (id <- py_getitem task "id" ;; py_getitem id "cap") ;;
      awaiter <~ io_lift (BackendAPIClient.create_task_waiter (client self)
                            task_capability task_id) ;;
      result <~ ApiWaiter.wait_for_status awaiter ;;
      io_lift (py_getitem result "output")
  end.

End Sender.
End QuerySender.

(** ** The executor (engine/pipelines/exec.py) *)

Module PipelineExecutor.
Section Executor.
Context {host : PyHost}.

(** The loop of [_lookup_path]. *)
Fixpoint _lookup_keys (current_val : value) (keys : list string) : value :=
  match keys with
  | [] => current_val
  | key :: keys' =>
      match current_val with
      | VDict d =>
          match dict_get d key with
          | Some v => _lookup_keys v keys'
          | None => VNone
          end
      | _ => VNone
      end
  end.

Definition _lookup_path (data : value) (path : string) : value :=
  _lookup_keys data (split "." path).

(** The callback [replace_match] of [_substitute_variables]. *)
Definition replace_match (context : dict) (path : string) : string :=
  match _lookup_path (VDict context) path with
  | VNone => ""
  | v => py_str v
  end.

Definition _substitute_variables (context : dict) (template : string) : string :=
  re_sub (replace_match context) template.

Definition _cast_type (v : value) (target_type : option string) : result value :=
  match target_type with
  | None => Ok v
  | Some ty =>
      if String.eqb ty "number" then
        match py_float v with
        | Ok f => Ok (VFloat f)
        | Raise (ValueError _) | Raise TypeError => Ok (VFloat 0%float)
        | Raise e => Raise e
        end
      else if String.eqb ty "boolean" then
        Ok (VBool (mem_string (lower (py_str v)) ["true"; "1"; "yes"]))
      else Ok v
  end.

(** The value a rule selects; [VNone] when it selects none. *)
Definition _rule_value (response data_to_parse : value) (rule : ExtractRule.t)
  : value :=
  if opt_bool (ExtractRule.fulltext rule) then response
  else
    match ExtractRule.jq rule, data_to_parse with
    | None, _ | _, VNone => VNone
    | Some jq, _ =>
        if String.eqb jq "" then VNone
        else if String.eqb jq "." then data_to_parse
        else _lookup_path data_to_parse (strip "." jq)
    end.

(** One turn of the loop over the rules. *)
Definition _extract_rule (response data_to_parse : value) (context : dict)
    (rule : ExtractRule.t) : result dict :=
  match _rule_value response data_to_parse rule with
  | VNone => Ok context
  | v =>
      v' <- _cast_type v (ExtractRule.type rule) ;;
      Ok (dict_set context (ExtractRule.name rule) v')
  end.

Fixpoint _extract_rules (response data_to_parse : value) (context : dict)
    (rules : list ExtractRule.t) : result dict :=
  match rules with
  | [] => Ok context
  | rule :: rules' =>
      context' <- _extract_rule response data_to_parse context rule ;;
      _extract_rules response data_to_parse context' rules'
  end.

(** The context after [_extract_data], or the exception it lets through.
    [json.loads] raises TypeError on what is no text; of its exceptions on a
    text only json.JSONDecodeError is caught (lines 96-100), every other one
    leaves the method. *)
Definition _extract_data (context : dict) (response : value)
    (rules : list ExtractRule.t) (is_json_response : bool) : result dict :=
  if is_json_response then
    match response with
    | VStr text =>
        match json_loads text with
        | Ok data_to_parse => _extract_rules response data_to_parse context rules
        | Raise JSONDecodeError => Ok context
        | Raise e => Raise e
        end
    | _ => Raise TypeError
    end
  else _extract_rules response VNone context rules.

(** The table [ops]; an operator answers [None] where it raises TypeError. *)
Definition ops_get (op : string) : option (value -> value -> option bool) :=
  if String.eqb op "gt" then Some (fun a b => py_gt a b)
  else if String.eqb op "lt" then Some (fun a b => py_lt a b)
  else if String.eqb op "eq" then Some (fun a b => Some (py_eq a b))
  else if String.eqb op "is" then Some (fun a b => Some (is_same a b))
  else if String.eqb op "is_not" then Some (fun a b => Some (negb (is_same a b)))
  else if String.eqb op "contains" then Some (fun a b => py_contains a b)
  else None.

(** The result of the comparison itself, before the nested clauses. *)
Definition _base_result (context : dict) (a op : string) (val_b : value)
  : result bool :=
  let val_a := _lookup_path (VDict context) a in
  match val_a, ops_get op with
  | VNone, _ | _, None => Ok false
  | _, Some op_func =>
      match op_func val_a val_b with
      | Some r => Ok r
      | None =>
          match op_func (VStr (py_str val_a)) (VStr (py_str val_b)) with
          | Some r => Ok r
          | None => Raise TypeError
          end
      end
  end.

Fixpoint _evaluate_single_condition (context : dict) (condition : Condition.t)
  {struct condition} : result bool :=
  match condition with
  | Condition.Build a op val_b and_ or_ =>
      r <- _base_result context a op val_b ;;
      match r, and_, or_ with
      | true, Some (c :: cs), _ =>
          and_results <-
            gather (map (_evaluate_single_condition context) (c :: cs)) ;;
          Ok (forallb (fun x => x) and_results)
      | false, _, Some (c :: cs) =>
          or_results <-
            gather (map (_evaluate_single_condition context) (c :: cs)) ;;
          Ok (existsb (fun x => x) or_results)
      | _, _, _ => Ok r
      end
  end.

Definition _evaluate_conditions (context : dict)
    (conditions : option (list Condition.t)) : result bool :=
  match conditions with
  | Some (c :: cs) =>
      results <-
        gather (map (_evaluate_single_condition context) (c :: cs)) ;;
      Ok (forallb (fun x => x) results)
  | _ => Ok true
  end.


Record t : Type := Build {
  pipeline : Pipeline.t;
  query_sender : QuerySender.t;
  client : BackendAPIClient.t
}.

Definition _perform_llm_query (self : t) (model : string) (payload : Step.t)
    (system user : string) : io value :=
  QuerySender.execute (query_sender self) (Step.lang payload) model
    (Step.json payload) system user.

(** The context after the step. *)
Definition _execute_query_step (self : t) (context : dict) (step : Step.t)
  : io dict :=
  match Step.message step with
  | None => io_ret context
  | Some message =>
      let system_prompt := _substitute_variables context (Message.system message) in
      let user_prompt := _substitute_variables context (Message.user message) in
      let json_flag := opt_bool (Step.json step) in
      let model :=
        match Step.model step with
        | Some m => m
        | None => ""
        end in
      response <~ _perform_llm_query self model step system_prompt user_prompt ;;
      match Step.extract step with
      | Some (rule :: rules) =>
          content <~ io_lift (m <- py_getitem response "message" ;;
                              py_getitem m "content") ;;
          io_lift (_extract_data context content (rule :: rules) json_flag)
      | _ => io_ret context
      end
  end.

(** The loop of [execute] over the steps. *)
Fixpoint _run_steps (self : t) (context : dict) (steps : list Step.t)
  : io dict :=
  match steps with
  | [] => io_ret context
  | step :: steps' =>
      should_run <~ io_lift (_evaluate_conditions context (Step.if_condition step)) ;;
      if negb should_run then _run_steps self context steps'
      else if String.eqb (Step.action step) "query" then
        context' <~ _execute_query_step self context step ;;
        _run_steps self context' steps'
      else _run_steps self context steps'
  end.

Definition execute (self : t) (initial_input : value) : io dict :=
  _run_steps self [("input", initial_input)] (Pipeline.steps (pipeline self)).

End Executor.
End PipelineExecutor.

(** ** A host to run the model on

    One instance of [PyHost], for the concrete runs below.  It reads the
    JSON and the decimal numbers the examples use (no exponents, no unicode
    escapes) and, as [json.loads] does, the literals NaN, Infinity and
    -Infinity; it raises RecursionError on a document nested deeper than
    [recursion_limit].  It prints a float by its exact decimal expansion,
    quotes text in single quotes and takes [None], the booleans and the small
    ints for the only shared objects. *)

Module Sample.

Definition is_digit (c : ascii) : bool :=
  let n := N_of_ascii c in ((48 <=? n) && (n <=? 57))%N.

Definition is_ws (c : ascii) : bool :=
  let n := N_of_ascii c in ((n =? 32) || (n =? 9) || (n =? 10) || (n =? 13))%N.

Fixpoint skip_ws (s : string) : string :=
  match s with
  | String c s' => if is_ws c then skip_ws s' else s
  | EmptyString => ""
  end.

(** The digits at the head of the text: their value, their number, the rest. *)
Fixpoint digits (s : string) (acc : Z) (n : nat) : Z * nat * string :=
  match s with
  | String c s' =>
      if is_digit c
      then digits s' (10 * acc + Z.of_N (N_of_ascii c - 48)) (S n)
      else (acc, n, s)
  | EmptyString => (acc, n, "")
  end.

Definition SF_of_Z (z : Z) : spec_float := binary_normalize 53 1024 z 0 false.

(** [m / 10^k], rounded once. *)
Definition decimal (m : Z) (k : nat) : float :=
  SF2Prim (SFdiv 53 1024 (SF_of_Z m) (SF_of_Z (10 ^ Z.of_nat k))).

Definition number (s : string) : option (value * string) :=
  let (neg, s1) :=
    match s with
    | String "-" s' => (true, s')
    | _ => (false, s)
    end in
  let sign (z : Z) := if neg then - z else z in
  match digits s1 0 0 with
  | (_, O, _) => None
  | (i, _, String "." s2) =>
      match digits s2 i 0 with
      | (_, O, _) => None
      | (m, k, rest) => Some (VFloat (decimal (sign m) k), rest)
      end
  | (i, _, rest) => Some (VInt (sign i), rest)
  end.

(** The text of a string literal after its opening quote. *)
Fixpoint chars (s : string) : option (string * string) :=
  match s with
  | EmptyString => None
  | String "034" rest => Some ("", rest)
  | String "\" (String e s') =>
      let put (c : ascii) :=
        match chars s' with
        | Some (t, rest) => Some (String c t, rest)
        | None => None
        end in
      match e with
      | "034"%char => put "034"%char
      | "\"%char => put "\"%char
      | "/"%char => put "/"%char
      | "n"%char => put "010"%char
      | "t"%char => put "009"%char
      | _ => None
      end
  | String c s' =>
      match chars s' with
      | Some (t, rest) => Some (String c t, rest)
      | None => None
      end
  end.

(** The nesting the decoder follows; one level deeper it raises
    RecursionError. *)
Definition recursion_limit : nat := 1000.

Definition syntax {A : Type} (o : option A) : result A :=
  match o with
  | Some x => Ok x
  | None => Raise JSONDecodeError
  end.

Fixpoint parse_value (fuel room : nat) (s : string) : result (value * string) :=
  match fuel with
  | O => Raise JSONDecodeError
  | S fuel' =>
      match skip_ws s with
      | String "[" rest =>
          match room with
          | O => Raise RecursionError
          | S room' =>
              match skip_ws rest with
              | String "]" rest' => Ok (VList [], rest')
              | _ =>
                  match parse_items fuel' room' rest with
                  | Ok (l, rest') => Ok (VList l, rest')
                  | Raise e => Raise e
                  end
              end
          end
      | String "{" rest =>
          match room with
          | O => Raise RecursionError
          | S room' =>
              match skip_ws rest with
              | String "}" rest' => Ok (VDict [], rest')
              | _ =>
                  match parse_members fuel' room' rest [] with
                  | Ok (d, rest') => Ok (VDict d, rest')
                  | Raise e => Raise e
                  end
              end
          end
      | String "034" rest =>
          match chars rest with
          | Some (t, rest') => Ok (VStr t, rest')
          | None => Raise JSONDecodeError
          end
      | String "n" (String "u" (String "l" (String "l" rest))) =>
          Ok (VNone, rest)
      | String "t" (String "r" (String "u" (String "e" rest))) =>
          Ok (VBool true, rest)
      | String "f" (String "a" (String "l" (String "s" (String "e" rest)))) =>
          Ok (VBool false, rest)
      | String "N" (String "a" (String "N" rest)) =>
          Ok (VFloat nan, rest)
      | String "I" (String "n" (String "f" (String "i" (String "n"
          (String "i" (String "t" (String "y" rest))))))) =>
          Ok (VFloat infinity, rest)
      | String "-" (String "I" (String "n" (String "f" (String "i" (String "n"
          (String "i" (String "t" (String "y" rest)))))))) =>
          Ok (VFloat neg_infinity, rest)
      | s' => syntax (number s')
      end
  end
with parse_items (fuel room : nat) (s : string) : result (list value * string) :=
  match fuel with
  | O => Raise JSONDecodeError
  | S fuel' =>
      match parse_value fuel' room s with
      | Ok (v, rest) =>
          match skip_ws rest with
          | String "]" rest' => Ok ([v], rest')
          | String "," rest' =>
              match parse_items fuel' room rest' with
              | Ok (l, rest'') => Ok (v :: l, rest'')
              | Raise e => Raise e
              end
          | _ => Raise JSONDecodeError
          end
      | Raise e => Raise e
      end
  end
with parse_members (fuel room : nat) (s : string) (acc : dict)
  : result (dict * string) :=
  match fuel with
  | O => Raise JSONDecodeError
  | S fuel' =>
      match skip_ws s with
      | String "034" rest =>
          match chars rest with
          | Some (k, rest1) =>
              match skip_ws rest1 with
              | String ":" rest2 =>
                  match parse_value fuel' room rest2 with
                  | Ok (v, rest3) =>
                      let acc' := dict_set acc k v in
                      match skip_ws rest3 with
                      | String "}" rest4 => Ok (acc', rest4)
                      | String "," rest4 => parse_members fuel' room rest4 acc'
                      | _ => Raise JSONDecodeError
                      end
                  | Raise e => Raise e
                  end
              | _ => Raise JSONDecodeError
              end
          | None => Raise JSONDecodeError
          end
      | _ => Raise JSONDecodeError
      end
  end.

Definition loads (s : string) : result value :=
  match parse_value (2 * String.length s + 2) recursion_limit s with
  | Ok (v, rest) =>
      match skip_ws rest with
      | EmptyString => Ok v
      | _ => Raise JSONDecodeError
      end
  | Raise e => Raise e
  end.

Definition float_of_text (s : string) : option float :=
  match number s with
  | Some (VFloat f, EmptyString) => Some f
  | Some (VInt z, EmptyString) => float_of_Z z
  | _ => None
  end.

(** The exact decimal expansion of a finite float. *)
Definition repr_float (f : float) : string :=
  match Prim2SF f with
  | S754_nan => "nan"
  | S754_infinity s => if s then "-inf" else "inf"
  | S754_zero s => if s then "-0.0" else "0.0"
  | S754_finite s m e =>
      let sg := if s then "-" else "" in
      if 0 <=? e then (sg ++ str_of_Z (Z.pos m * 2 ^ e) ++ ".0")%string
      else
        let k := Z.to_nat (- e) in
        let n := Z.pos m * 5 ^ (- e) in
        let q := n / 10 ^ (- e) in
        let r := str_of_Z (n mod 10 ^ (- e)) in
        let frac :=
          rstrip "0" (string_of_list_ascii (repeat "0"%char (k - String.length r))
                        ++ r) in
        (sg ++ str_of_Z q ++ "."
            ++ match frac with EmptyString => "0" | _ => frac end)%string
  end.

Fixpoint escape (s : string) : string :=
  match s with
  | EmptyString => ""
  | String c s' =>
      if Ascii.eqb c "'" || Ascii.eqb c "\"
      then String "\" (String c (escape s'))
      else String c (escape s')
  end.

Definition repr_str (s : string) : string := ("'" ++ escape s ++ "'")%string.

Definition same (a b : value) : bool :=
  match a, b with
  | VNone, VNone => true
  | VBool x, VBool y => Bool.eqb x y
  | VInt x, VInt y => (x =? y) && (-5 <=? x) && (x <=? 256)
  | _, _ => false
  end.

#[export] Instance host : PyHost := {|
  float_of_str := float_of_text;
  float_repr := repr_float;
  str_repr := repr_str;
  is_same := same;
  json_loads := loads
|}.

End Sample.

(** A backend and a pipeline for the concrete runs. *)

Module Scenario.

Definition client : BackendAPIClient.t :=
  BackendAPIClient.Build "secret" "http://backend".

Definition sender : QuerySender.t :=
  QuerySender.Build (ModelPicker.Build client) client.

Definition capabilities : reply :=
  Json (VList [VStr "OCR::scan"; VStr "LLM::small"; VStr "LLM::big"]).

Definition accepted : reply :=
  Json (VDict [("id", VDict [("id", VStr "7"); ("cap", VStr "LLM::small")])]).

Definition processing : reply := Json (VDict [("status", VStr "processing")]).

Definition completed (content : string) : value :=
  VDict [("status", VStr "completed");
         ("output", VDict [("message", VDict [("content", VStr content)])])].

(** The pipeline of storage/pipelines.py. *)
Definition analyze : Step.t :=
  Step.Build "query" None (Some true) (Some "any") (Some "en")
    (Some (Message.Build []
             "You are a logs analyzer. Return a JSON with 3 fields: {suspicious: float[0-1], security_risk: boolean, reason: string}"
             "Analyze log line: '${input}'"))
    (Some [ExtractRule.Build "result_all" (Some ".") None None;
           ExtractRule.Build "sec_risk" (Some ".security_risk") None
             (Some "boolean");
           ExtractRule.Build "suspicious_coef" (Some ".suspicious") None
             (Some "number")]).

Definition explain : Step.t :=
  Step.Build "query"
    (Some [Condition.Build "suspicious_coef" "gt" (VFloat 0.75%float)
             (Some [Condition.Build "sec_risk" "is" (VBool true) None None])
             None])
    (Some false) (Some "any/strong") None
    (Some (Message.Build []
             "You are a helpful assistant"
             "You have got a log line: ${input}. Another LLM thinks that this is suspicious because of security risk and says: ${result_all.reason}. What do you think? Explain."))
    (Some [ExtractRule.Build "expert_response" None (Some true) None]).

Definition pipeline : Pipeline.t :=
  Pipeline.Build "My lovely LLM pipeline" [analyze; explain].

Definition executor : PipelineExecutor.t :=
  PipelineExecutor.Build pipeline sender client.

(** The text of a JSON object with the three fields the first step asks for. *)
Definition quoted (s : string) : string :=
  (String "034" s ++ String "034" "")%string.

Definition verdict (suspicious flag reason : string) : string :=
  ("{" ++ quoted "suspicious" ++ ": " ++ suspicious ++ ", "
       ++ quoted "security_risk" ++ ": " ++ flag ++ ", "
       ++ quoted "reason" ++ ": " ++ quoted reason ++ "}")%string.

(** The replies of the backend to a run of the two steps. *)
Definition two_rounds (suspicious : string) : list reply :=
  [capabilities; accepted; processing;
   Json (completed (verdict suspicious "true" "union select"));
   capabilities; accepted; Fault RequestError;
   Json (completed "It is an injection.")].

(** A response that opens [n] lists and closes none. *)
Definition unclosed (n : nat) : string :=
  string_of_list_ascii (repeat "["%char n).

End Scenario.

(** ** The session tokens (auth.py, api/v1.py) *)

Module Auth.

(** What the two lookups of a request give: the cookie [access_token] and
    the header [Authorization]. *)
Record Request : Type := {
  cookie_access_token : option string;
  authorization : option string
}.

(** The sets of tokens in memory, and the set each of the two modules
    calls [active_tokens].  [from auth import *] binds the name in api/v1.py
    to the set that auth.py had when it was imported. *)
Record state : Type := {
  objects : list (list string);
  auth_active_tokens : nat;
  v1_active_tokens : nat
}.

Definition deref (st : state) (ref : nat) : list string :=
  nth ref (objects st) [].

Fixpoint set_nth {A : Type} (l : list A) (i : nat) (x : A) : list A :=
  match l, i with
  | [], _ => []
  | _ :: l', O => x :: l'
  | y :: l', S i' => y :: set_nth l' i' x
  end.

(** The set at [ref] is changed in place. *)
Definition mutate (st : state) (ref : nat) (f : list string -> list string)
  : state :=
  {| objects := set_nth (objects st) ref (f (deref st ref));
     auth_active_tokens := auth_active_tokens st;
     v1_active_tokens := v1_active_tokens st |}.

(** The state after the imports, with the tokens loaded from the
    environment. *)
Definition initial (loaded : list string) : state :=
  {| objects := [loaded]; auth_active_tokens := O; v1_active_tokens := O |}.

Inductive outcome (A : Type) : Type :=
| Returns (x : A)
| IndexError
| HTTPException (status_code : Z) (detail : string).
Arguments Returns {A} x.
Arguments IndexError {A}.
Arguments HTTPException {A} status_code detail.

(** [auth_header.split(" ")[1]] *)
Definition bearer_token (auth_header : string) : outcome string :=
  match split " " auth_header with
  | _ :: token :: _ => Returns token
  | _ => IndexError
  end.

Definition is_bearer (auth_header : option string) : bool :=
  match auth_header with
  | Some h => negb (String.eqb h "") && startswith h "Bearer "
  | None => false
  end.

Definition add_token_to_active (st : state) (token : string) : state :=
  mutate st (auth_active_tokens st) (fun tokens => token :: tokens).

Definition remove_token_from_active (st : state) (token : string) : state :=
  mutate st (auth_active_tokens st)
    (filter (fun t => negb (String.eqb t token))).

(** [refresh_tokens_from_env], given what [load_tokens_from_env] returns:
    the name in auth.py is bound to a new set. *)
Definition refresh_tokens_from_env (st : state) (loaded : list string) : state :=
  {| objects := objects st ++ [loaded];
     auth_active_tokens := List.length (objects st);
     v1_active_tokens := v1_active_tokens st |}.

(** auth.py: the cookie first, the header when there is no cookie. *)
Definition verify_token (st : state) (request : Request)
  : outcome (option string) :=
  let active_tokens := deref st (auth_active_tokens st) in
  let check (token : option string) : option string :=
    match token with
    | Some t =>
        if negb (String.eqb t "") && mem_string t active_tokens
        then Some t else None
    | None => None
    end in
  if opt_str (cookie_access_token request)
  then Returns (check (cookie_access_token request))
  else if is_bearer (authorization request) then
    match authorization request with
    | Some h =>
        match bearer_token h with
        | Returns t => Returns (check (Some t))
        | IndexError => IndexError
        | HTTPException c d => HTTPException c d
        end
    | None => Returns (check (cookie_access_token request))
    end
  else Returns (check (cookie_access_token request)).

(** api/v1.py: the header first, then the cookie. *)
Definition get_token_from_request (st : state) (request : Request)
  : outcome (option string) :=
  let active_tokens := deref st (v1_active_tokens st) in
  let from_cookie : option string :=
    match cookie_access_token request with
    | Some t =>
        if negb (String.eqb t "") && mem_string t active_tokens
        then Some t else None
    | None => None
    end in
  if is_bearer (authorization request) then
    match authorization request with
    | Some h =>
        match bearer_token h with
        | Returns token =>
            if mem_string token active_tokens then Returns (Some token)
            else Returns from_cookie
        | IndexError => IndexError
        | HTTPException c d => HTTPException c d
        end
    | None => Returns from_cookie
    end
  else Returns from_cookie.

Definition require_auth (st : state) (request : Request) : outcome string :=
  match get_token_from_request st request with
  | Returns (Some token) =>
      if String.eqb token "" then
        HTTPException 401
          "Authentication required. Provide token via Authorization header or cookies."
      else Returns token
  | Returns None =>
      HTTPException 401
        "Authentication required. Provide token via Authorization header or cookies."
  | IndexError => IndexError
  | HTTPException c d => HTTPException c d
  end.

(** The part of [login] that decides: the credentials of the JSON body come
    first, then those of the form; [token] is the one just generated.  The
    token goes into the set that api/v1.py calls [active_tokens]. *)
Definition login (st : state) (credentials : option (string * string))
    (username password : option string) (token : string)
  : outcome (state * string) :=
  let checked (user pwd : string) : outcome (state * string) :=
    if String.eqb user "" || String.eqb pwd "" then
      HTTPException 400 "Username and password required"
    else if String.eqb user "invalid" then
      HTTPException 401 "Invalid credentials"
    else
      Returns (mutate st (v1_active_tokens st) (fun tokens => token :: tokens),
               token) in
  match credentials with
  | Some (user, pwd) => checked user pwd
  | None =>
      match username, password with
      | Some user, Some pwd =>
          if negb (String.eqb user "") && negb (String.eqb pwd "")
          then checked user pwd
          else HTTPException 400
                 "Provide credentials either as JSON body {'username': '...', 'password': '...'} or as form data"
      | _, _ =>
          HTTPException 400
            "Provide credentials either as JSON body {'username': '...', 'password': '...'} or as form data"
      end
  end.

End Auth.

(** ** The vocabulary of the properties *)

(** Induction on a condition tree, with the hypothesis on every nested
    clause. *)
Fixpoint Condition_nested_ind (P : Condition.t -> Prop)
    (step : forall a op b and_ or_,
        Forall P (opt_items and_) -> Forall P (opt_items or_) ->
        P (Condition.Build a op b and_ or_))
    (c : Condition.t) {struct c} : P c :=
  match c with
  | Condition.Build a op b and_ or_ =>
      let all :=
        fix all (l : list Condition.t) : Forall P l :=
          match l with
          | [] => Forall_nil P
          | x :: l' => Forall_cons x (Condition_nested_ind P step x) (all l')
          end in
      step a op b and_ or_
        (match and_ with Some l => all l | None => Forall_nil P end)
        (match or_ with Some l => all l | None => Forall_nil P end)
  end.

(** The truth value of a condition; [false] stands for an exception too,
    which [eval_is_holds] shows never happens. *)
Definition holds {host : PyHost} (context : dict) (c : Condition.t) : bool :=
  match PipelineExecutor._evaluate_single_condition context c with
  | Ok r => r
  | Raise _ => false
  end.

(** In the words of the specification: the reply is a payload whose status,
    lower-cased, is completed, failed or canceled. *)
Definition is_terminal (r : reply) : bool :=
  match r with
  | Json (VDict d) =>
      match dict_get d "status" with
      | Some (VStr s) => mem_string (lower s) ["completed"; "failed"; "canceled"]
      | _ => false
      end
  | _ => false
  end.

(** The requests and pauses of [n] turns of the loop that do not return. *)
Fixpoint turns (self : ApiWaiter.t) (n : nat) : list event :=
  match n with
  | O => []
  | S n' =>
      Post (ApiWaiter.url self) (ApiWaiter.payload self) :: Sleep 5
        :: turns self n'
  end.

Definition requests (tr : list event) : nat :=
  List.length (filter (fun e => match e with Post _ _ => true | Sleep _ => false end) tr).

(** The request of [check_capabilities_online]. *)
Definition capabilities_request (c : BackendAPIClient.t) : event :=
  Post (BackendAPIClient.backend_url c ++ "/api/capabilities/online")
       (VDict [("apiKey", VStr (BackendAPIClient.token c))]).

(** A step that runs: its gate holds, its action is a query and it has a
    message. *)
Definition dispatches {host : PyHost} (context : dict) (step : Step.t) : Prop :=
  PipelineExecutor._evaluate_conditions context (Step.if_condition step) = Ok true /\
  Step.action step = "query" /\
  Step.message step <> None.

(** A placeholder starts somewhere in the text. *)
Fixpoint has_placeholder (s : string) : bool :=
  match match_placeholder s with
  | Some _ => true
  | None =>
      match s with
      | EmptyString => false
      | String _ s' => has_placeholder s'
      end
  end.

(** A placeholder starts inside [lit] when [t] follows it. *)
Fixpoint starts_in (lit t : string) : bool :=
  match lit with
  | EmptyString => false
  | String c lit' =>
      match match_placeholder (String c lit' ++ t) with
      | Some _ => true
      | None => starts_in lit' t
      end
  end.

(** A template written as literal pieces, each followed by a placeholder,
    and a last literal piece. *)
Fixpoint template (pieces : list (string * string)) (tail : string) : string :=
  match pieces with
  | [] => tail
  | (lit, path) :: pieces' =>
      (lit ++ "${" ++ path ++ "}" ++ template pieces' tail)%string
  end.

(** The same pieces with every placeholder replaced by a text. *)
Fixpoint filled (text : string -> string) (pieces : list (string * string))
    (tail : string) : string :=
  match pieces with
  | [] => tail
  | (lit, path) :: pieces' =>
      (lit ++ text path ++ filled text pieces' tail)%string
  end.

(** The pieces are the literal text and the placeholders of the template:
    no placeholder starts inside a literal piece, a path is not empty and
    has no closing brace in it, and the last piece has no placeholder. *)
Fixpoint well_split (pieces : list (string * string)) (tail : string) : Prop :=
  match pieces with
  | [] => has_placeholder tail = false
  | (lit, path) :: pieces' =>
      starts_in lit ("${" ++ path ++ "}" ++ template pieces' tail) = false /\
      path <> "" /\
      is_substring "}" path = false /\
      well_split pieces' tail
  end.

(** A rule that selects no value: the rule is not fulltext, and it has no path,
    or there is no parsed document because the JSON mode is off, or its
    path does not resolve in the parsed document. *)
Definition yields_nothing {host : PyHost} (response : value) (is_json : bool)
    (rule : ExtractRule.t) : Prop :=
  opt_bool (ExtractRule.fulltext rule) = false /\
  (opt_str (ExtractRule.jq rule) = false \/
   is_json = false \/
   exists text data p,
     response = VStr text /\ json_loads text = Ok data /\
     ExtractRule.jq rule = Some p /\ p <> "." /\
     PipelineExecutor._lookup_path data (strip "." p) = VNone).

(** The number of constructors of a value. *)
Fixpoint value_size (v : value) : nat :=
  match v with
  | VList l => S (fold_right (fun x n => (value_size x + n)%nat) O l)
  | VDict d => S (fold_right (fun kv n => (value_size (snd kv) + n)%nat) O d)
  | _ => 1%nat
  end.

(** The request of [submit_task]. *)
Definition submit_request (c : BackendAPIClient.t)
    (model system_message user_message : string) (json_mode : bool) : event :=
  Post (BackendAPIClient.backend_url c ++ "/api/task/submit")
       (VDict [("capability", VStr model);
               ("urgent", VBool false);
               ("payload",
                VDict [("model", VStr model);
                       ("format", if json_mode then VStr "json" else VNone);
                       ("stream", VBool false);
                       ("messages",
                        VList [VDict [("role", VStr "system");
                                      ("content", VStr system_message)];
                               VDict [("role", VStr "user");
                                      ("content", VStr user_message)]])]);
               ("apiKey", VStr (BackendAPIClient.token c))]).

(** The character two hexadecimal digits stand for. *)
Definition unhex_digit (c : ascii) : N :=
  let n := N_of_ascii c in
  (if n <? 58 then n - 48 else n - 55)%N.

Definition unhex (hi lo : ascii) : ascii :=
  ascii_of_N (16 * unhex_digit hi + unhex_digit lo).

(** The keys of a dict, in order. *)
Definition keys {A : Type} (d : list (string * A)) : list string := map fst d.

(** The names the rules of a step write under. *)
Definition rule_names (step : Step.t) : list string :=
  map ExtractRule.name (opt_items (Step.extract step)).

(** From [before] to [after] no key is lost or moved, new keys come last,
    and a key outside [names] keeps its value. *)
Definition grows (names : list string) (before after : dict) : Prop :=
  (exists added, keys after = (keys before ++ added)%list) /\
  (forall k, ~ In k names -> dict_get after k = dict_get before k).

(** The waiter the sender makes for a task. *)
Definition task_waiter {host : PyHost} (c : BackendAPIClient.t) (encoded_capability : string)
    (task_id : value) : ApiWaiter.t :=
  ApiWaiter.Build
    (BackendAPIClient.backend_url c ++ "/api/task/poll/" ++ encoded_capability
       ++ "/" ++ py_str task_id)
    (VDict [("apiKey", VStr (BackendAPIClient.token c))]).

(** The two names are bound to sets that exist. *)
Definition auth_valid (st : Auth.state) : Prop :=
  (Auth.auth_active_tokens st < List.length (Auth.objects st))%nat /\
  (Auth.v1_active_tokens st < List.length (Auth.objects st))%nat.

(** The two modules still call the same set [active_tokens]. *)
Definition auth_shared (st : Auth.state) : Prop :=
  Auth.auth_active_tokens st = Auth.v1_active_tokens st.

(** In the words of the specification: the text is valid JSON, by the
    grammar of RFC 8259 (a value, with white space around it and between its
    tokens).  Every function answers the text left after what it read. *)
Module Rfc8259.

Definition is_ws (c : ascii) : bool :=
  let n := N_of_ascii c in ((n =? 32) || (n =? 9) || (n =? 10) || (n =? 13))%N.

Fixpoint ws (s : string) : string :=
  match s with
  | String c s' => if is_ws c then ws s' else s
  | EmptyString => ""
  end.

Definition is_digit (c : ascii) : bool :=
  let n := N_of_ascii c in ((48 <=? n) && (n <=? 57))%N.

Definition is_hex (c : ascii) : bool :=
  let n := N_of_ascii c in
  (((48 <=? n) && (n <=? 57)) || ((65 <=? n) && (n <=? 70))
   || ((97 <=? n) && (n <=? 102)))%N.

Fixpoint digits (s : string) : string :=
  match s with
  | String c s' => if is_digit c then digits s' else s
  | EmptyString => ""
  end.

Definition digits1 (s : string) : option string :=
  match s with
  | String c s' => if is_digit c then Some (digits s') else None
  | EmptyString => None
  end.

(** int = zero / ( digit1-9 *DIGIT ) *)
Definition int (s : string) : option string :=
  match s with
  | String "0" s' => Some s'
  | _ => digits1 s
  end.

(** [ frac ], frac = decimal-point 1*DIGIT *)
Definition frac (s : string) : option string :=
  match s with
  | String "." s' => digits1 s'
  | _ => Some s
  end.

(** [ exp ], exp = e [ minus / plus ] 1*DIGIT *)
Definition exp (s : string) : option string :=
  match s with
  | String "e" s' | String "E" s' =>
      match s' with
      | String "+" s'' | String "-" s'' => digits1 s''
      | _ => digits1 s'
      end
  | _ => Some s
  end.

(** number = [ minus ] int [ frac ] [ exp ] *)
Definition number (s : string) : option string :=
  let s1 := match s with String "-" s' => s' | _ => s end in
  match int s1 with
  | Some s2 =>
      match frac s2 with
      | Some s3 => exp s3
      | None => None
      end
  | None => None
  end.

(** The characters of a string after its opening quotation mark: no control
    character, and after a backslash one of the escapes. *)
Fixpoint chars (s : string) : option string :=
  match s with
  | EmptyString => None
  | String "034" rest => Some rest
  | String "\" (String e s') =>
      match e with
      | "034"%char | "\"%char | "/"%char | "b"%char | "f"%char | "n"%char
      | "r"%char | "t"%char => chars s'
      | "u"%char =>
          match s' with
          | String a (String b (String c (String d s''))) =>
              if is_hex a && is_hex b && is_hex c && is_hex d
              then chars s'' else None
          | _ => None
          end
      | _ => None
      end
  | String c s' => if (N_of_ascii c <? 32)%N then None else chars s'
  end.

Fixpoint json_value (fuel : nat) (s : string) : option string :=
  match fuel with
  | O => None
  | S fuel' =>
      match ws s with
      | String "[" rest =>
          match ws rest with
          | String "]" rest' => Some rest'
          | _ => elements fuel' rest
          end
      | String "{" rest =>
          match ws rest with
          | String "}" rest' => Some rest'
          | _ => members fuel' rest
          end
      | String "034" rest => chars rest
      | String "n" (String "u" (String "l" (String "l" rest))) => Some rest
      | String "t" (String "r" (String "u" (String "e" rest))) => Some rest
      | String "f" (String "a" (String "l" (String "s" (String "e" rest)))) =>
          Some rest
      | s' => number s'
      end
  end
with elements (fuel : nat) (s : string) : option string :=
  match fuel with
  | O => None
  | S fuel' =>
      match json_value fuel' s with
      | Some rest =>
          match ws rest with
          | String "]" rest' => Some rest'
          | String "," rest' => elements fuel' rest'
          | _ => None
          end
      | None => None
      end
  end
with members (fuel : nat) (s : string) : option string :=
  match fuel with
  | O => None
  | S fuel' =>
      match ws s with
      | String "034" rest =>
          match chars rest with
          | Some rest1 =>
              match ws rest1 with
              | String ":" rest2 =>
                  match json_value fuel' rest2 with
                  | Some rest3 =>
                      match ws rest3 with
                      | String "}" rest4 => Some rest4
                      | String "," rest4 => members fuel' rest4
                      | _ => None
                      end
                  | None => None
                  end
              | _ => None
              end
          | None => None
          end
      | _ => None
      end
  end.

End Rfc8259.

Definition valid_json (s : string) : bool :=
  match Rfc8259.json_value (2 * String.length s + 2) s with
  | Some rest =>
      match Rfc8259.ws rest with
      | EmptyString => true
      | _ => false
      end
  | None => false
  end.

(** * Properties *)

(** ** The condition evaluator *)

Section ConditionFacts.
Context {host : PyHost}.

Lemma gather_map_ok {A B : Type} (f : A -> result B) (g : A -> B) (l : list A) :
  Forall (fun x => f x = Ok (g x)) l -> gather (map f l) = Ok (map g l).
Proof.
  induction 1 as [|x l Hx _ IH]; simpl.
  - reflexivity.
  - rewrite Hx, IH. reflexivity.
Qed.

Lemma forallb_id_map {A : Type} (g : A -> bool) (l : list A) :
  forallb (fun x => x) (map g l) = forallb g l.
Proof. induction l as [|x l IH]; simpl; [|rewrite IH]; reflexivity. Qed.

Lemma existsb_id_map {A : Type} (g : A -> bool) (l : list A) :
  existsb (fun x => x) (map g l) = existsb g l.
Proof. induction l as [|x l IH]; simpl; [|rewrite IH]; reflexivity. Qed.

(** On two strings none of the six operators raises. *)
Lemma ops_on_text op op_func s t :
  PipelineExecutor.ops_get op = Some op_func ->
  exists r, op_func (VStr s) (VStr t) = Some r.
Proof.
  unfold PipelineExecutor.ops_get.
  repeat match goal with
         | |- context [String.eqb op ?k] => destruct (String.eqb op k)
         end;
    intros E; inversion E; subst; simpl; eauto.
Qed.

Lemma base_result_total context a op val_b :
  exists r, PipelineExecutor._base_result context a op val_b = Ok r.
Proof.
  unfold PipelineExecutor._base_result.
  destruct (PipelineExecutor.ops_get op) as [op_func|] eqn:Eop.
  - set (val_a := PipelineExecutor._lookup_path (VDict context) a).
    destruct (ops_on_text op op_func (py_str val_a) (py_str val_b) Eop) as [r Hr].
    destruct val_a; try (destruct (op_func _ val_b); [eauto|rewrite Hr; eauto]).
    eauto.
  - destruct (PipelineExecutor._lookup_path (VDict context) a); eauto.
Qed.

Lemma eval_unfold context a op val_b and_ or_ :
  PipelineExecutor._evaluate_single_condition context
    (Condition.Build a op val_b and_ or_)
  = (r <- PipelineExecutor._base_result context a op val_b ;;
     match r, and_, or_ with
     | true, Some (c :: cs), _ =>
         and_results <-
           gather (map (PipelineExecutor._evaluate_single_condition context) (c :: cs)) ;;
         Ok (forallb (fun x => x) and_results)
     | false, _, Some (c :: cs) =>
         or_results <-
           gather (map (PipelineExecutor._evaluate_single_condition context) (c :: cs)) ;;
         Ok (existsb (fun x => x) or_results)
     | _, _, _ => Ok r
     end).
Proof. reflexivity. Qed.

(** Evaluation never raises: its outcome is the truth value. *)
Lemma eval_is_holds context c :
  PipelineExecutor._evaluate_single_condition context c = Ok (holds context c).
Proof.
  assert (T : exists r, PipelineExecutor._evaluate_single_condition context c = Ok r).
  { induction c as [a op b and_ or_ IHand IHor] using Condition_nested_ind.
    rewrite eval_unfold.
    destruct (base_result_total context a op b) as [r ->]. cbn [bind].
    assert (G : forall l, Forall (fun c => exists r,
                  PipelineExecutor._evaluate_single_condition context c = Ok r) l ->
                exists rs, gather (map (PipelineExecutor._evaluate_single_condition context) l)
                           = Ok rs).
    { induction 1 as [|x l [rx Hx] _ [rs IH]]; cbn [map gather].
      - eauto.
      - rewrite Hx. cbn [bind]. rewrite IH. cbn [bind]. eauto. }
    destruct r.
    - destruct and_ as [[|c cs]|]; eauto.
      destruct (G _ IHand) as [rs Hrs]. cbn [opt_items] in Hrs.
      rewrite Hrs. cbn [bind]. eauto.
    - destruct or_ as [[|c cs]|]; try (destruct and_ as [[|? ?]|]; eauto; fail).
      destruct (G _ IHor) as [rs Hrs]. cbn [opt_items] in Hrs.
      destruct and_ as [[|? ?]|]; rewrite Hrs; cbn [bind]; eauto. }
  destruct T as [r Hr]. unfold holds. rewrite Hr. reflexivity.
Qed.

Lemma gather_eval context (l : list Condition.t) :
  gather (map (PipelineExecutor._evaluate_single_condition context) l)
  = Ok (map (holds context) l).
Proof.
  apply gather_map_ok. apply Forall_forall. intros c _. apply eval_is_holds.
Qed.

(** The gate of a step never raises. *)
Lemma gate_total context conditions :
  exists r, PipelineExecutor._evaluate_conditions context conditions = Ok r.
Proof.
  unfold PipelineExecutor._evaluate_conditions.
  destruct conditions as [[|c cs]|]; eauto.
  rewrite gather_eval. simpl. eauto.
Qed.

End ConditionFacts.

(** ** Extraction under JSON mode *)

(** Of the exceptions of [json.loads] only JSONDecodeError is caught: any
    other one leaves [_extract_data], and the context is not returned. *)
Lemma extract_lets_other_exceptions_through
    (host : PyHost) (context : dict) (response_text : string)
    (rules : list ExtractRule.t) (e : exn) :
  json_loads response_text = Raise e -> e <> JSONDecodeError ->
  PipelineExecutor._extract_data context (VStr response_text) rules true
  = Raise e.
Proof.
  intros Hbad Hother. unfold PipelineExecutor._extract_data. rewrite Hbad.
  destruct e; try reflexivity. contradiction Hother. reflexivity.
Qed.

(** C1, as the code has it.  When [json.loads] raises JSONDecodeError on the
    response text, [_extract_data] under JSON mode returns normally and the
    context is the one it was given, whatever the rules are, fulltext rules
    included.  When [json.loads] reads the text, valid JSON or not, the rules
    are applied to the document read.  (The debug log line is not part of
    the model.) *)
Theorem extract_malformed_json_keeps_context
    (host : PyHost) (context : dict) (response_text : string)
    (rules : list ExtractRule.t) :
  (json_loads response_text = Raise JSONDecodeError ->
   PipelineExecutor._extract_data context (VStr response_text) rules true
   = Ok context) /\
  (forall data, json_loads response_text = Ok data ->
   PipelineExecutor._extract_data context (VStr response_text) rules true
   = PipelineExecutor._extract_rules (VStr response_text) data context rules).
Proof.
  unfold PipelineExecutor._extract_data. split.
  - intros Hbad. rewrite Hbad. reflexivity.
  - intros data Hread. rewrite Hread. reflexivity.
Qed.

Lemma extract_malformed_json_keeps_context_witness :
  PipelineExecutor._extract_data (host:=Sample.host) [("input", VStr "log line")] (VStr "{oops")
    [ExtractRule.Build "all" None (Some true) None;
     ExtractRule.Build "score" (Some ".score") None (Some "number")] true
  = Ok [("input", VStr "log line")].
Proof.
  apply (extract_malformed_json_keeps_context Sample.host).
  reflexivity.
Defined.

(** C1, as the specification has it, fails: the text NaN is no valid JSON,
    [json.loads] reads it as a float all the same, and the rules write to
    the context, the fulltext rule the text itself. *)
Lemma extract_reads_invalid_json_counterexample :
  valid_json "NaN" = false /\
  PipelineExecutor._extract_data (host:=Sample.host) [("input", VStr "log line")] (VStr "NaN")
    [ExtractRule.Build "all" None (Some true) None;
     ExtractRule.Build "score" (Some ".") None None] true
  = Ok [("input", VStr "log line"); ("all", VStr "NaN"); ("score", VFloat nan)].
Proof.
  split; reflexivity.
Qed.

(** ** Conditions whose path does not resolve *)

(** C2, as the code has it.  When the path [a] of a condition does not
    resolve, the comparison counts as false and nothing is raised; the [and]
    list is not consulted, but the [or] list is: the condition evaluates to
    the disjunction of its [or] clauses, which is false when there are
    none. *)
Theorem unresolved_path_falls_to_or
    (host : PyHost) (context : dict) (a op : string) (val_b : value)
    (and_ or_ : option (list Condition.t)) :
  PipelineExecutor._lookup_path (VDict context) a = VNone ->
  PipelineExecutor._base_result context a op val_b = Ok false /\
  PipelineExecutor._evaluate_single_condition context
    (Condition.Build a op val_b and_ or_)
  = Ok (existsb (holds context) (opt_items or_)).
Proof.
  intros Hmiss.
  assert (Hbase : PipelineExecutor._base_result context a op val_b = Ok false).
  { unfold PipelineExecutor._base_result. rewrite Hmiss. reflexivity. }
  split; [exact Hbase|].
  rewrite eval_unfold, Hbase. cbn [bind].
  destruct or_ as [[|c cs]|]; try reflexivity.
  rewrite gather_eval. cbn [bind opt_items].
  rewrite existsb_id_map. reflexivity.
Qed.

Lemma unresolved_path_falls_to_or_witness :
  PipelineExecutor._base_result (host:=Sample.host) [("y", VInt 2)] "x" "eq" (VInt 1) = Ok false /\
  PipelineExecutor._evaluate_single_condition (host:=Sample.host) [("y", VInt 2)]
    (Condition.Build "x" "eq" (VInt 1)
       (Some [Condition.Build "y" "eq" (VInt 3) None None]) None)
  = Ok false.
Proof.
  apply (unresolved_path_falls_to_or Sample.host [("y", VInt 2)] "x" "eq"
           (VInt 1) (Some [Condition.Build "y" "eq" (VInt 3) None None]) None).
  reflexivity.
Defined.

(** C2 as stated fails: with the context [{y: 2}] the path [x]
    does not resolve, yet the condition [x eq 1 or (y eq 2)] evaluates to
    true, through its [or] list. *)
Lemma unresolved_path_or_counterexample :
  PipelineExecutor._lookup_path (VDict [("y", VInt 2)]) "x" = VNone /\
  PipelineExecutor._evaluate_single_condition (host:=Sample.host) [("y", VInt 2)]
    (Condition.Build "x" "eq" (VInt 1) None
       (Some [Condition.Build "y" "eq" (VInt 2) None None]))
  = Ok true.
Proof. split; reflexivity. Qed.

(** ** Operators that raise on mismatched types *)

(** C3.  When the operator raises TypeError on the resolved operand and the
    literal, it is applied again to their [str] forms, and the result of
    that second application is the base result.  On two strings none of the
    operators raises, so a second failure does not arise, and neither the
    comparison nor the condition around it raises. *)
Theorem type_error_retries_on_text
    (host : PyHost) (context : dict) (a op : string) (val_b : value)
    (op_func : value -> value -> option bool) :
  PipelineExecutor._lookup_path (VDict context) a <> VNone ->
  PipelineExecutor.ops_get op = Some op_func ->
  op_func (PipelineExecutor._lookup_path (VDict context) a) val_b = None ->
  (exists r,
      op_func (VStr (py_str (PipelineExecutor._lookup_path (VDict context) a)))
              (VStr (py_str val_b)) = Some r /\
      PipelineExecutor._base_result context a op val_b = Ok r) /\
  (forall and_ or_, exists r,
      PipelineExecutor._evaluate_single_condition context
        (Condition.Build a op val_b and_ or_) = Ok r).
Proof.
  intros Hfound Hop Hraise. split.
  - destruct (ops_on_text op op_func
                (py_str (PipelineExecutor._lookup_path (VDict context) a))
                (py_str val_b) Hop) as [r Hr].
    exists r. split; [exact Hr|].
    unfold PipelineExecutor._base_result. rewrite Hop.
    destruct (PipelineExecutor._lookup_path (VDict context) a) eqn:E;
      try (rewrite Hraise, Hr; reflexivity).
    contradiction.
  - intros and_ or_. eexists. apply eval_is_holds.
Qed.

Lemma type_error_retries_on_text_witness :
  (exists r,
      py_gt (host:=Sample.host) (VStr "10") (VStr "5") = Some r /\
      PipelineExecutor._base_result (host:=Sample.host) [("x", VInt 10)] "x" "gt" (VStr "5") = Ok r) /\
  (forall and_ or_, exists r,
      PipelineExecutor._evaluate_single_condition (host:=Sample.host) [("x", VInt 10)]
        (Condition.Build "x" "gt" (VStr "5") and_ or_) = Ok r).
Proof.
  apply (type_error_retries_on_text Sample.host [("x", VInt 10)] "x" "gt"
           (VStr "5") (fun a b => py_gt a b)).
  - discriminate.
  - reflexivity.
  - reflexivity.
Defined.

(** ** The completion waiter *)

Section WaiterFacts.
Context {host : PyHost}.

Lemma poll_reply_terminal (data : value) :
  is_terminal (Json data) = true ->
  ApiWaiter._poll_reply (Json data) = Ok (Some data).
Proof.
  destruct data as [| | | | |l|d]; try discriminate.
  simpl. unfold dict_has.
  destruct (dict_get d "status") as [[| | | |s| |]|]; try discriminate.
  simpl. intros ->. reflexivity.
Qed.

Lemma poll_reply_not_terminal (r : reply) (data : value) :
  is_terminal r = false ->
  ApiWaiter._poll_reply r <> Ok (Some data).
Proof.
  destruct r as [e|[| | | | |l|d]]; simpl; try discriminate.
  - destruct (is_substring "status" s); discriminate.
  - destruct (existsb _ l); discriminate.
  - unfold dict_has.
    destruct (dict_get d "status") as [[| | | |s| |]|]; simpl; try discriminate.
    intros ->. discriminate.
Qed.

Lemma poll_loop_returns (self : ApiWaiter.t) (pre : list reply) (data : value)
    (post : list reply) :
  Forall (fun r => is_terminal r = false) pre ->
  is_terminal (Json data) = true ->
  forall tr,
    ApiWaiter._poll_loop self (pre ++ Json data :: post) tr
    = (Some (Ok data),
       World post (tr ++ turns self (List.length pre)
                      ++ [Post (ApiWaiter.url self) (ApiWaiter.payload self)])).
Proof.
  intros Hpre Hdata. induction Hpre as [|r pre Hr _ IH]; intros tr.
  - cbn [app ApiWaiter._poll_loop List.length turns].
    rewrite (poll_reply_terminal data Hdata). reflexivity.
  - cbn [app ApiWaiter._poll_loop List.length turns].
    pose proof (poll_reply_not_terminal r) as Hno.
    destruct (ApiWaiter._poll_reply r) as [[d|]|e].
    + exfalso. apply (Hno d Hr). reflexivity.
    + rewrite IH. repeat rewrite <- app_assoc. reflexivity.
    + rewrite IH. repeat rewrite <- app_assoc. reflexivity.
Qed.

(** With no terminal reply in it, the script runs out and the waiter never
    returns: it has no bound on the number of its requests. *)
Lemma poll_loop_unbounded (self : ApiWaiter.t) (replies : list reply) :
  Forall (fun r => is_terminal r = false) replies ->
  forall tr, fst (ApiWaiter._poll_loop self replies tr) = None.
Proof.
  induction 1 as [|r replies Hr _ IH]; intros tr.
  - reflexivity.
  - cbn [ApiWaiter._poll_loop].
    pose proof (poll_reply_not_terminal r) as Hno.
    destruct (ApiWaiter._poll_reply r) as [[d|]|e]; try apply IH.
    exfalso. apply (Hno d Hr). reflexivity.
Qed.

Lemma requests_turns (self : ApiWaiter.t) (n : nat) (tl : list event) :
  requests (turns self n ++ tl) = (n + requests tl)%nat.
Proof.
  unfold requests. induction n as [|n IH]; simpl.
  - reflexivity.
  - f_equal. exact IH.
Qed.

End WaiterFacts.

(** C4.  Facing replies of which the first terminal one comes after [n]
    others (faults, bodies without a status, statuses that are not
    terminal), the waiter sends exactly [n + 1] requests, pauses five
    seconds after each of the first [n], and returns that terminal payload
    as it is, whichever of completed, failed or canceled its status is and
    in whatever case it is written. *)
Theorem waiter_returns_first_terminal
    (host : PyHost) (self : ApiWaiter.t) (pre : list reply) (data : value)
    (post : list reply) (tr : list event) :
  Forall (fun r => is_terminal r = false) pre ->
  is_terminal (Json data) = true ->
  ApiWaiter.wait_for_status self (World (pre ++ Json data :: post) tr)
  = (Some (Ok data),
     World post (tr ++ turns self (List.length pre)
                    ++ [Post (ApiWaiter.url self) (ApiWaiter.payload self)])) /\
  requests (turns self (List.length pre)
              ++ [Post (ApiWaiter.url self) (ApiWaiter.payload self)])
  = S (List.length pre).
Proof.
  intros Hpre Hdata. split.
  - unfold ApiWaiter.wait_for_status. cbn [script trace].
    apply poll_loop_returns; assumption.
  - rewrite requests_turns. unfold requests. simpl. lia.
Qed.

Lemma waiter_returns_first_terminal_witness :
  let self := ApiWaiter.Build "http://backend/api/task/poll/LLM%3A%3Am/7"
                (VDict [("apiKey", VStr "k")]) in
  let processing := Json (VDict [("status", VStr "processing")]) in
  let completed :=
    VDict [("status", VStr "completed");
           ("output", VDict [("message", VDict [("content", VStr "done")])])] in
  let poll := Post (ApiWaiter.url self) (ApiWaiter.payload self) in
  ApiWaiter.wait_for_status (host:=Sample.host) self
    (World [processing; processing; Json completed] [])
  = (Some (Ok completed), World [] [poll; Sleep 5; poll; Sleep 5; poll]) /\
  requests [poll; Sleep 5; poll; Sleep 5; poll] = 3%nat.
Proof.
  intros self processing completed poll.
  apply (waiter_returns_first_terminal Sample.host self
           [processing; processing] completed [] []).
  - repeat constructor.
  - reflexivity.
Defined.

(** ** The dispatcher *)

Section DispatcherFacts.
Context {host : PyHost}.

Lemma io_bind_ok {A B : Type} (m : io A) (k : A -> io B) w x w1 :
  m w = (Some (Ok x), w1) -> io_bind m k w = k x w1.
Proof. intros E. unfold io_bind. rewrite E. reflexivity. Qed.

Lemma io_bind_raise {A B : Type} (m : io A) (k : A -> io B) w e w1 :
  m w = (Some (Raise e), w1) -> io_bind m k w = (Some (Raise e), w1).
Proof. intros E. unfold io_bind. rewrite E. reflexivity. Qed.

(** What a bind that returns went through. *)
Lemma io_bind_inv {A B : Type} (m : io A) (k : A -> io B) w y w' :
  io_bind m k w = (Some (Ok y), w') ->
  exists x w1, m w = (Some (Ok x), w1) /\ k x w1 = (Some (Ok y), w').
Proof.
  unfold io_bind. destruct (m w) as [[[x|e]|] w1]; intros E.
  - eauto.
  - discriminate.
  - discriminate.
Qed.

Lemma io_lift_inv {A : Type} (r : result A) w x w1 :
  io_lift r w = (Some (Ok x), w1) -> r = Ok x /\ w1 = w.
Proof. unfold io_lift. intros E. inversion E. auto. Qed.

Lemma http_post_inv url body w x w1 :
  http_post url body w = (Some (Ok x), w1) -> script w = Json x :: script w1.
Proof.
  unfold http_post. destruct (script w) as [|[e|v] rest]; intros E;
    inversion E; reflexivity.
Qed.

Lemma poll_reply_inv (r : reply) (data : value) :
  ApiWaiter._poll_reply r = Ok (Some data) ->
  r = Json data /\ is_terminal r = true.
Proof.
  intros E. split.
  - destruct r as [e|body]; cbn [ApiWaiter._poll_reply] in E; [discriminate|].
    destruct (py_contains body (VStr "status")) as [[|]|]; try discriminate.
    destruct (py_getitem body "status") as [[| | | |s| |]|e]; cbn [bind] in E;
      try discriminate.
    destruct (mem_string (lower s) _); inversion E. reflexivity.
  - destruct (is_terminal r) eqn:T; [reflexivity|].
    exfalso. exact (poll_reply_not_terminal r data T E).
Qed.

(** A waiter that returns has met a terminal payload, and returns it. *)
Lemma poll_loop_inv (self : ApiWaiter.t) (replies : list reply) :
  forall tr v w',
    ApiWaiter._poll_loop self replies tr = (Some (Ok v), w') ->
    exists pre, replies = pre ++ Json v :: script w' /\
                is_terminal (Json v) = true.
Proof.
  induction replies as [|r replies IH]; intros tr v w' E.
  - discriminate.
  - cbn [ApiWaiter._poll_loop] in E.
    destruct (ApiWaiter._poll_reply r) as [[d|]|e] eqn:R.
    + inversion E; subst. apply poll_reply_inv in R. destruct R as [-> T].
      exists []. split; [reflexivity|exact T].
    + destruct (IH _ _ _ E) as [pre [-> T]]. exists (r :: pre). auto.
    + destruct (IH _ _ _ E) as [pre [-> T]]. exists (r :: pre). auto.
Qed.

Lemma usable_text (caps : list string) :
  ModelPicker._usable (map VStr caps)
  = Ok (filter (fun x => startswith x "LLM::") caps).
Proof.
  induction caps as [|x caps IH]; cbn [map ModelPicker._usable filter].
  - reflexivity.
  - rewrite IH. cbn [bind]. destruct (startswith x "LLM::"); reflexivity.
Qed.

Lemma first_of_filter {A : Type} (p : A -> bool) (l : list A) :
  match filter p l with x :: _ => Some x | [] => None end = find p l.
Proof.
  induction l as [|x l IH]; simpl; [reflexivity|].
  destruct (p x); [reflexivity|exact IH].
Qed.

Lemma consider_model_first (self : ModelPicker.t) (request : string)
    (lang : option string) (caps : list string) (rest : list reply)
    (tr : list event) :
  ModelPicker.consider_model self request lang
    (World (Json (VList (map VStr caps)) :: rest) tr)
  = (Some (Ok (find (fun x => startswith x "LLM::") caps)),
     World rest (tr ++ [capabilities_request (ModelPicker.client self)])).
Proof.
  unfold ModelPicker.consider_model.
  erewrite io_bind_ok by reflexivity.
  cbn [py_iter]. erewrite (io_bind_ok (io_lift _)) by reflexivity.
  rewrite usable_text. erewrite (io_bind_ok (io_lift _)) by reflexivity.
  rewrite <- first_of_filter.
  destruct (filter _ caps); reflexivity.
Qed.

Lemma sender_no_capability (self : QuerySender.t) (lang : option string)
    (model_requested : string) (payload_json : option bool)
    (system_message user_message : string) (caps : list string)
    (rest : list reply) (tr : list event) :
  find (fun x => startswith x "LLM::") caps = None ->
  QuerySender.execute self lang model_requested payload_json system_message
    user_message (World (Json (VList (map VStr caps)) :: rest) tr)
  = (Some (Raise (ValueError ("Cannot find a model for request "
                                ++ model_requested))),
     World rest (tr ++ [capabilities_request
                          (ModelPicker.client (QuerySender.model_picker self))])).
Proof.
  intros Hnone. unfold QuerySender.execute.
  erewrite io_bind_ok by apply consider_model_first.
  rewrite Hnone. reflexivity.
Qed.

Lemma submit_task_post (c : BackendAPIClient.t)
    (model system_message user_message : string) (json_mode : bool)
    (r : reply) (rest : list reply) (tr : list event) :
  BackendAPIClient.submit_task c model system_message user_message json_mode
    (World (r :: rest) tr)
  = (Some (match r with Fault e => Raise e | Json v => Ok v end),
     World rest
       (tr ++ [submit_request c model system_message user_message json_mode])).
Proof. destruct r; reflexivity. Qed.

Lemma sender_run (self : QuerySender.t) (lang : option string)
    (model_requested : string) (payload_json : option bool)
    (system_message user_message : string) (caps : list string) (m : string)
    (task task_id capability : value) (encoded : string) (pre : list reply)
    (payload : value) (post : list reply) (tr : list event) :
  find (fun x => startswith x "LLM::") caps = Some m ->
  (id <- py_getitem task "id" ;; py_getitem id "id") = Ok task_id ->
  (id <- py_getitem task "id" ;; py_getitem id "cap") = Ok capability ->
  BackendAPIClient.qpart capability = Ok encoded ->
  Forall (fun r => is_terminal r = false) pre ->
  is_terminal (Json payload) = true ->
  let c := QuerySender.client self in
  let waiter := task_waiter c encoded task_id in
  QuerySender.execute self lang model_requested payload_json system_message
    user_message
    (World (Json (VList (map VStr caps)) :: Json task
              :: pre ++ Json payload :: post) tr)
  = (Some (py_getitem payload "output"),
     World post
       (tr ++ [capabilities_request
                 (ModelPicker.client (QuerySender.model_picker self));
               submit_request c m system_message user_message
                 (opt_bool payload_json)]
           ++ turns waiter (List.length pre)
           ++ [Post (ApiWaiter.url waiter) (ApiWaiter.payload waiter)])).
Proof.
  intros Hfind Hid Hcap Hq Hpre Hterm c waiter.
  unfold QuerySender.execute.
  erewrite io_bind_ok by apply consider_model_first.
  rewrite Hfind.
  erewrite io_bind_ok by exact (submit_task_post _ _ _ _ _ (Json task) _ _).
  rewrite Hid. erewrite (io_bind_ok (io_lift _)) by reflexivity.
  rewrite Hcap. erewrite (io_bind_ok (io_lift _)) by reflexivity.
  unfold BackendAPIClient.create_task_waiter. rewrite Hq. cbn [bind].
  erewrite (io_bind_ok (io_lift _)) by reflexivity.
  erewrite io_bind_ok.
  2:{ unfold ApiWaiter.wait_for_status. cbn [script trace].
      apply poll_loop_returns; assumption. }
  unfold io_lift. repeat rewrite <- app_assoc. reflexivity.
Qed.

End DispatcherFacts.

Lemma consider_model_inv (host : PyHost) (self : ModelPicker.t)
    (request : string) (lang : option string) w picked w1 :
  ModelPicker.consider_model self request lang w = (Some (Ok picked), w1) ->
  exists available, script w = Json available :: script w1.
Proof.
  unfold ModelPicker.consider_model. intros E.
  apply io_bind_inv in E. destruct E as (available & wa & Epost & E).
  apply io_bind_inv in E. destruct E as (items & wb & Eitems & E).
  apply io_bind_inv in E. destruct E as (usable & wc & Eusable & E).
  apply io_lift_inv in Eitems. destruct Eitems as [_ ->].
  apply io_lift_inv in Eusable. destruct Eusable as [_ ->].
  exists available.
  apply http_post_inv in Epost. rewrite Epost.
  destruct usable; inversion E; reflexivity.
Qed.

(** Whenever the query sender returns, the waiter has met a terminal payload
    among the replies of the backend, and what the sender returns is the
    [output] field of that payload. *)
Lemma sender_returns_inv
    (host : PyHost) (self : QuerySender.t) (lang : option string)
    (model_requested : string) (payload_json : option bool)
    (system_message user_message : string) (w : world) (v : value)
    (w' : world) :
  QuerySender.execute self lang model_requested payload_json system_message
    user_message w = (Some (Ok v), w') ->
  exists pre payload,
    script w = pre ++ Json payload :: script w' /\
    is_terminal (Json payload) = true /\
    py_getitem payload "output" = Ok v.
Proof.
  unfold QuerySender.execute. intros E.
  apply io_bind_inv in E. destruct E as (picked & w1 & Epick & E).
  apply (consider_model_inv host) in Epick. destruct Epick as [available Hw].
  destruct picked as [picked_model|]; [|discriminate E].
  apply io_bind_inv in E. destruct E as (task & w2 & Esubmit & E).
  apply http_post_inv in Esubmit.
  apply io_bind_inv in E. destruct E as (task_id & w3 & Eid & E).
  apply io_lift_inv in Eid. destruct Eid as [_ ->].
  apply io_bind_inv in E. destruct E as (task_capability & w4 & Ecap & E).
  apply io_lift_inv in Ecap. destruct Ecap as [_ ->].
  apply io_bind_inv in E. destruct E as (awaiter & w5 & Ewaiter & E).
  apply io_lift_inv in Ewaiter. destruct Ewaiter as [_ ->].
  apply io_bind_inv in E. destruct E as (payload & w6 & Ewait & E).
  apply io_lift_inv in E. destruct E as [Eout ->].
  apply poll_loop_inv in Ewait. destruct Ewait as (pre & Hpre & Hterm).
  exists (Json available :: Json task :: pre), payload.
  split; [|split; assumption].
  rewrite Hw, Esubmit, Hpre. reflexivity.
Qed.

(** C5, as the code has it.  A dispatch that goes through returns the
    [output] field of the terminal payload; the content is read from it
    later, by the executor.  That is: when the backend advertises a
    capability with the prefix, accepts the task with an id and a
    capability, and answers the polls with a terminal payload that has an
    [output], after any number of replies that are not terminal, then the
    sender does return, what it returns is that [output], and the replies
    after the terminal payload are left unread.  And it returns in no other
    way: whatever the sender returns is the [output] of a terminal payload
    among the replies it read. *)
Theorem sender_returns_output_field
    (host : PyHost) (self : QuerySender.t) (lang : option string)
    (model_requested : string) (payload_json : option bool)
    (system_message user_message : string) :
  (forall (caps : list string) (m : string) (task task_id capability : value)
          (encoded : string) (pre : list reply) (payload out : value)
          (post : list reply) (tr : list event),
      find (fun x => startswith x "LLM::") caps = Some m ->
      (id <- py_getitem task "id" ;; py_getitem id "id") = Ok task_id ->
      (id <- py_getitem task "id" ;; py_getitem id "cap") = Ok capability ->
      BackendAPIClient.qpart capability = Ok encoded ->
      Forall (fun r => is_terminal r = false) pre ->
      is_terminal (Json payload) = true ->
      py_getitem payload "output" = Ok out ->
      let run :=
        QuerySender.execute self lang model_requested payload_json
          system_message user_message
          (World (Json (VList (map VStr caps)) :: Json task
                    :: pre ++ Json payload :: post) tr) in
      fst run = Some (Ok out) /\ script (snd run) = post) /\
  (forall (w : world) (v : value) (w' : world),
      QuerySender.execute self lang model_requested payload_json system_message
        user_message w = (Some (Ok v), w') ->
      exists pre payload,
        script w = pre ++ Json payload :: script w' /\
        is_terminal (Json payload) = true /\
        py_getitem payload "output" = Ok v).
Proof.
  split.
  - intros caps m task task_id capability encoded pre payload out post tr
      Hfind Hid Hcap Hq Hpre Hterm Hout run.
    subst run.
    rewrite (sender_run self lang model_requested payload_json system_message
               user_message caps m task task_id capability encoded pre
               payload post tr Hfind Hid Hcap Hq Hpre Hterm).
    rewrite Hout. split; reflexivity.
  - intros w v w'. apply sender_returns_inv.
Qed.

Lemma sender_returns_output_field_witness :
  let run := QuerySender.execute (host:=Sample.host) Scenario.sender
               (Some "en") "any" None "sys" "usr"
               (World [Scenario.capabilities; Scenario.accepted;
                       Scenario.processing; Json (Scenario.completed "hi")]
                  []) in
  fst run = Some (Ok (VDict [("message", VDict [("content", VStr "hi")])])) /\
  script (snd run) = [].
Proof.
  destruct (sender_returns_output_field Sample.host Scenario.sender
              (Some "en") "any" None "sys" "usr") as [Hrun _].
  apply (Hrun ["OCR::scan"; "LLM::small"; "LLM::big"] "LLM::small"
           (VDict [("id", VDict [("id", VStr "7"); ("cap", VStr "LLM::small")])])
           (VStr "7") (VStr "LLM::small") "LLM%3A%3Asmall"
           [Scenario.processing] (Scenario.completed "hi")
           (VDict [("message", VDict [("content", VStr "hi")])]) [] []).
  - reflexivity.
  - reflexivity.
  - reflexivity.
  - reflexivity.
  - repeat constructor.
  - reflexivity.
  - reflexivity.
Defined.

(** C5 as stated fails: the terminal payload has the content
    ["hi"] under [output.message.content], and the sender returns the whole
    [output] object, not that text. *)
Lemma sender_returns_content_counterexample :
  let payload := Scenario.completed "hi" in
  (out <- py_getitem payload "output" ;;
   m <- py_getitem out "message" ;;
   py_getitem m "content") = Ok (VStr "hi") /\
  fst (QuerySender.execute (host:=Sample.host) Scenario.sender (Some "en")
         "any" None "sys" "usr"
         (World [Scenario.capabilities; Scenario.accepted;
                 Scenario.processing; Json payload] []))
  = Some (Ok (VDict [("message", VDict [("content", VStr "hi")])])) /\
  VDict [("message", VDict [("content", VStr "hi")])] <> VStr "hi".
Proof.
  split; [reflexivity|]. split; [vm_compute; reflexivity|discriminate].
Qed.

(** ** No capability to dispatch to *)

Section ExecutorFacts.
Context {host : PyHost}.

Lemma io_bind_assoc {A B C : Type} (m : io A) (k : A -> io B) (k' : B -> io C) w :
  io_bind (io_bind m k) k' w = io_bind m (fun x => io_bind (k x) k') w.
Proof.
  unfold io_bind. destruct (m w) as [[[x|e]|] w1]; reflexivity.
Qed.

Lemma io_bind_ext {A B : Type} (m : io A) (k k' : A -> io B) w :
  (forall x w1, k x w1 = k' x w1) -> io_bind m k w = io_bind m k' w.
Proof.
  intros H. unfold io_bind. destruct (m w) as [[[x|e]|] w1]; auto.
Qed.

Lemma run_steps_app (self : PipelineExecutor.t) (earlier later : list Step.t) :
  forall context w,
    PipelineExecutor._run_steps self context (earlier ++ later) w
    = io_bind (PipelineExecutor._run_steps self context earlier)
        (fun c => PipelineExecutor._run_steps self c later) w.
Proof.
  induction earlier as [|step earlier IH]; intros context w.
  - reflexivity.
  - cbn [app PipelineExecutor._run_steps].
    rewrite io_bind_assoc. apply io_bind_ext. intros should_run w1.
    destruct (negb should_run); [apply IH|].
    destruct (String.eqb (Step.action step) "query"); [|apply IH].
    rewrite io_bind_assoc. apply io_bind_ext. intros context' w2. apply IH.
Qed.

Lemma step_no_capability (self : PipelineExecutor.t) (context : dict)
    (step : Step.t) (later : list Step.t) (caps : list string)
    (rest : list reply) (tr : list event) :
  dispatches context step ->
  find (fun x => startswith x "LLM::") caps = None ->
  PipelineExecutor._run_steps self context (step :: later)
    (World (Json (VList (map VStr caps)) :: rest) tr)
  = (Some (Raise (ValueError
        ("Cannot find a model for request "
           ++ match Step.model step with Some m => m | None => "" end))),
     World rest
       (tr ++ [capabilities_request
                 (ModelPicker.client
                    (QuerySender.model_picker
                       (PipelineExecutor.query_sender self)))])).
Proof.
  intros (Hgate & Haction & Hmessage) Hnone.
  cbn [PipelineExecutor._run_steps]. rewrite Hgate, Haction.
  erewrite io_bind_ok by reflexivity. cbn [negb String.eqb].
  change (String.eqb "query" "query") with true. cbv iota.
  apply io_bind_raise.
  unfold PipelineExecutor._execute_query_step.
  destruct (Step.message step) as [message|]; [|contradiction].
  apply io_bind_raise. unfold PipelineExecutor._perform_llm_query.
  apply sender_no_capability. exact Hnone.
Qed.

End ExecutorFacts.

(** C6.  The picker returns the first advertised capability that starts
    with ["LLM::"].  When none does, the sender raises (a ValueError that
    says it cannot find a model, the code's form of NoCapabilityAvailable),
    and a pipeline that reaches a dispatching step in that state ends with
    this exception: no step after it runs, and the capabilities request is
    the last thing sent. *)
Theorem no_capability_aborts_execution
    (host : PyHost) (self : PipelineExecutor.t) (initial_input : value)
    (earlier : list Step.t) (step : Step.t) (later : list Step.t)
    (context : dict) (request : string) (lang : option string)
    (caps : list string) (rest : list reply) (tr : list event) (w0 : world) :
  let picker := QuerySender.model_picker (PipelineExecutor.query_sender self) in
  let asked := capabilities_request (ModelPicker.client picker) in
  let w := World (Json (VList (map VStr caps)) :: rest) tr in
  ModelPicker.consider_model picker request lang w
  = (Some (Ok (find (fun x => startswith x "LLM::") caps)),
     World rest (tr ++ [asked])) /\
  (Pipeline.steps (PipelineExecutor.pipeline self) = earlier ++ step :: later ->
   PipelineExecutor._run_steps self [("input", initial_input)] earlier w0
   = (Some (Ok context), w) ->
   dispatches context step ->
   find (fun x => startswith x "LLM::") caps = None ->
   PipelineExecutor.execute self initial_input w0
   = (Some (Raise (ValueError
         ("Cannot find a model for request "
            ++ match Step.model step with Some m => m | None => "" end))),
      World rest (tr ++ [asked]))).
Proof.
  intros picker asked w. split.
  - apply consider_model_first.
  - intros Hsteps Hearlier Hstep Hnone.
    unfold PipelineExecutor.execute. rewrite Hsteps, run_steps_app.
    erewrite io_bind_ok by exact Hearlier.
    apply step_no_capability; assumption.
Qed.

Lemma no_capability_aborts_execution_witness :
  let w := World [Json (VList [VStr "OCR::scan"; VStr "TTS::voice"])] [] in
  let asked := capabilities_request Scenario.client in
  ModelPicker.consider_model
    (ModelPicker.Build Scenario.client) "any" (Some "en") w
  = (Some (Ok None), World [] [asked]) /\
  PipelineExecutor.execute (host:=Sample.host) Scenario.executor
    (VStr "GET /index.php") w
  = (Some (Raise (ValueError "Cannot find a model for request any")),
     World [] [asked]).
Proof.
  intros w asked.
  destruct (no_capability_aborts_execution Sample.host Scenario.executor
              (VStr "GET /index.php") [] Scenario.analyze [Scenario.explain]
              [("input", VStr "GET /index.php")] "any" (Some "en")
              ["OCR::scan"; "TTS::voice"] [] [] w) as [Hpick Habort].
  split.
  - exact Hpick.
  - apply Habort.
    + reflexivity.
    + reflexivity.
    + repeat split. discriminate.
    + reflexivity.
Defined.

(** ** Steps whose gate is false *)

(** C8.  An absent gate and an empty gate are true.  A step whose gate is
    false is skipped: running it and the steps after it is running the
    steps after it, from the same context and the same state of the
    backend, so nothing is written, nothing is sent and nothing is raised
    for it. *)
Theorem false_gate_skips_step
    (host : PyHost) (self : PipelineExecutor.t) (context : dict)
    (step : Step.t) (later : list Step.t) (w : world) :
  (PipelineExecutor._evaluate_conditions context None = Ok true /\
   PipelineExecutor._evaluate_conditions context (Some []) = Ok true) /\
  (PipelineExecutor._evaluate_conditions context (Step.if_condition step)
   = Ok false ->
   PipelineExecutor._run_steps self context (step :: later) w
   = PipelineExecutor._run_steps self context later w).
Proof.
  split; [split; reflexivity|].
  intros Hgate. cbn [PipelineExecutor._run_steps]. rewrite Hgate.
  reflexivity.
Qed.

Lemma false_gate_skips_step_witness :
  let context := [("input", VStr "GET /"); ("sec_risk", VBool true);
                  ("suspicious_coef", VFloat 0.5%float)] in
  (PipelineExecutor._evaluate_conditions (host:=Sample.host) context None
   = Ok true /\
   PipelineExecutor._evaluate_conditions (host:=Sample.host) context (Some [])
   = Ok true) /\
  PipelineExecutor._run_steps (host:=Sample.host) Scenario.executor context
    [Scenario.explain] (World [] [])
  = (Some (Ok context), World [] []).
Proof.
  intros context.
  destruct (false_gate_skips_step Sample.host Scenario.executor context
              Scenario.explain [] (World [] [])) as [Hempty Hskip].
  split.
  - exact Hempty.
  - rewrite Hskip.
    + reflexivity.
    + vm_compute. reflexivity.
Defined.

(** ** Template substitution *)

Section SubstitutionFacts.

Variable repl : string -> string.

Lemma scan_group_until {A : Type} (found : string -> string -> A) (none : A)
    (t : string) :
  forall k,
    scan_group found none t k
    = match until_brace t with
      | Some (p, rest) =>
          match k p with
          | EmptyString => none
          | q => found q rest
          end
      | None => none
      end.
Proof.
  induction t as [|d t IH]; intros k; cbn [scan_group until_brace].
  - reflexivity.
  - destruct (Ascii.eqb d "}"); [reflexivity|].
    rewrite IH. destruct (until_brace t) as [[p rest]|]; reflexivity.
Qed.

(** The loop of [re.sub], one position at a time. *)
Lemma re_sub_step (s : string) :
  re_sub repl s
  = match match_placeholder s with
    | Some (p, rest) => (repl p ++ re_sub repl rest)%string
    | None =>
        match s with
        | EmptyString => ""
        | String c s1 => String c (re_sub repl s1)
        end
    end.
Proof.
  destruct s as [|c s1]; [reflexivity|].
  cbn [re_sub]. unfold match_placeholder.
  destruct (Ascii.eqb_spec c "$") as [->|Hc].
  - destruct s1 as [|c2 s2]; [reflexivity|].
    destruct (Ascii.eqb_spec c2 "{") as [->|Hc2].
    + rewrite scan_group_until.
      destruct (until_brace s2) as [[[|d p] rest]|]; reflexivity.
    + destruct c2 as [[] [] [] [] [] [] [] []]; try reflexivity.
      contradiction Hc2. reflexivity.
  - destruct c as [[] [] [] [] [] [] [] []]; try reflexivity.
    contradiction Hc. reflexivity.
Qed.

Lemma re_sub_no_placeholder (s : string) :
  has_placeholder s = false -> re_sub repl s = s.
Proof.
  induction s as [|c s IH]; intros H; [reflexivity|].
  rewrite re_sub_step. cbn [has_placeholder] in H.
  destruct (match_placeholder (String c s)); [discriminate|].
  rewrite IH by exact H. reflexivity.
Qed.

Lemma until_brace_path (p rest : string) :
  is_substring "}" p = false ->
  until_brace (p ++ String "}" rest) = Some (p, rest).
Proof.
  induction p as [|d p IH]; intros H.
  - reflexivity.
  - cbn [is_substring String.prefix] in H.
    apply orb_false_iff in H. destruct H as [Hd Hp].
    cbn [append until_brace].
    destruct (Ascii.eqb_spec d "}") as [->|Hne].
    + destruct p; discriminate Hd.
    + rewrite (IH Hp). reflexivity.
Qed.

Lemma match_placeholder_here (p rest : string) :
  p <> "" ->
  is_substring "}" p = false ->
  match_placeholder ("${" ++ p ++ String "}" rest) = Some (p, rest).
Proof.
  intros Hp Hb. cbn [append match_placeholder].
  rewrite (until_brace_path p rest Hb).
  destruct p; [contradiction|reflexivity].
Qed.

Lemma re_sub_literal (lit t : string) :
  starts_in lit t = false ->
  re_sub repl (lit ++ t) = (lit ++ re_sub repl t)%string.
Proof.
  induction lit as [|c lit IH]; intros H; [reflexivity|].
  cbn [starts_in] in H. rewrite re_sub_step.
  destruct (match_placeholder (String c lit ++ t)); [discriminate|].
  cbn [append]. rewrite (IH H). reflexivity.
Qed.

Lemma re_sub_pieces (pieces : list (string * string)) (tail : string) :
  well_split pieces tail ->
  re_sub repl (template pieces tail) = filled repl pieces tail.
Proof.
  induction pieces as [|[lit path] pieces IH]; cbn [well_split template filled].
  - apply re_sub_no_placeholder.
  - intros (Hlit & Hpath & Hbrace & Hrest).
    rewrite (re_sub_literal lit _ Hlit), re_sub_step.
    change ("}" ++ template pieces tail)%string
      with (String "}" (template pieces tail)).
    rewrite (match_placeholder_here path _ Hpath Hbrace), (IH Hrest).
    reflexivity.
Qed.

End SubstitutionFacts.

(** Every template splits into its literal text and its placeholders. *)

Lemma until_brace_inv (t p rest : string) :
  until_brace t = Some (p, rest) ->
  t = (p ++ String "}" rest)%string /\ is_substring "}" p = false.
Proof.
  revert p rest. induction t as [|d t IH]; intros p rest E; [discriminate|].
  cbn [until_brace] in E.
  destruct (Ascii.eqb_spec d "}") as [->|Hne].
  - inversion E. split; reflexivity.
  - destruct (until_brace t) as [[q r]|]; [|discriminate].
    inversion E; subst. destruct (IH q rest eq_refl) as [-> Hq].
    split; [reflexivity|].
    cbn [is_substring String.prefix]. rewrite Hq.
    destruct (ascii_dec "}" d) as [Heq|_]; [|reflexivity].
    contradiction Hne. symmetry. exact Heq.
Qed.

Lemma match_placeholder_inv (s p rest : string) :
  match_placeholder s = Some (p, rest) ->
  s = ("${" ++ p ++ String "}" rest)%string /\ p <> "" /\
  is_substring "}" p = false.
Proof.
  unfold match_placeholder. intros E.
  destruct s as [|c [|c2 s2]]; try discriminate;
    try (destruct c as [[] [] [] [] [] [] [] []]; discriminate).
  destruct c as [[] [] [] [] [] [] [] []]; try discriminate.
  destruct c2 as [[] [] [] [] [] [] [] []]; try discriminate.
  destruct (until_brace s2) as [[[|d q] r]|] eqn:U; try discriminate.
  inversion E; subst. destruct (until_brace_inv _ _ _ U) as [-> Hq].
  split; [reflexivity|]. split; [discriminate|exact Hq].
Qed.

Lemma leftmost_placeholder (s : string) :
  has_placeholder s = true ->
  exists lit p rest,
    s = (lit ++ "${" ++ p ++ String "}" rest)%string /\
    starts_in lit ("${" ++ p ++ String "}" rest) = false /\
    p <> "" /\ is_substring "}" p = false.
Proof.
  induction s as [|c s IH]; intros H; [discriminate|].
  cbn [has_placeholder] in H.
  destruct (match_placeholder (String c s)) as [[p rest]|] eqn:M.
  - destruct (match_placeholder_inv _ _ _ M) as (E & Hp & Hb).
    exists "", p, rest. rewrite E. auto.
  - destruct (IH H) as (lit & p & rest & E & Hlit & Hp & Hb).
    exists (String c lit), p, rest. subst s.
    split; [reflexivity|]. split; [|auto].
    cbn [starts_in]. cbn [append] in M |- *. rewrite M. exact Hlit.
Qed.

Lemma length_app (s t : string) :
  String.length (s ++ t) = (String.length s + String.length t)%nat.
Proof. induction s as [|c s IH]; simpl; [|rewrite IH]; reflexivity. Qed.

Lemma template_exists (s : string) :
  exists pieces tail, s = template pieces tail /\ well_split pieces tail.
Proof.
  remember (String.length s) as n eqn:Hn.
  revert s Hn. induction n as [n IH] using lt_wf_ind. intros s Hn.
  destruct (has_placeholder s) eqn:H.
  - destruct (leftmost_placeholder s H) as (lit & p & rest & E & Hlit & Hp & Hb).
    assert (Hlt : (String.length rest < n)%nat).
    { subst n s. rewrite length_app. simpl. rewrite length_app. simpl. lia. }
    destruct (IH _ Hlt rest eq_refl) as (pieces & tail & Hrest & Hsplit).
    exists ((lit, p) :: pieces), tail. cbn [template well_split].
    rewrite <- Hrest. auto.
  - exists [], s. auto.
Qed.

(** A path that meets a missing key, or a value that is no mapping, does
    not resolve. *)
Lemma lookup_keys_missing (d : dict) (key : string) (keys : list string) :
  dict_get d key = None ->
  PipelineExecutor._lookup_keys (VDict d) (key :: keys) = VNone.
Proof. intros H. cbn [PipelineExecutor._lookup_keys]. rewrite H. reflexivity. Qed.

Lemma lookup_keys_non_mapping (v : value) (key : string) (keys : list string) :
  (forall d, v <> VDict d) ->
  PipelineExecutor._lookup_keys v (key :: keys) = VNone.
Proof.
  intros H. destruct v; try reflexivity. contradiction (H d). reflexivity.
Qed.

Lemma filled_ext (f g : string -> string) (pieces : list (string * string))
    (tail : string) :
  Forall (fun piece => f (snd piece) = g (snd piece)) pieces ->
  filled f pieces tail = filled g pieces tail.
Proof.
  induction 1 as [|[lit path] pieces H _ IH]; cbn [filled snd] in *.
  - reflexivity.
  - rewrite H, IH. reflexivity.
Qed.

(** When every path of the template resolves, every placeholder is replaced
    by the [str] of its value. *)
Lemma substitute_all_resolved (host : PyHost) (context : dict)
    (pieces : list (string * string)) (tail : string) :
  well_split pieces tail ->
  Forall (fun piece =>
            PipelineExecutor._lookup_path (VDict context) (snd piece) <> VNone)
         pieces ->
  PipelineExecutor._substitute_variables context (template pieces tail)
  = filled (fun path =>
              py_str (PipelineExecutor._lookup_path (VDict context) path))
      pieces tail.
Proof.
  intros Hsplit Hall. unfold PipelineExecutor._substitute_variables.
  rewrite (re_sub_pieces _ _ _ Hsplit). apply filled_ext.
  eapply Forall_impl; [|exact Hall].
  intros [lit path] H. cbn [snd] in *. unfold PipelineExecutor.replace_match.
  destruct (PipelineExecutor._lookup_path (VDict context) path);
    try reflexivity.
  exfalso. apply H. reflexivity.
Qed.

(** C7, as the code has it.  Every template splits into literal pieces and
    placeholders, and for every such split the result of the substitution is
    the same pieces, copied as they are, with every placeholder replaced by
    one text that is not looked at again: the empty string when the path
    does not resolve, the [str] of the value when it does.  So when every
    path of the template resolves, every placeholder of the template is
    replaced by the [str] of its value.  The function is total: it returns
    a string for every context and template. *)
Theorem substitute_fills_placeholders
    (host : PyHost) (context : dict) (t : string) :
  (exists pieces tail, t = template pieces tail /\ well_split pieces tail) /\
  (forall pieces tail,
      t = template pieces tail ->
      well_split pieces tail ->
      PipelineExecutor._substitute_variables context t
      = filled (PipelineExecutor.replace_match context) pieces tail) /\
  (forall path,
      PipelineExecutor._lookup_path (VDict context) path = VNone ->
      PipelineExecutor.replace_match context path = "") /\
  (forall path,
      PipelineExecutor._lookup_path (VDict context) path <> VNone ->
      PipelineExecutor.replace_match context path
      = py_str (PipelineExecutor._lookup_path (VDict context) path)) /\
  (forall pieces tail,
      t = template pieces tail ->
      well_split pieces tail ->
      Forall (fun piece =>
                PipelineExecutor._lookup_path (VDict context) (snd piece)
                <> VNone) pieces ->
      PipelineExecutor._substitute_variables context t
      = filled (fun path =>
                  py_str (PipelineExecutor._lookup_path (VDict context) path))
          pieces tail).
Proof.
  split; [apply template_exists|]. split; [|split; [|split]].
  - intros pieces tail -> Hsplit.
    unfold PipelineExecutor._substitute_variables.
    apply re_sub_pieces. exact Hsplit.
  - intros path H. unfold PipelineExecutor.replace_match. rewrite H.
    reflexivity.
  - intros path H. unfold PipelineExecutor.replace_match.
    destruct (PipelineExecutor._lookup_path (VDict context) path);
      try reflexivity.
    contradiction H. reflexivity.
  - intros pieces tail -> Hsplit Hall.
    apply substitute_all_resolved; assumption.
Qed.

Lemma substitute_fills_placeholders_witness :
  let context := [("input", VStr "${x}"); ("x", VInt 3);
                  ("who", VDict [("name", VStr "ann")])] in
  PipelineExecutor._substitute_variables (host:=Sample.host) context
    "Analyze ${input} by ${who.name}${who.name.first} ${} for $5 ${x"
  = "Analyze ${x} by ann ${} for $5 ${x" /\
  PipelineExecutor._substitute_variables (host:=Sample.host) context
    "${x} times ${who.name}"
  = "3 times ann".
Proof.
  intros context. split.
  - destruct (substitute_fills_placeholders Sample.host context
                "Analyze ${input} by ${who.name}${who.name.first} ${} for $5 ${x")
      as (_ & Hsub & _).
    apply (Hsub [("Analyze ", "input"); (" by ", "who.name");
                 ("", "who.name.first")] " ${} for $5 ${x").
    + reflexivity.
    + cbn [well_split]. repeat split; try reflexivity; discriminate.
  - destruct (substitute_fills_placeholders Sample.host context
                "${x} times ${who.name}") as (_ & _ & _ & _ & Hall).
    apply (Hall [("", "x"); (" times ", "who.name")] "").
    + reflexivity.
    + cbn [well_split]. repeat split; try reflexivity; discriminate.
    + repeat constructor; discriminate.
Defined.

(** C7, as the specification has it, fails in its last part: the one path
    of the template resolves, and the result has a marker all the same, the
    one that was in the value, because the replaced text is not scanned
    again; the marker even names a path that resolves. *)
Lemma substitute_leaves_marker_counterexample :
  let context := [("input", VStr "${x}"); ("x", VInt 3)] in
  PipelineExecutor._lookup_path (VDict context) "input" = VStr "${x}" /\
  PipelineExecutor._lookup_path (VDict context) "x" = VInt 3 /\
  PipelineExecutor._substitute_variables (host:=Sample.host) context "${input}"
  = "${x}" /\
  has_placeholder
    (PipelineExecutor._substitute_variables (host:=Sample.host) context
       "${input}") = true.
Proof. repeat split; reflexivity. Qed.

(** ** Rules that select no value *)

Section ExtractionFacts.
Context {host : PyHost}.

Lemma dict_get_set {A : Type} (d : list (string * A)) (k k' : string) (v : A) :
  dict_get (dict_set d k v) k'
  = if String.eqb k' k then Some v else dict_get d k'.
Proof.
  induction d as [|[k0 v0] d IH]; cbn [dict_set dict_get].
  - reflexivity.
  - destruct (String.eqb_spec k k0) as [->|Hk]; cbn [dict_get].
    + destruct (String.eqb k' k0); reflexivity.
    + rewrite IH. destruct (String.eqb_spec k' k0) as [->|Hk'].
      * destruct (String.eqb_spec k0 k) as [E|_]; [|reflexivity].
        contradiction Hk. symmetry. exact E.
      * reflexivity.
Qed.

Lemma cast_keeps_value (v v' : value) (target_type : option string) :
  v <> VNone ->
  PipelineExecutor._cast_type v target_type = Ok v' ->
  v' <> VNone.
Proof.
  intros Hv. unfold PipelineExecutor._cast_type.
  destruct target_type as [ty|].
  - destruct (String.eqb ty "number").
    + destruct (py_float v) as [f|[]]; intros E; inversion E; discriminate.
    + destruct (String.eqb ty "boolean"); intros E; inversion E; subst;
        [discriminate|exact Hv].
  - intros E. inversion E; subst. exact Hv.
Qed.

Lemma extract_rule_skips (response data : value) (context : dict)
    (rule : ExtractRule.t) :
  PipelineExecutor._rule_value response data rule = VNone ->
  PipelineExecutor._extract_rule response data context rule = Ok context.
Proof.
  intros H. unfold PipelineExecutor._extract_rule. rewrite H. reflexivity.
Qed.

Lemma extract_rules_delete (response data : value) (rule : ExtractRule.t)
    (before after : list ExtractRule.t) :
  PipelineExecutor._rule_value response data rule = VNone ->
  forall context,
    PipelineExecutor._extract_rules response data context (before ++ rule :: after)
    = PipelineExecutor._extract_rules response data context (before ++ after).
Proof.
  intros H. induction before as [|r before IH]; intros context;
    cbn [app PipelineExecutor._extract_rules].
  - rewrite (extract_rule_skips _ _ _ _ H). reflexivity.
  - destruct (PipelineExecutor._extract_rule response data context r);
      cbn [bind]; [apply IH|reflexivity].
Qed.

Lemma extract_rule_no_null (response data : value) (context context' : dict)
    (rule : ExtractRule.t) (key : string) :
  PipelineExecutor._extract_rule response data context rule = Ok context' ->
  dict_get context' key = Some VNone ->
  dict_get context key = Some VNone.
Proof.
  unfold PipelineExecutor._extract_rule.
  assert (W : forall v, v <> VNone ->
            (v' <- PipelineExecutor._cast_type v (ExtractRule.type rule) ;;
             Ok (dict_set context (ExtractRule.name rule) v')) = Ok context' ->
            dict_get context' key = Some VNone ->
            dict_get context key = Some VNone).
  { intros v Hv.
    destruct (PipelineExecutor._cast_type v (ExtractRule.type rule))
      as [v'|e] eqn:C; cbn [bind]; intros E K; [|discriminate].
    inversion E; subst. rewrite dict_get_set in K.
    destruct (String.eqb key (ExtractRule.name rule)); [|exact K].
    inversion K; subst. exfalso.
    exact (cast_keeps_value _ _ _ Hv C eq_refl). }
  destruct (PipelineExecutor._rule_value response data rule);
    try (apply W; discriminate).
  intros E. inversion E; subst. auto.
Qed.

Lemma extract_rules_no_null (response data : value) (rules : list ExtractRule.t)
    (key : string) :
  forall context context',
    PipelineExecutor._extract_rules response data context rules = Ok context' ->
    dict_get context' key = Some VNone ->
    dict_get context key = Some VNone.
Proof.
  induction rules as [|r rules IH]; intros context context';
    cbn [PipelineExecutor._extract_rules].
  - intros E. inversion E; subst. auto.
  - destruct (PipelineExecutor._extract_rule response data context r)
      as [c1|e] eqn:R; cbn [bind]; [|discriminate].
    intros E K. eapply extract_rule_no_null; [exact R|].
    eapply IH; eassumption.
Qed.

Lemma rule_value_nothing (response data : value) (rule : ExtractRule.t) :
  opt_bool (ExtractRule.fulltext rule) = false ->
  (opt_str (ExtractRule.jq rule) = false \/ data = VNone \/
   exists p, ExtractRule.jq rule = Some p /\ p <> "." /\
             PipelineExecutor._lookup_path data (strip "." p) = VNone) ->
  PipelineExecutor._rule_value response data rule = VNone.
Proof.
  intros Hfull H. unfold PipelineExecutor._rule_value. rewrite Hfull.
  destruct (ExtractRule.jq rule) as [jq|]; [|reflexivity].
  destruct H as [H|[->|(p & Hp & Hdot & Hmiss)]].
  - cbn [opt_str] in H. apply negb_false_iff in H. rewrite H.
    destruct data; reflexivity.
  - reflexivity.
  - inversion Hp; subst p.
    destruct (String.eqb_spec jq ".") as [E|_]; [contradiction|].
    rewrite Hmiss. destruct data; try reflexivity;
      destruct (String.eqb jq ""); reflexivity.
Qed.

End ExtractionFacts.

(** C9.  A rule that selects no value can be left out of the rule list:
    [_extract_data] with it is [_extract_data] without it, so its turn of
    the loop writes nothing under its name or any other, and alone it leaves
    the context as it was (where [json.loads] lets an exception through
    there is no context to speak of: the call raises, with the rule as
    without it).  And no run of [_extract_data] puts [None] under a key: a
    key that holds [None] afterwards held it before. *)
Theorem extract_writes_no_missing_value
    (host : PyHost) (context : dict) (response : value)
    (before : list ExtractRule.t) (rule : ExtractRule.t)
    (after : list ExtractRule.t) (is_json : bool) :
  (yields_nothing response is_json rule ->
   PipelineExecutor._extract_data context response (before ++ rule :: after)
     is_json
   = PipelineExecutor._extract_data context response (before ++ after) is_json /\
   forall text, response = VStr text ->
     (is_json = true ->
      forall e, json_loads text = Raise e -> e = JSONDecodeError) ->
     PipelineExecutor._extract_data context response [rule] is_json
     = Ok context) /\
  (forall rules context' key,
      PipelineExecutor._extract_data context response rules is_json
      = Ok context' ->
      dict_get context' key = Some VNone ->
      dict_get context key = Some VNone).
Proof.
  split.
  - intros (Hfull & Hcase).
    assert (Hnone : forall data,
               (is_json = false -> data = VNone) ->
               (forall text, response = VStr text -> is_json = true ->
                             json_loads text = Ok data) ->
               PipelineExecutor._rule_value response data rule = VNone).
    { intros data Hoff Hon. apply rule_value_nothing; [exact Hfull|].
      destruct Hcase as [H|[H|(text & d & p & Hr & Hl & Hp & Hdot & Hmiss)]].
      - left. exact H.
      - right. left. exact (Hoff H).
      - destruct is_json.
        + right. right. exists p.
          rewrite (Hon text Hr eq_refl) in Hl. inversion Hl; subst d. auto.
        + right. left. exact (Hoff eq_refl). }
    unfold PipelineExecutor._extract_data. destruct is_json.
    + destruct response as [| | | |text| |];
        try (split; [reflexivity|intros ? E; discriminate E]).
      destruct (json_loads text) as [data|e] eqn:L.
      * assert (V : PipelineExecutor._rule_value (VStr text) data rule = VNone).
        { apply Hnone; [discriminate|].
          intros text' E _. inversion E; subst. exact L. }
        split.
        -- apply extract_rules_delete. exact V.
        -- intros _ _ _. cbn [PipelineExecutor._extract_rules].
           rewrite (extract_rule_skips _ _ _ _ V). reflexivity.
      * split; [reflexivity|].
        intros text' E Hcaught. inversion E; subst text'.
        rewrite (Hcaught eq_refl e L). reflexivity.
    + assert (V : PipelineExecutor._rule_value response VNone rule = VNone).
      { apply Hnone; [reflexivity|discriminate]. }
      split.
      * apply extract_rules_delete. exact V.
      * intros _ _ _. cbn [PipelineExecutor._extract_rules].
        rewrite (extract_rule_skips _ _ _ _ V). reflexivity.
  - intros rules context' key. unfold PipelineExecutor._extract_data.
    destruct is_json.
    + destruct response as [| | | |text| |]; try discriminate.
      destruct (json_loads text) as [data|e].
      * apply extract_rules_no_null.
      * destruct e; try discriminate. intros E. inversion E; subst. auto.
    + apply extract_rules_no_null.
Qed.

Lemma extract_writes_no_missing_value_witness :
  let context := [("input", VStr "GET /"); ("score", VInt 1)] in
  let response := VStr (Scenario.verdict "0.9" "true" "union") in
  let all := ExtractRule.Build "result_all" (Some ".") None None in
  let rule := ExtractRule.Build "score" (Some ".verdict.score") None
                (Some "number") in
  let text := ExtractRule.Build "raw" None (Some true) None in
  PipelineExecutor._extract_data (host:=Sample.host) context response
    [all; rule; text] true
  = PipelineExecutor._extract_data (host:=Sample.host) context response
      [all; text] true /\
  PipelineExecutor._extract_data (host:=Sample.host) context response [rule]
    true
  = Ok context.
Proof.
  intros context response all rule text.
  destruct (extract_writes_no_missing_value Sample.host context response
              [all] rule [text] true) as [Hskip _].
  destruct Hskip as [Hdelete Halone].
  - split; [reflexivity|]. right. right.
    exists (Scenario.verdict "0.9" "true" "union"),
      (match Sample.loads (Scenario.verdict "0.9" "true" "union") with
       | Ok data => data
       | Raise _ => VNone
       end),
      ".verdict.score".
    repeat split; try reflexivity. discriminate.
  - split; [exact Hdelete|]. apply (Halone _ eq_refl).
    intros _ e Hraise. vm_compute in Hraise. discriminate Hraise.
Defined.

(** ** Dots around a path *)

Section PathFacts.

Lemma lstrip_app (ch : ascii) (p : string) :
  lstrip ch (p ++ String ch "")
  = match lstrip ch p with
    | EmptyString => ""
    | q => (q ++ String ch "")%string
    end.
Proof.
  induction p as [|c p IH]; cbn [append lstrip].
  - rewrite Ascii.eqb_refl. reflexivity.
  - destruct (Ascii.eqb c ch); [exact IH|reflexivity].
Qed.

Lemma rstrip_app (ch : ascii) (q : string) :
  rstrip ch (q ++ String ch "") = rstrip ch q.
Proof.
  induction q as [|c q IH]; cbn [append rstrip].
  - rewrite Ascii.eqb_refl. reflexivity.
  - rewrite IH. reflexivity.
Qed.

Lemma strip_dot_after (p : string) : strip "." (p ++ ".") = strip "." p.
Proof.
  unfold strip. rewrite lstrip_app.
  destruct (lstrip "." p) as [|c q]; [reflexivity|].
  apply rstrip_app.
Qed.

Lemma strip_dot_before (p : string) : strip "." ("." ++ p) = strip "." p.
Proof. reflexivity. Qed.

Lemma split_not_nil (sep : ascii) (s : string) : split sep s <> [].
Proof.
  destruct s as [|c s]; cbn [split]; [discriminate|].
  destruct (Ascii.eqb c sep); [discriminate|].
  destruct (split sep s); discriminate.
Qed.

Lemma dict_get_smaller (d : dict) (key : string) (v : value) :
  dict_get d key = Some v -> (value_size v < value_size (VDict d))%nat.
Proof.
  induction d as [|[k x] d IH]; cbn [dict_get]; [discriminate|].
  destruct (String.eqb key k); intros E.
  - inversion E; subst. cbn [value_size fold_right snd]. lia.
  - specialize (IH E). cbn [value_size fold_right snd] in *. lia.
Qed.

(** What a path selects is nothing or a proper part of the document. *)
Lemma lookup_keys_smaller (keys : list string) :
  keys <> [] ->
  forall v,
    PipelineExecutor._lookup_keys v keys = VNone \/
    (value_size (PipelineExecutor._lookup_keys v keys) < value_size v)%nat.
Proof.
  induction keys as [|key keys IH]; intros Hne v; [contradiction|].
  cbn [PipelineExecutor._lookup_keys].
  destruct v as [| | | | | |d]; auto.
  destruct (dict_get d key) as [x|] eqn:G; auto.
  pose proof (dict_get_smaller d key x G) as Hx.
  destruct keys as [|key' keys'].
  - right. exact Hx.
  - destruct (IH ltac:(discriminate) x) as [->|Hlt]; [auto|right; lia].
Qed.

Lemma lookup_path_proper (data : value) (path : string) :
  data <> VNone -> PipelineExecutor._lookup_path data path <> data.
Proof.
  intros Hdata E. unfold PipelineExecutor._lookup_path in E.
  destruct (lookup_keys_smaller (split "." path) (split_not_nil _ _) data)
    as [H|H].
  - rewrite H in E. apply Hdata. symmetry. exact E.
  - rewrite E in H. lia.
Qed.

End PathFacts.

(** C10.  For a rule that is not fulltext, a parsed document and a path
    that is neither empty nor ["."], the value selected is the one found by
    walking the document along the path with the dots at its two ends
    removed; so the path, the path after a dot and the path before a dot
    produce the same write.  The path ["."] selects the whole document, and
    no other path does. *)
Theorem jq_path_is_stripped
    (host : PyHost) (response data : value) (context : dict) (name : string)
    (fulltext : option bool) (ty : option string) (jq : string) :
  let rule p := ExtractRule.Build name (Some p) fulltext ty in
  opt_bool fulltext = false ->
  data <> VNone ->
  jq <> "" ->
  jq <> "." ->
  PipelineExecutor._rule_value response data (rule jq)
  = PipelineExecutor._lookup_path data (strip "." jq) /\
  PipelineExecutor._extract_rule response data context
    (rule ("." ++ jq)%string)
  = PipelineExecutor._extract_rule response data context (rule jq) /\
  PipelineExecutor._extract_rule response data context
    (rule (jq ++ ".")%string)
  = PipelineExecutor._extract_rule response data context (rule jq) /\
  PipelineExecutor._rule_value response data (rule ".") = data /\
  PipelineExecutor._rule_value response data (rule jq) <> data.
Proof.
  intros rule Hfull Hdata Hne Hdot.
  assert (V : forall p, p <> "" -> p <> "." ->
            PipelineExecutor._rule_value response data (rule p)
            = PipelineExecutor._lookup_path data (strip "." p)).
  { intros p Hp Hpd. unfold PipelineExecutor._rule_value, rule.
    cbn [ExtractRule.fulltext ExtractRule.jq]. rewrite Hfull.
    destruct (String.eqb_spec p "") as [E|_]; [contradiction|].
    destruct (String.eqb_spec p ".") as [E|_]; [contradiction|].
    destruct data; try reflexivity; exfalso; apply Hdata; reflexivity. }
  assert (Hbefore : ("." ++ jq)%string <> "" /\ ("." ++ jq)%string <> ".").
  { split; [discriminate|]. destruct jq; [contradiction|discriminate]. }
  assert (Hafter : (jq ++ ".")%string <> "" /\ (jq ++ ".")%string <> ".").
  { destruct jq as [|c [|c' jq']]; [contradiction| |]; split; discriminate. }
  split; [apply V; assumption|].
  split; [|split; [|split]].
  - unfold PipelineExecutor._extract_rule.
    rewrite (V _ (proj1 Hbefore) (proj2 Hbefore)), (V jq Hne Hdot).
    rewrite strip_dot_before. reflexivity.
  - unfold PipelineExecutor._extract_rule.
    rewrite (V _ (proj1 Hafter) (proj2 Hafter)), (V jq Hne Hdot).
    rewrite strip_dot_after. reflexivity.
  - unfold PipelineExecutor._rule_value, rule.
    cbn [ExtractRule.fulltext ExtractRule.jq]. rewrite Hfull.
    destruct data; try reflexivity; exfalso; apply Hdata; reflexivity.
  - rewrite (V jq Hne Hdot). apply lookup_path_proper. exact Hdata.
Qed.

Lemma jq_path_is_stripped_witness :
  let data := VDict [("foo", VDict [("bar", VInt 7)])] in
  let context := [("input", VStr "GET /")] in
  let rule p := ExtractRule.Build "seven" (Some p) None (Some "number") in
  PipelineExecutor._rule_value (VStr "raw") data (rule "foo.bar") = VInt 7 /\
  PipelineExecutor._extract_rule (host:=Sample.host) (VStr "raw") data context
    (rule ".foo.bar")
  = PipelineExecutor._extract_rule (host:=Sample.host) (VStr "raw") data
      context (rule "foo.bar") /\
  PipelineExecutor._extract_rule (host:=Sample.host) (VStr "raw") data context
    (rule "foo.bar.")
  = PipelineExecutor._extract_rule (host:=Sample.host) (VStr "raw") data
      context (rule "foo.bar") /\
  PipelineExecutor._rule_value (VStr "raw") data (rule ".") = data /\
  PipelineExecutor._rule_value (VStr "raw") data (rule "foo.bar") <> data.
Proof.
  intros data context rule.
  apply (jq_path_is_stripped Sample.host (VStr "raw") data context "seven"
           None (Some "number") "foo.bar").
  - reflexivity.
  - discriminate.
  - discriminate.
  - discriminate.
Defined.

(** ** Worked examples *)

Section Examples.
#[local] Existing Instance Sample.host.

Example gate_of_nothing_is_true :
  PipelineExecutor._evaluate_conditions [("x", VInt 1)] (Some []) = Ok true.
Proof. reflexivity. Qed.

Example greater_than_five :
  let c := Condition.Build "x" "gt" (VInt 5) None None in
  PipelineExecutor._evaluate_single_condition [("x", VInt 10)] c = Ok true /\
  PipelineExecutor._evaluate_single_condition [("x", VInt 3)] c = Ok false /\
  PipelineExecutor._evaluate_single_condition [] c = Ok false.
Proof. repeat split. Qed.

Example nested_and :
  let c := Condition.Build "x" "eq" (VInt 1)
             (Some [Condition.Build "y" "eq" (VInt 2) None None]) None in
  PipelineExecutor._evaluate_single_condition [("x", VInt 1); ("y", VInt 2)] c
  = Ok true /\
  PipelineExecutor._evaluate_single_condition [("x", VInt 1); ("y", VInt 3)] c
  = Ok false /\
  PipelineExecutor._evaluate_single_condition [("x", VInt 0); ("y", VInt 2)] c
  = Ok false.
Proof. repeat split. Qed.

Example number_of_no_number :
  PipelineExecutor._cast_type (VStr "high") (Some "number")
  = Ok (VFloat 0%float) /\
  PipelineExecutor._cast_type (VList [VInt 1]) (Some "number")
  = Ok (VFloat 0%float).
Proof. split; reflexivity. Qed.

(** [float] of an int too large for a float raises OverflowError, which
    [_cast_type] does not catch. *)
Example number_of_huge_int :
  PipelineExecutor._cast_type (VInt (10 ^ 400)) (Some "number")
  = Raise OverflowError.
Proof. vm_compute. reflexivity. Qed.

Example suspicious_line_is_explained :
  fst (PipelineExecutor.execute Scenario.executor (VStr "GET /?id=1 UNION")
         (World (Scenario.two_rounds "0.9") []))
  = Some (Ok [("input", VStr "GET /?id=1 UNION");
              ("result_all",
               VDict [("suspicious", VFloat 0x1.ccccccccccccdp-1%float);
                      ("security_risk", VBool true);
                      ("reason", VStr "union select")]);
              ("sec_risk", VBool true);
              ("suspicious_coef", VFloat 0x1.ccccccccccccdp-1%float);
              ("expert_response", VStr "It is an injection.")]).
Proof. vm_compute. reflexivity. Qed.

Example harmless_line_skips_second_step :
  let run := PipelineExecutor.execute Scenario.executor
               (VStr "GET /?id=1 UNION") (World (Scenario.two_rounds "0.5") []) in
  fst run
  = Some (Ok [("input", VStr "GET /?id=1 UNION");
              ("result_all",
               VDict [("suspicious", VFloat 0.5%float);
                      ("security_risk", VBool true);
                      ("reason", VStr "union select")]);
              ("sec_risk", VBool true);
              ("suspicious_coef", VFloat 0.5%float)]) /\
  script (snd run)
  = [Scenario.capabilities; Scenario.accepted; Fault RequestError;
     Json (Scenario.completed "It is an injection.")].
Proof. vm_compute. split; reflexivity. Qed.

Example status_is_lower_cased :
  let canceled := VDict [("status", VStr "Canceled")] in
  fst (ApiWaiter.wait_for_status (ApiWaiter.Build "http://backend/poll" VNone)
         (World [Fault HTTPStatusError; Json (VList [VStr "status"]);
                 Json (VDict [("state", VStr "completed")]);
                 Json (VDict [("status", VInt 3)]); Json canceled] []))
  = Some (Ok canceled).
Proof. reflexivity. Qed.

(** A response nested deeper than the decoder follows is no JSON either,
    but what [json.loads] raises on it is not JSONDecodeError: the exception
    leaves [_extract_data].  A hundred levels are followed to the end, and
    rejected there. *)
Example deep_nesting_is_not_caught :
  valid_json (Scenario.unclosed 2000) = false /\
  PipelineExecutor._extract_data [("input", VStr "log line")]
    (VStr (Scenario.unclosed 2000))
    [ExtractRule.Build "all" None (Some true) None] true
  = Raise RecursionError /\
  PipelineExecutor._extract_data [("input", VStr "log line")]
    (VStr (Scenario.unclosed 100))
    [ExtractRule.Build "all" None (Some true) None] true
  = Ok [("input", VStr "log line")].
Proof. vm_compute. repeat split; reflexivity. Qed.

End Examples.

(** * Further properties of the engine *)

(** ** Paths and the context *)

Section PathAlgebra.

Lemma split_app (sep : ascii) (p q : string) :
  split sep (p ++ String sep q) = (split sep p ++ split sep q)%list.
Proof.
  induction p as [|c p IH]; cbn [append split].
  - rewrite Ascii.eqb_refl. reflexivity.
  - destruct (Ascii.eqb c sep); rewrite IH; [reflexivity|].
    pose proof (split_not_nil sep p) as Hne.
    destruct (split sep p) as [|w ws]; [contradiction|reflexivity].
Qed.

Lemma lookup_keys_of_none (keys : list string) :
  PipelineExecutor._lookup_keys VNone keys = VNone.
Proof. destruct keys; reflexivity. Qed.

Lemma lookup_keys_app (ks1 ks2 : list string) :
  forall v,
    PipelineExecutor._lookup_keys v (ks1 ++ ks2)
    = PipelineExecutor._lookup_keys (PipelineExecutor._lookup_keys v ks1) ks2.
Proof.
  induction ks1 as [|k ks1 IH]; intros v; cbn [app PipelineExecutor._lookup_keys].
  - reflexivity.
  - destruct v as [| | | | | |d];
      try (symmetry; apply lookup_keys_of_none).
    destruct (dict_get d k) as [x|]; [apply IH|].
    symmetry. apply lookup_keys_of_none.
Qed.

(** The first piece of a split has no separator in it. *)
Lemma split_head (sep : ascii) (s : string) :
  exists w ws, split sep s = w :: ws /\ is_substring (String sep "") w = false.
Proof.
  induction s as [|c s (w & ws & E & Hw)]; cbn [split].
  - exists "", []. split; reflexivity.
  - destruct (Ascii.eqb_spec c sep) as [->|Hc].
    + exists "", (split sep s). split; reflexivity.
    + rewrite E. exists (String c w), ws. split; [reflexivity|].
      cbn [is_substring String.prefix]. rewrite Hw.
      destruct (ascii_dec sep c) as [Heq|_]; [|reflexivity].
      contradiction Hc. symmetry. exact Heq.
Qed.

Lemma split_without_sep (sep : ascii) (s : string) :
  is_substring (String sep "") s = false -> split sep s = [s].
Proof.
  induction s as [|c s IH]; intros H; [reflexivity|].
  cbn [is_substring String.prefix] in H.
  apply orb_false_iff in H. destruct H as [Hhere Hs].
  cbn [split]. destruct (Ascii.eqb_spec c sep) as [->|_].
  - destruct (ascii_dec sep sep) as [_|N]; [|contradiction N; reflexivity].
    destruct s; discriminate Hhere.
  - rewrite (IH Hs). reflexivity.
Qed.

Lemma dict_set_keys {A : Type} (d : list (string * A)) (k : string) (v : A) :
  keys (dict_set d k v)
  = (keys d ++ (if dict_has d k then [] else [k]))%list.
Proof.
  unfold keys, dict_has.
  induction d as [|[k0 v0] d IH]; cbn [dict_set dict_get map fst app].
  - reflexivity.
  - destruct (String.eqb_spec k k0) as [->|_]; cbn [map fst].
    + rewrite app_nil_r. reflexivity.
    + rewrite IH. reflexivity.
Qed.

End PathAlgebra.

(** X1.  Looking up the path [p.q] is looking up [q] in what [p] selects:
    a path that fails half way and a path through a value that is no
    mapping select nothing on both sides. *)
Theorem lookup_path_of_joined_paths (data : value) (p q : string) :
  PipelineExecutor._lookup_path data (p ++ "." ++ q)
  = PipelineExecutor._lookup_path (PipelineExecutor._lookup_path data p) q.
Proof.
  unfold PipelineExecutor._lookup_path.
  change (p ++ "." ++ q)%string with (p ++ String "." q)%string.
  rewrite split_app. apply lookup_keys_app.
Qed.

(** X2.  A value stored in the context under a name that has a dot in it
    is out of reach of every path: no template and no condition can read
    it, since a path is cut at its dots before the keys are looked up. *)
Theorem dotted_name_is_never_read
    (context : dict) (name : string) (v : value) (path : string) :
  is_substring "." name = true ->
  PipelineExecutor._lookup_path (VDict (dict_set context name v)) path
  = PipelineExecutor._lookup_path (VDict context) path.
Proof.
  intros Hdot. unfold PipelineExecutor._lookup_path.
  destruct (split_head "." path) as (w & ws & -> & Hw).
  cbn [PipelineExecutor._lookup_keys]. rewrite dict_get_set.
  destruct (String.eqb_spec w name) as [->|_]; [|reflexivity].
  rewrite Hw in Hdot. discriminate.
Qed.

Lemma dotted_name_is_never_read_witness :
  PipelineExecutor._lookup_path
    (VDict (dict_set [("input", VStr "GET /")] "risk.score" (VInt 9)))
    "risk.score"
  = PipelineExecutor._lookup_path (VDict [("input", VStr "GET /")]) "risk.score".
Proof.
  apply (dotted_name_is_never_read [("input", VStr "GET /")] "risk.score"
           (VInt 9) "risk.score").
  reflexivity.
Defined.

(** X3.  A rule whose name has no dot, and which selects a value, makes
    that value, coerced, readable under the name: the next lookup of the
    name in the context returns it. *)
Theorem extracted_value_is_read_back
    (host : PyHost) (response data : value) (context : dict)
    (rule : ExtractRule.t) (v' : value) :
  is_substring "." (ExtractRule.name rule) = false ->
  PipelineExecutor._rule_value response data rule <> VNone ->
  PipelineExecutor._cast_type
    (PipelineExecutor._rule_value response data rule) (ExtractRule.type rule)
  = Ok v' ->
  exists context',
    PipelineExecutor._extract_rule response data context rule = Ok context' /\
    PipelineExecutor._lookup_path (VDict context') (ExtractRule.name rule) = v'.
Proof.
  intros Hname Hvalue Hcast.
  exists (dict_set context (ExtractRule.name rule) v'). split.
  - unfold PipelineExecutor._extract_rule.
    destruct (PipelineExecutor._rule_value response data rule);
      try (rewrite Hcast; reflexivity).
    contradiction Hvalue. reflexivity.
  - unfold PipelineExecutor._lookup_path.
    rewrite (split_without_sep "." _ Hname).
    cbn [PipelineExecutor._lookup_keys].
    rewrite dict_get_set, String.eqb_refl. reflexivity.
Qed.

Lemma extracted_value_is_read_back_witness :
  exists context',
    PipelineExecutor._extract_rule (host:=Sample.host) (VStr "yes") VNone
      [("input", VStr "GET /")]
      (ExtractRule.Build "flag" None (Some true) (Some "boolean"))
    = Ok context' /\
    PipelineExecutor._lookup_path (VDict context') "flag" = VBool true.
Proof.
  apply (extracted_value_is_read_back Sample.host (VStr "yes") VNone
           [("input", VStr "GET /")]
           (ExtractRule.Build "flag" None (Some true) (Some "boolean"))
           (VBool true)).
  - reflexivity.
  - discriminate.
  - reflexivity.
Defined.

(** ** What a run does to the context *)

Section ContextGrowth.
Context {host : PyHost}.

Lemma grows_refl (names : list string) (c : dict) : grows names c c.
Proof.
  split; [exists []; symmetry; apply app_nil_r|reflexivity].
Qed.

Lemma grows_trans (n1 n2 : list string) (a b c : dict) :
  grows n1 a b -> grows n2 b c -> grows (n1 ++ n2) a c.
Proof.
  intros [[x Hx] Fx] [[y Hy] Fy]. split.
  - exists (x ++ y)%list. rewrite Hy, Hx, app_assoc. reflexivity.
  - intros k Hk. rewrite Fy, Fx; [reflexivity| |];
      intros Hin; apply Hk; apply in_or_app; auto.
Qed.

Lemma grows_weaken (n1 n2 : list string) (a b : dict) :
  (forall k, In k n1 -> In k n2) -> grows n1 a b -> grows n2 a b.
Proof.
  intros Hsub [Hk Hf]. split; [exact Hk|].
  intros k Hn. apply Hf. intros Hin. apply Hn, Hsub, Hin.
Qed.

Lemma grows_set (c : dict) (k : string) (v : value) :
  grows [k] c (dict_set c k v).
Proof.
  split.
  - rewrite dict_set_keys. eauto.
  - intros k' Hk'. rewrite dict_get_set.
    destruct (String.eqb_spec k' k) as [->|_]; [|reflexivity].
    contradiction Hk'. left. reflexivity.
Qed.

Lemma extract_rule_grows (response data : value) (context context' : dict)
    (rule : ExtractRule.t) :
  PipelineExecutor._extract_rule response data context rule = Ok context' ->
  grows [ExtractRule.name rule] context context'.
Proof.
  unfold PipelineExecutor._extract_rule.
  assert (W : forall v,
            (v' <- PipelineExecutor._cast_type v (ExtractRule.type rule) ;;
             Ok (dict_set context (ExtractRule.name rule) v')) = Ok context' ->
            grows [ExtractRule.name rule] context context').
  { intros v.
    destruct (PipelineExecutor._cast_type v (ExtractRule.type rule)) as [v'|e];
      cbn [bind]; intros E; inversion E. apply grows_set. }
  destruct (PipelineExecutor._rule_value response data rule); try apply W.
  intros E. inversion E. apply grows_refl.
Qed.

Lemma extract_rules_grow (response data : value) (rules : list ExtractRule.t) :
  forall context context',
    PipelineExecutor._extract_rules response data context rules = Ok context' ->
    grows (map ExtractRule.name rules) context context'.
Proof.
  induction rules as [|r rules IH]; intros context context';
    cbn [PipelineExecutor._extract_rules map].
  - intros E. inversion E. apply grows_refl.
  - destruct (PipelineExecutor._extract_rule response data context r)
      as [c1|e] eqn:R; cbn [bind]; [|discriminate].
    intros E.
    apply (grows_trans [ExtractRule.name r] _ context c1 context').
    + apply (extract_rule_grows _ _ _ _ _ R).
    + apply IH. exact E.
Qed.

Lemma extract_data_grows (context : dict) (response : value)
    (rules : list ExtractRule.t) (is_json : bool) (context' : dict) :
  PipelineExecutor._extract_data context response rules is_json = Ok context' ->
  grows (map ExtractRule.name rules) context context'.
Proof.
  unfold PipelineExecutor._extract_data. destruct is_json.
  - destruct response as [| | | |text| |]; try discriminate.
    destruct (json_loads text) as [data|e].
    + apply extract_rules_grow.
    + destruct e; try discriminate. intros E. inversion E. apply grows_refl.
  - apply extract_rules_grow.
Qed.

Lemma query_step_grows (self : PipelineExecutor.t) (context : dict)
    (step : Step.t) (w : world) (context' : dict) (w' : world) :
  PipelineExecutor._execute_query_step self context step w
  = (Some (Ok context'), w') ->
  grows (rule_names step) context context'.
Proof.
  unfold PipelineExecutor._execute_query_step, rule_names.
  destruct (Step.message step) as [message|].
  - intros E. apply io_bind_inv in E. destruct E as (response & w1 & _ & E).
    destruct (Step.extract step) as [[|rule rules]|].
    + inversion E. apply grows_refl.
    + apply io_bind_inv in E. destruct E as (content & w2 & _ & E).
      apply io_lift_inv in E. destruct E as [E _].
      apply (extract_data_grows _ _ _ _ _ E).
    + inversion E. apply grows_refl.
  - intros E. inversion E. apply grows_refl.
Qed.

Lemma run_steps_grow (self : PipelineExecutor.t) (steps : list Step.t) :
  forall context w context' w',
    PipelineExecutor._run_steps self context steps w = (Some (Ok context'), w') ->
    grows (flat_map rule_names steps) context context'.
Proof.
  induction steps as [|step steps IH]; intros context w context' w';
    cbn [PipelineExecutor._run_steps flat_map].
  - intros E. inversion E. apply grows_refl.
  - intros E. apply io_bind_inv in E. destruct E as (should_run & w1 & _ & E).
    assert (Hlater : forall k, In k (flat_map rule_names steps) ->
                               In k (rule_names step ++ flat_map rule_names steps)).
    { intros k Hk. apply in_or_app. right. exact Hk. }
    destruct (negb should_run).
    { apply (grows_weaken _ _ _ _ Hlater). apply (IH _ _ _ _ E). }
    destruct (String.eqb (Step.action step) "query").
    + apply io_bind_inv in E. destruct E as (c1 & w2 & Estep & E).
      apply (grows_trans _ _ context c1 context').
      * apply (query_step_grows _ _ _ _ _ _ Estep).
      * apply (IH _ _ _ _ E).
    + apply (grows_weaken _ _ _ _ Hlater). apply (IH _ _ _ _ E).
Qed.

End ContextGrowth.

(** X4.  Extraction only adds to the context: the keys that were there stay
    in their order, new keys come after them, and a key that no rule is
    named after keeps its value. *)
Theorem extraction_only_adds
    (host : PyHost) (context : dict) (response : value)
    (rules : list ExtractRule.t) (is_json : bool) (context' : dict) :
  PipelineExecutor._extract_data context response rules is_json = Ok context' ->
  (exists added, keys context' = (keys context ++ added)%list) /\
  (forall k, ~ In k (map ExtractRule.name rules) ->
             dict_get context' k = dict_get context k).
Proof. apply extract_data_grows. Qed.

Lemma extraction_only_adds_witness :
  let context := [("input", VStr "GET /"); ("flag", VBool false)] in
  let rules := [ExtractRule.Build "raw" None (Some true) None;
                ExtractRule.Build "flag" None (Some true) (Some "boolean")] in
  let context' := [("input", VStr "GET /"); ("flag", VBool true);
                   ("raw", VStr "yes")] in
  (exists added, keys context' = (keys context ++ added)%list) /\
  (forall k, ~ In k (map ExtractRule.name rules) ->
             dict_get context' k = dict_get context k).
Proof.
  intros context rules context'.
  apply (extraction_only_adds Sample.host context (VStr "yes") rules false).
  reflexivity.
Defined.

(** X5.  The context that [execute] returns starts with the key [input],
    and every key written on the way is still there; when no rule of the
    pipeline is named [input], the value under it is the input the run was
    started with. *)
Theorem execute_keeps_input
    (host : PyHost) (self : PipelineExecutor.t) (initial_input : value)
    (w : world) (context' : dict) (w' : world) :
  PipelineExecutor.execute self initial_input w = (Some (Ok context'), w') ->
  (exists rest, keys context' = "input" :: rest) /\
  (~ In "input"
       (flat_map rule_names (Pipeline.steps (PipelineExecutor.pipeline self))) ->
   dict_get context' "input" = Some initial_input).
Proof.
  unfold PipelineExecutor.execute. intros E.
  destruct (run_steps_grow _ _ _ _ _ _ E) as [[added Hkeys] Hframe].
  split.
  - exists added. exact Hkeys.
  - intros Hno. rewrite (Hframe _ Hno). reflexivity.
Qed.

Lemma execute_keeps_input_witness :
  let context' :=
    [("input", VStr "GET /?id=1 UNION");
     ("result_all",
      VDict [("suspicious", VFloat 0.5%float); ("security_risk", VBool true);
             ("reason", VStr "union select")]);
     ("sec_risk", VBool true);
     ("suspicious_coef", VFloat 0.5%float)] in
  (exists rest, keys context' = "input" :: rest) /\
  dict_get context' "input" = Some (VStr "GET /?id=1 UNION").
Proof.
  intros context'.
  destruct (execute_keeps_input Sample.host Scenario.executor
              (VStr "GET /?id=1 UNION") (World (Scenario.two_rounds "0.5") [])
              context'
              (snd (PipelineExecutor.execute (host:=Sample.host)
                      Scenario.executor (VStr "GET /?id=1 UNION")
                      (World (Scenario.two_rounds "0.5") []))))
    as [Hkeys Hvalue].
  - vm_compute. reflexivity.
  - split; [exact Hkeys|]. apply Hvalue.
    vm_compute. intuition discriminate.
Defined.

(** ** Coercion *)

(** X6.  Coercion is idempotent: a value that came out of [_cast_type] for
    a type comes out of it unchanged for the same type. *)
Theorem cast_twice_is_cast_once
    (host : PyHost) (v v' : value) (target_type : option string) :
  PipelineExecutor._cast_type v target_type = Ok v' ->
  PipelineExecutor._cast_type v' target_type = Ok v'.
Proof.
  unfold PipelineExecutor._cast_type.
  destruct target_type as [ty|]; [|intros E; inversion E; reflexivity].
  destruct (String.eqb ty "number").
  - destruct (py_float v) as [f|[]]; intros E; inversion E; reflexivity.
  - destruct (String.eqb ty "boolean"); [|intros E; inversion E; reflexivity].
    generalize (mem_string (lower (py_str v)) ["true"; "1"; "yes"]).
    intros b E. injection E as <-. destruct b; reflexivity.
Qed.

Lemma cast_twice_is_cast_once_witness :
  PipelineExecutor._cast_type (host:=Sample.host) (VBool true) (Some "boolean")
  = Ok (VBool true).
Proof.
  apply (cast_twice_is_cast_once Sample.host (VStr "YES") (VBool true)
           (Some "boolean")).
  reflexivity.
Defined.



(** ** The shape of a condition *)

(** X8.  A gate never raises, and it is a conjunction: the gate made of two
    lists of conditions holds exactly when the two gates hold. *)
Theorem gate_is_conjunction
    (host : PyHost) (context : dict) (l1 l2 : list Condition.t) :
  exists b1 b2,
    PipelineExecutor._evaluate_conditions context (Some l1) = Ok b1 /\
    PipelineExecutor._evaluate_conditions context (Some l2) = Ok b2 /\
    PipelineExecutor._evaluate_conditions context (Some (l1 ++ l2))
    = Ok (b1 && b2).
Proof.
  assert (G : forall l,
            PipelineExecutor._evaluate_conditions context (Some l)
            = Ok (forallb (holds context) l)).
  { intros [|c cs]; [reflexivity|].
    unfold PipelineExecutor._evaluate_conditions.
    rewrite gather_eval. cbn [bind]. rewrite forallb_id_map. reflexivity. }
  exists (forallb (holds context) l1), (forallb (holds context) l2).
  rewrite !G, forallb_app. auto.
Qed.

(** X9.  A condition never raises, and it is its comparison followed by one
    of its lists: where the comparison is true the result is the
    conjunction of the [and] clauses, where it is false the disjunction of
    the [or] clauses; the other list plays no part, and an absent or empty
    list leaves the comparison as the result. *)
Theorem condition_is_base_then_branch
    (host : PyHost) (context : dict) (a op : string) (val_b : value)
    (and_ or_ : option (list Condition.t)) :
  exists base,
    PipelineExecutor._base_result context a op val_b = Ok base /\
    PipelineExecutor._evaluate_single_condition context
      (Condition.Build a op val_b and_ or_)
    = Ok (if base
          then forallb (holds context) (opt_items and_)
          else existsb (holds context) (opt_items or_)).
Proof.
  destruct (base_result_total context a op val_b) as [base Hbase].
  exists base. split; [exact Hbase|].
  rewrite eval_unfold, Hbase. cbn [bind].
  destruct base.
  - destruct and_ as [[|c cs]|]; try reflexivity.
    rewrite gather_eval. cbn [bind opt_items]. rewrite forallb_id_map.
    reflexivity.
  - destruct or_ as [[|c cs]|];
      try (destruct and_ as [[|? ?]|]; reflexivity).
    destruct and_ as [[|? ?]|]; rewrite gather_eval; cbn [bind opt_items];
      rewrite existsb_id_map; reflexivity.
Qed.

(** ** Steps that do nothing, and steps that fail *)

Section FailureFacts.
Context {host : PyHost}.

Lemma sender_capabilities_fault (self : QuerySender.t) (lang : option string)
    (model_requested : string) (payload_json : option bool)
    (system_message user_message : string) (e : exn) (rest : list reply)
    (tr : list event) :
  QuerySender.execute self lang model_requested payload_json system_message
    user_message (World (Fault e :: rest) tr)
  = (Some (Raise e),
     World rest
       (tr ++ [capabilities_request
                 (ModelPicker.client (QuerySender.model_picker self))])).
Proof.
  unfold QuerySender.execute. apply io_bind_raise.
  unfold ModelPicker.consider_model. apply io_bind_raise. reflexivity.
Qed.

Lemma sender_submit_fault (self : QuerySender.t) (lang : option string)
    (model_requested : string) (payload_json : option bool)
    (system_message user_message : string) (caps : list string) (m : string)
    (e : exn) (rest : list reply) (tr : list event) :
  find (fun x => startswith x "LLM::") caps = Some m ->
  QuerySender.execute self lang model_requested payload_json system_message
    user_message (World (Json (VList (map VStr caps)) :: Fault e :: rest) tr)
  = (Some (Raise e),
     World rest
       (tr ++ [capabilities_request
                 (ModelPicker.client (QuerySender.model_picker self));
               submit_request (QuerySender.client self) m system_message
                 user_message (opt_bool payload_json)])).
Proof.
  intros Hfind. unfold QuerySender.execute.
  erewrite io_bind_ok by apply consider_model_first.
  rewrite Hfind. apply io_bind_raise.
  rewrite (submit_task_post _ _ _ _ _ (Fault e)).
  rewrite <- app_assoc. reflexivity.
Qed.

(** An exception of the sender in a step that dispatches ends the run. *)
Lemma step_exception_aborts (self : PipelineExecutor.t) (context : dict)
    (step : Step.t) (message : Message.t) (later : list Step.t) (w : world)
    (e : exn) (w' : world) :
  dispatches context step ->
  Step.message step = Some message ->
  QuerySender.execute (PipelineExecutor.query_sender self) (Step.lang step)
    match Step.model step with Some m => m | None => "" end
    (Step.json step)
    (PipelineExecutor._substitute_variables context (Message.system message))
    (PipelineExecutor._substitute_variables context (Message.user message)) w
  = (Some (Raise e), w') ->
  PipelineExecutor._run_steps self context (step :: later) w
  = (Some (Raise e), w').
Proof.
  intros (Hgate & Haction & _) Hmessage Hsender.
  cbn [PipelineExecutor._run_steps]. rewrite Hgate, Haction.
  erewrite io_bind_ok by reflexivity. cbn [negb].
  change (String.eqb "query" "query") with true. cbv iota.
  apply io_bind_raise.
  unfold PipelineExecutor._execute_query_step. rewrite Hmessage.
  apply io_bind_raise. exact Hsender.
Qed.

End FailureFacts.

(** X10.  A step whose action is not [query], and a query step that has no
    message, do nothing, whatever their gate says: the run goes on with the
    next step from the same context, and nothing is sent. *)
Theorem idle_step_is_skipped
    (host : PyHost) (self : PipelineExecutor.t) (context : dict)
    (step : Step.t) (later : list Step.t) (w : world) :
  Step.action step <> "query" \/ Step.message step = None ->
  PipelineExecutor._run_steps self context (step :: later) w
  = PipelineExecutor._run_steps self context later w.
Proof.
  intros Hidle. cbn [PipelineExecutor._run_steps].
  destruct (gate_total context (Step.if_condition step)) as [r ->].
  erewrite io_bind_ok by reflexivity.
  destruct (negb r); [reflexivity|].
  destruct (String.eqb_spec (Step.action step) "query") as [Hq|_];
    [|reflexivity].
  destruct Hidle as [Hne|Hnone]; [contradiction|].
  unfold PipelineExecutor._execute_query_step. rewrite Hnone.
  erewrite io_bind_ok by reflexivity. reflexivity.
Qed.

Lemma idle_step_is_skipped_witness :
  PipelineExecutor._run_steps (host:=Sample.host) Scenario.executor
    [("input", VStr "GET /")]
    [Step.Build "summarize" None None None None None None;
     Step.Build "query" None (Some true) (Some "any") None None
       (Some [ExtractRule.Build "raw" None (Some true) None])]
    (World [Scenario.capabilities] [])
  = (Some (Ok [("input", VStr "GET /")]), World [Scenario.capabilities] []).
Proof.
  rewrite (idle_step_is_skipped Sample.host Scenario.executor)
    by (left; discriminate).
  rewrite (idle_step_is_skipped Sample.host Scenario.executor)
    by (right; reflexivity).
  reflexivity.
Defined.

(** X11.  A dispatch that goes through sends, in this order, one
    capabilities request, one submission for the first capability with the
    prefix, carrying the two prompts and the JSON format only when the
    step asks for it, and the polls of the waiter, at the address made of
    the capability and the task id that the backend gave back in its
    answer to the submission.  Its outcome is the lookup of [output] in
    the terminal payload: a terminal payload without that key makes the
    dispatch raise KeyError. *)
Theorem dispatch_request_sequence
    (host : PyHost) (self : QuerySender.t) (lang : option string)
    (model_requested : string) (payload_json : option bool)
    (system_message user_message : string) (caps : list string) (m : string)
    (task task_id capability : value) (encoded : string) (pre : list reply)
    (payload : value) (post : list reply) (tr : list event) :
  find (fun x => startswith x "LLM::") caps = Some m ->
  (id <- py_getitem task "id" ;; py_getitem id "id") = Ok task_id ->
  (id <- py_getitem task "id" ;; py_getitem id "cap") = Ok capability ->
  BackendAPIClient.qpart capability = Ok encoded ->
  Forall (fun r => is_terminal r = false) pre ->
  is_terminal (Json payload) = true ->
  let c := QuerySender.client self in
  let waiter := task_waiter c encoded task_id in
  QuerySender.execute self lang model_requested payload_json system_message
    user_message
    (World (Json (VList (map VStr caps)) :: Json task
              :: pre ++ Json payload :: post) tr)
  = (Some (py_getitem payload "output"),
     World post
       (tr ++ [capabilities_request
                 (ModelPicker.client (QuerySender.model_picker self));
               submit_request c m system_message user_message
                 (opt_bool payload_json)]
           ++ turns waiter (List.length pre)
           ++ [Post (ApiWaiter.url waiter) (ApiWaiter.payload waiter)])).
Proof. apply sender_run. Qed.

Lemma dispatch_request_sequence_witness :
  let failed := VDict [("status", VStr "failed"); ("error", VStr "out of memory")] in
  let poll := Post "http://backend/api/task/poll/LLM%3A%3Asmall/7"
                (VDict [("apiKey", VStr "secret")]) in
  QuerySender.execute (host:=Sample.host) Scenario.sender (Some "en") "any"
    (Some true) "sys" "usr"
    (World [Scenario.capabilities; Scenario.accepted; Scenario.processing;
            Json failed] [])
  = (Some (Raise (KeyError "output")),
     World []
       [capabilities_request Scenario.client;
        submit_request Scenario.client "LLM::small" "sys" "usr" true;
        poll; Sleep 5; poll]).
Proof.
  intros failed poll.
  apply (dispatch_request_sequence Sample.host Scenario.sender (Some "en")
           "any" (Some true) "sys" "usr"
           ["OCR::scan"; "LLM::small"; "LLM::big"] "LLM::small"
           (VDict [("id", VDict [("id", VStr "7"); ("cap", VStr "LLM::small")])])
           (VStr "7") (VStr "LLM::small") "LLM%3A%3Asmall"
           [Scenario.processing] failed [] []).
  - reflexivity.
  - reflexivity.
  - reflexivity.
  - reflexivity.
  - repeat constructor.
  - reflexivity.
Defined.

(** X12.  A fault on the capabilities request or on the submission is not
    retried: in a step that dispatches it ends the run with that exception,
    after that one request, and no later step runs. *)
Theorem backend_fault_aborts_run
    (host : PyHost) (self : PipelineExecutor.t) (context : dict)
    (step : Step.t) (message : Message.t) (later : list Step.t)
    (caps : list string) (m : string) (e : exn) (rest : list reply)
    (tr : list event) :
  dispatches context step ->
  Step.message step = Some message ->
  find (fun x => startswith x "LLM::") caps = Some m ->
  let sender := PipelineExecutor.query_sender self in
  let asked :=
    capabilities_request (ModelPicker.client (QuerySender.model_picker sender)) in
  let submitted :=
    submit_request (QuerySender.client sender) m
      (PipelineExecutor._substitute_variables context (Message.system message))
      (PipelineExecutor._substitute_variables context (Message.user message))
      (opt_bool (Step.json step)) in
  PipelineExecutor._run_steps self context (step :: later)
    (World (Fault e :: rest) tr)
  = (Some (Raise e), World rest (tr ++ [asked])) /\
  PipelineExecutor._run_steps self context (step :: later)
    (World (Json (VList (map VStr caps)) :: Fault e :: rest) tr)
  = (Some (Raise e), World rest (tr ++ [asked; submitted])).
Proof.
  intros Hstep Hmessage Hfind sender asked submitted. split.
  - apply (step_exception_aborts _ _ _ message); try assumption.
    apply sender_capabilities_fault.
  - apply (step_exception_aborts _ _ _ message); try assumption.
    apply sender_submit_fault. exact Hfind.
Qed.

Lemma backend_fault_aborts_run_witness :
  let context := [("input", VStr "GET /")] in
  let asked := capabilities_request Scenario.client in
  let submitted :=
    submit_request Scenario.client "LLM::small"
      "You are a logs analyzer. Return a JSON with 3 fields: {suspicious: float[0-1], security_risk: boolean, reason: string}"
      "Analyze log line: 'GET /'" true in
  PipelineExecutor._run_steps (host:=Sample.host) Scenario.executor context
    [Scenario.analyze; Scenario.explain]
    (World [Fault RequestError; Scenario.capabilities] [])
  = (Some (Raise RequestError), World [Scenario.capabilities] [asked]) /\
  PipelineExecutor._run_steps (host:=Sample.host) Scenario.executor context
    [Scenario.analyze; Scenario.explain]
    (World [Scenario.capabilities; Fault HTTPStatusError; Scenario.processing] [])
  = (Some (Raise HTTPStatusError),
     World [Scenario.processing] [asked; submitted]).
Proof.
  intros context asked submitted.
  destruct (backend_fault_aborts_run Sample.host Scenario.executor context
              Scenario.analyze
              (Message.Build []
                 "You are a logs analyzer. Return a JSON with 3 fields: {suspicious: float[0-1], security_risk: boolean, reason: string}"
                 "Analyze log line: '${input}'")
              [Scenario.explain] ["OCR::scan"; "LLM::small"; "LLM::big"]
              "LLM::small" RequestError [Scenario.capabilities] [])
    as [Hcaps _]; [repeat split; discriminate|reflexivity|reflexivity|].
  destruct (backend_fault_aborts_run Sample.host Scenario.executor context
              Scenario.analyze
              (Message.Build []
                 "You are a logs analyzer. Return a JSON with 3 fields: {suspicious: float[0-1], security_risk: boolean, reason: string}"
                 "Analyze log line: '${input}'")
              [Scenario.explain] ["OCR::scan"; "LLM::small"; "LLM::big"]
              "LLM::small" HTTPStatusError [Scenario.processing] [])
    as [_ Hsubmit]; [repeat split; discriminate|reflexivity|reflexivity|].
  split; [exact Hcaps|exact Hsubmit].
Defined.

(** ** The waiter and the picker, read backwards *)

Section WaiterConverse.
Context {host : PyHost}.

Lemma poll_reply_passes (r : reply) :
  (forall data, ApiWaiter._poll_reply r <> Ok (Some data)) ->
  is_terminal r = false.
Proof.
  intros H. destruct (is_terminal r) eqn:T; [|reflexivity].
  destruct r as [e|data]; [discriminate|].
  exfalso. apply (H data). apply poll_reply_terminal. exact T.
Qed.

Lemma poll_loop_never_raises (self : ApiWaiter.t) (replies : list reply) :
  forall tr e, fst (ApiWaiter._poll_loop self replies tr) <> Some (Raise e).
Proof.
  induction replies as [|r replies IH]; intros tr e;
    cbn [ApiWaiter._poll_loop].
  - discriminate.
  - destruct (ApiWaiter._poll_reply r) as [[d|]|x]; try apply IH.
    discriminate.
Qed.

Lemma poll_loop_runs_out (self : ApiWaiter.t) (replies : list reply) :
  Forall (fun r => is_terminal r = false) replies ->
  forall tr,
    ApiWaiter._poll_loop self replies tr
    = (None,
       World [] (tr ++ turns self (List.length replies)
                    ++ [Post (ApiWaiter.url self) (ApiWaiter.payload self)])).
Proof.
  induction 1 as [|r replies Hr _ IH]; intros tr;
    cbn [ApiWaiter._poll_loop List.length turns].
  - reflexivity.
  - pose proof (poll_reply_not_terminal r) as Hno.
    destruct (ApiWaiter._poll_reply r) as [[d|]|e].
    + exfalso. apply (Hno d Hr). reflexivity.
    + rewrite IH. repeat rewrite <- app_assoc. reflexivity.
    + rewrite IH. repeat rewrite <- app_assoc. reflexivity.
Qed.

Lemma poll_loop_first_terminal (self : ApiWaiter.t) (replies : list reply) :
  forall tr v w',
    ApiWaiter._poll_loop self replies tr = (Some (Ok v), w') ->
    exists pre,
      replies = pre ++ Json v :: script w' /\
      Forall (fun r => is_terminal r = false) pre /\
      is_terminal (Json v) = true /\
      trace w' = (tr ++ turns self (List.length pre)
                     ++ [Post (ApiWaiter.url self) (ApiWaiter.payload self)])%list.
Proof.
  induction replies as [|r replies IH]; intros tr v w' E.
  - discriminate.
  - cbn [ApiWaiter._poll_loop] in E.
    assert (Hnext : forall tr1,
              (forall data, ApiWaiter._poll_reply r <> Ok (Some data)) ->
              ApiWaiter._poll_loop self replies tr1 = (Some (Ok v), w') ->
              tr1 = ((tr ++ [Post (ApiWaiter.url self) (ApiWaiter.payload self)])
                       ++ [Sleep 5])%list ->
              exists pre,
                r :: replies = pre ++ Json v :: script w' /\
                Forall (fun r => is_terminal r = false) pre /\
                is_terminal (Json v) = true /\
                trace w' = (tr ++ turns self (List.length pre)
                     ++ [Post (ApiWaiter.url self) (ApiWaiter.payload self)])%list).
    { intros tr1 Hr E1 ->.
      destruct (IH _ _ _ E1) as (pre & -> & Hpre & T & Htr).
      exists (r :: pre). split; [reflexivity|].
      split; [constructor; [apply poll_reply_passes, Hr|exact Hpre]|].
      split; [exact T|].
      rewrite Htr. cbn [List.length turns]. repeat rewrite <- app_assoc.
      reflexivity. }
    destruct (ApiWaiter._poll_reply r) as [[d|]|e] eqn:R.
    + inversion E; subst. apply poll_reply_inv in R. destruct R as [-> T].
      exists []. repeat split; [constructor|exact T].
    + apply (Hnext _ ltac:(discriminate) E eq_refl).
    + apply (Hnext _ ltac:(discriminate) E eq_refl).
Qed.

Lemma usable_first (available : list value) (m : string) (others : list string) :
  ModelPicker._usable available = Ok (m :: others) ->
  startswith m "LLM::" = true /\
  exists before after,
    available = before ++ VStr m :: after /\
    Forall (fun x => exists s, x = VStr s /\ startswith s "LLM::" = false) before.
Proof.
  induction available as [|x available IH]; cbn [ModelPicker._usable].
  - discriminate.
  - destruct x as [| | | |s| |]; try discriminate.
    destruct (ModelPicker._usable available) as [usable|e]; cbn [bind];
      [|discriminate].
    destruct (startswith s "LLM::") eqn:P; intros E; inversion E; subst.
    + split; [exact P|]. exists [], available. split; [reflexivity|constructor].
    + destruct (IH eq_refl) as (Hm & before & after & -> & Hbefore).
      split; [exact Hm|]. exists (VStr s :: before), after.
      split; [reflexivity|]. constructor; [eauto|exact Hbefore].
Qed.

Lemma usable_none (available : list value) :
  ModelPicker._usable available = Ok [] ->
  Forall (fun x => exists s, x = VStr s /\ startswith s "LLM::" = false)
         available.
Proof.
  induction available as [|x available IH]; cbn [ModelPicker._usable].
  - constructor.
  - destruct x as [| | | |s| |]; try discriminate.
    destruct (ModelPicker._usable available) as [usable|e]; cbn [bind];
      [|discriminate].
    destruct (startswith s "LLM::") eqn:P; intros E; inversion E; subst.
    constructor; [eauto|apply IH; reflexivity].
Qed.

End WaiterConverse.

(** X13.  The waiter never raises, whatever the backend answers; and as
    long as no reply is terminal it goes on: with [n] such replies, faults
    included, it has sent [n + 1] requests, paused after each of the first
    [n], and has not returned. *)
Theorem waiter_never_gives_up
    (host : PyHost) (self : ApiWaiter.t) (w : world) :
  (forall e, fst (ApiWaiter.wait_for_status self w) <> Some (Raise e)) /\
  (Forall (fun r => is_terminal r = false) (script w) ->
   ApiWaiter.wait_for_status self w
   = (None,
      World [] (trace w ++ turns self (List.length (script w))
                  ++ [Post (ApiWaiter.url self) (ApiWaiter.payload self)]))).
Proof.
  unfold ApiWaiter.wait_for_status. split.
  - intros e. apply poll_loop_never_raises.
  - intros H. apply poll_loop_runs_out. exact H.
Qed.

Lemma waiter_never_gives_up_witness :
  let self := ApiWaiter.Build "http://backend/poll" VNone in
  let poll := Post "http://backend/poll" VNone in
  ApiWaiter.wait_for_status (host:=Sample.host) self
    (World [Fault RequestError; Json (VStr "status"); Scenario.processing] [])
  = (None, World [] [poll; Sleep 5; poll; Sleep 5; poll; Sleep 5; poll]).
Proof.
  intros self poll.
  destruct (waiter_never_gives_up Sample.host self
              (World [Fault RequestError; Json (VStr "status");
                      Scenario.processing] [])) as [_ H].
  apply H. repeat constructor.
Defined.

(** X14.  What the waiter returns is always a payload with a terminal
    status, the first one among the replies: every reply before it was
    passed over with one request and one pause, and the replies after it
    are left unread. *)
Theorem waiter_returns_only_terminal
    (host : PyHost) (self : ApiWaiter.t) (w : world) (v : value) (w' : world) :
  ApiWaiter.wait_for_status self w = (Some (Ok v), w') ->
  exists pre,
    script w = pre ++ Json v :: script w' /\
    Forall (fun r => is_terminal r = false) pre /\
    is_terminal (Json v) = true /\
    trace w' = (trace w ++ turns self (List.length pre)
                  ++ [Post (ApiWaiter.url self) (ApiWaiter.payload self)])%list.
Proof. unfold ApiWaiter.wait_for_status. apply poll_loop_first_terminal. Qed.

Lemma waiter_returns_only_terminal_witness :
  let self := ApiWaiter.Build "http://backend/poll" VNone in
  let canceled := VDict [("status", VStr "CANCELED")] in
  let w := World [Scenario.processing; Json canceled;
                  Json (Scenario.completed "late")] [] in
  exists pre,
    script w = pre ++ Json canceled :: [Json (Scenario.completed "late")] /\
    Forall (fun r => is_terminal r = false) pre /\
    is_terminal (Json canceled) = true /\
    [Post "http://backend/poll" VNone; Sleep 5; Post "http://backend/poll" VNone]
    = ([] ++ turns self (List.length pre)
          ++ [Post (ApiWaiter.url self) (ApiWaiter.payload self)])%list.
Proof.
  intros self canceled w.
  apply (waiter_returns_only_terminal Sample.host self w canceled
           (World [Json (Scenario.completed "late")]
              [Post "http://backend/poll" VNone; Sleep 5;
               Post "http://backend/poll" VNone])).
  reflexivity.
Defined.

(** X15.  Whatever the shape of the capabilities the backend answers with
    (a list, or a mapping whose keys are the labels), the picker sends one
    request, and what it picks is the first item that starts with
    ["LLM::"]: every item before it is a text without the prefix.  When it
    picks nothing, every item is such a text. *)
Theorem picker_picks_first_with_prefix
    (host : PyHost) (self : ModelPicker.t) (request : string)
    (lang : option string) (w : world) (picked : option string) (w' : world) :
  ModelPicker.consider_model self request lang w = (Some (Ok picked), w') ->
  exists available items,
    script w = Json available :: script w' /\
    trace w' = (trace w ++ [capabilities_request (ModelPicker.client self)])%list /\
    py_iter available = Ok items /\
    match picked with
    | Some m =>
        startswith m "LLM::" = true /\
        exists before after,
          items = before ++ VStr m :: after /\
          Forall (fun x => exists s, x = VStr s /\ startswith s "LLM::" = false)
                 before
    | None =>
        Forall (fun x => exists s, x = VStr s /\ startswith s "LLM::" = false)
               items
    end.
Proof.
  unfold ModelPicker.consider_model. intros E.
  apply io_bind_inv in E. destruct E as (available & wa & Epost & E).
  apply io_bind_inv in E. destruct E as (items & wb & Eitems & E).
  apply io_bind_inv in E. destruct E as (usable & wc & Eusable & E).
  apply io_lift_inv in Eitems. destruct Eitems as [Hitems ->].
  apply io_lift_inv in Eusable. destruct Eusable as [Husable ->].
  exists available, items.
  assert (Hw : script w = Json available :: script wa /\
               trace wa = (trace w
                             ++ [capabilities_request (ModelPicker.client self)])%list).
  { unfold BackendAPIClient.check_capabilities_online, http_post in Epost.
    destruct (script w) as [|[e|v] rest]; inversion Epost; subst.
    split; reflexivity. }
  destruct Hw as [Hscript Htrace].
  destruct usable as [|m others]; inversion E; subst;
    (split; [exact Hscript|]; split; [exact Htrace|]; split; [exact Hitems|]).
  - apply usable_none. exact Husable.
  - apply (usable_first _ _ _ Husable).
Qed.

Lemma picker_picks_first_with_prefix_witness :
  let online := VDict [("OCR::scan", VInt 2); ("LLM::mistral", VInt 1);
                       ("LLM::llama", VInt 4)] in
  let w := World [Json online; Scenario.accepted] [] in
  exists available items,
    script w = Json available :: [Scenario.accepted] /\
    [capabilities_request Scenario.client]
    = ([] ++ [capabilities_request Scenario.client])%list /\
    py_iter available = Ok items /\
    startswith "LLM::mistral" "LLM::" = true /\
    exists before after,
      items = before ++ VStr "LLM::mistral" :: after /\
      Forall (fun x => exists s, x = VStr s /\ startswith s "LLM::" = false)
             before.
Proof.
  intros online w.
  apply (picker_picks_first_with_prefix Sample.host
           (ModelPicker.Build Scenario.client) "any" None w
           (Some "LLM::mistral")
           (World [Scenario.accepted] [capabilities_request Scenario.client])).
  reflexivity.
Defined.

(** ** The capability in the address of a task *)

Section QuoteFacts.

Lemma hex_digits_are_safe (c : ascii) :
  always_safe (hex_digit (N_of_ascii c / 16)) = true /\
  always_safe (hex_digit (N_of_ascii c mod 16)) = true.
Proof. destruct c as [[] [] [] [] [] [] [] []]; split; reflexivity. Qed.

Lemma unhex_hex (c : ascii) :
  unhex (hex_digit (N_of_ascii c / 16)) (hex_digit (N_of_ascii c mod 16)) = c.
Proof. destruct c as [[] [] [] [] [] [] [] []]; reflexivity. Qed.

Lemma quote_chars (s : string) :
  Forall (fun c => always_safe c = true \/ c = "%"%char)
         (list_ascii_of_string (quote s)).
Proof.
  induction s as [|c s IH]; cbn [quote].
  - constructor.
  - destruct (always_safe c) eqn:S; cbn [list_ascii_of_string].
    + constructor; [left; exact S|exact IH].
    + destruct (hex_digits_are_safe c) as [Hhi Hlo].
      repeat (constructor; auto).
Qed.

Lemma safe_chars_no_slash (s : string) :
  Forall (fun c => always_safe c = true \/ c = "%"%char)
         (list_ascii_of_string s) ->
  is_substring "/" s = false.
Proof.
  induction s as [|c s IH]; cbn [list_ascii_of_string]; intros H.
  - reflexivity.
  - inversion H as [|? ? Hc Hs]; subst.
    cbn [is_substring String.prefix]. rewrite (IH Hs).
    destruct (ascii_dec "/" c) as [<-|_]; [|reflexivity].
    destruct Hc as [Hc|Hc]; discriminate Hc.
Qed.

Lemma quote_inj (s : string) : forall t, quote s = quote t -> s = t.
Proof.
  induction s as [|c s IH]; intros [|d t]; cbn [quote].
  - reflexivity.
  - destruct (always_safe d); discriminate.
  - destruct (always_safe c); discriminate.
  - destruct (always_safe c) eqn:Sc, (always_safe d) eqn:Sd; intros E;
      inversion E; subst.
    + f_equal. apply IH. assumption.
    + discriminate Sc.
    + discriminate Sd.
    + f_equal.
      * rewrite <- (unhex_hex c), <- (unhex_hex d). congruence.
      * apply IH. assumption.
Qed.

Lemma qpart_text (s : string) : BackendAPIClient.qpart (VStr s) = Ok (quote s).
Proof. destruct s; reflexivity. Qed.

Lemma quote_no_slash (s : string) : is_substring "/" (quote s) = false.
Proof. apply safe_chars_no_slash, quote_chars. Qed.

Lemma append_cancel_l (p a b : string) : (p ++ a = p ++ b)%string -> a = b.
Proof.
  induction p as [|c p IH]; cbn [append]; intros E.
  - exact E.
  - apply IH. inversion E. reflexivity.
Qed.

Lemma no_slash_tail (c : ascii) (s : string) :
  is_substring "/" (String c s) = false ->
  c <> "/"%char /\ is_substring "/" s = false.
Proof.
  cbn [is_substring String.prefix]. intros H.
  apply Bool.orb_false_iff in H. destruct H as [Hc Hs]. split; [|exact Hs].
  intros ->. destruct (ascii_dec "/" "/") as [_|F].
  - destruct s; discriminate Hc.
  - apply F. reflexivity.
Qed.

(** Two texts with no slash that are followed by a slash: where the slash
    is tells them apart. *)
Lemma cut_at_slash (a : string) :
  forall b x y,
    is_substring "/" a = false -> is_substring "/" b = false ->
    (a ++ "/" ++ x = b ++ "/" ++ y)%string -> a = b.
Proof.
  induction a as [|c a IH]; intros [|d b] x y Ha Hb E.
  - reflexivity.
  - apply no_slash_tail in Hb. destruct Hb as [Hd _].
    cbn [append] in E. inversion E. congruence.
  - apply no_slash_tail in Ha. destruct Ha as [Hc _].
    cbn [append] in E. inversion E. congruence.
  - apply no_slash_tail in Ha. destruct Ha as [_ Ha].
    apply no_slash_tail in Hb. destruct Hb as [_ Hb].
    change ((String c (a ++ "/" ++ x)) = String d (b ++ "/" ++ y))%string in E.
    inversion E; subst. f_equal. exact (IH _ _ _ Ha Hb H1).
Qed.

End QuoteFacts.

(** X16.  What [qpart] returns is made of letters, digits, [_ . - ~] and
    percent signs only, so it has no slash in it and stays one segment of
    the address; a value that counts as false ([None], the empty string)
    gives the empty segment. *)
Theorem qpart_is_one_segment (v : value) (encoded : string) :
  BackendAPIClient.qpart v = Ok encoded ->
  Forall (fun c => always_safe c = true \/ c = "%"%char)
         (list_ascii_of_string encoded) /\
  is_substring "/" encoded = false /\
  (truthy v = false -> encoded = "").
Proof.
  unfold BackendAPIClient.qpart. intros E.
  assert (H : Forall (fun c => always_safe c = true \/ c = "%"%char)
                     (list_ascii_of_string encoded)).
  { destruct (truthy v); [destruct v|]; try discriminate E;
      injection E as <-; first [apply quote_chars|exact (quote_chars "")]. }
  split; [exact H|]. split; [apply safe_chars_no_slash; exact H|].
  intros F. rewrite F in E. inversion E. reflexivity.
Qed.

Lemma qpart_is_one_segment_witness :
  Forall (fun c => always_safe c = true \/ c = "%"%char)
         (list_ascii_of_string "LLM%3A%3Aorg%2Fmodel") /\
  is_substring "/" "LLM%3A%3Aorg%2Fmodel" = false /\
  (truthy (VStr "LLM::org/model") = false -> "LLM%3A%3Aorg%2Fmodel" = "").
Proof.
  apply (qpart_is_one_segment (VStr "LLM::org/model") "LLM%3A%3Aorg%2Fmodel").
  reflexivity.
Defined.

(** X17.  Two different capabilities have different quoted forms: the
    quoting loses nothing.  And since a quoted form has no slash in it, the
    addresses that [create_task_waiter] makes for them differ, whatever the
    task ids are: two tasks of different capabilities are never polled at
    the same address. *)
Theorem qpart_is_injective
    (host : PyHost) (self : BackendAPIClient.t) (s t : string) :
  s <> t ->
  BackendAPIClient.qpart (VStr s) <> BackendAPIClient.qpart (VStr t) /\
  forall task_id task_id' : value,
  exists waiter waiter',
    BackendAPIClient.create_task_waiter self (VStr s) task_id = Ok waiter /\
    BackendAPIClient.create_task_waiter self (VStr t) task_id' = Ok waiter' /\
    ApiWaiter.url waiter <> ApiWaiter.url waiter'.
Proof.
  intros Hne. split.
  - rewrite !qpart_text. intros E. apply Hne.
    inversion E. apply quote_inj. assumption.
  - intros task_id task_id'. unfold BackendAPIClient.create_task_waiter.
    rewrite !qpart_text. cbn [bind]. do 2 eexists.
    split; [reflexivity|]. split; [reflexivity|].
    cbn [ApiWaiter.url]. intros E. apply Hne, quote_inj.
    apply append_cancel_l in E.
    apply (append_cancel_l "/api/task/poll/") in E.
    exact (cut_at_slash _ _ _ _ (quote_no_slash s) (quote_no_slash t) E).
Qed.

Lemma qpart_is_injective_witness :
  BackendAPIClient.qpart (VStr "LLM::a/b")
  <> BackendAPIClient.qpart (VStr "LLM::a%2Fb") /\
  exists waiter waiter',
    BackendAPIClient.create_task_waiter (host:=Sample.host) Scenario.client
      (VStr "LLM::a/b") (VStr "7") = Ok waiter /\
    BackendAPIClient.create_task_waiter (host:=Sample.host) Scenario.client
      (VStr "LLM::a%2Fb") (VStr "7") = Ok waiter' /\
    ApiWaiter.url waiter <> ApiWaiter.url waiter'.
Proof.
  destruct (qpart_is_injective Sample.host Scenario.client
              "LLM::a/b" "LLM::a%2Fb") as [Hquoted Haddress].
  - discriminate.
  - split; [exact Hquoted|]. exact (Haddress (VStr "7") (VStr "7")).
Defined.

(** X18.  [poll_task] and the waiter that [create_task_waiter] makes for
    the same capability and task id send the same request; when the first
    reply is terminal, waiting is one [poll_task]. *)
Theorem poll_task_is_one_turn
    (host : PyHost) (self : BackendAPIClient.t) (capability task_id : string) :
  exists waiter,
    BackendAPIClient.create_task_waiter self (VStr capability) (VStr task_id)
    = Ok waiter /\
    (forall w,
        BackendAPIClient.poll_task self capability task_id w
        = http_post (ApiWaiter.url waiter) (ApiWaiter.payload waiter) w) /\
    (forall data rest tr,
        is_terminal (Json data) = true ->
        ApiWaiter.wait_for_status waiter (World (Json data :: rest) tr)
        = BackendAPIClient.poll_task self capability task_id
            (World (Json data :: rest) tr)).
Proof.
  unfold BackendAPIClient.create_task_waiter, BackendAPIClient.poll_task.
  rewrite qpart_text. cbn [bind]. eexists. split; [reflexivity|].
  split; [reflexivity|].
  intros data rest tr T. unfold ApiWaiter.wait_for_status.
  cbn [script trace ApiWaiter._poll_loop].
  rewrite (poll_reply_terminal data T). reflexivity.
Qed.

(** ** The session tokens *)

Section AuthFacts.

Lemma prefix_app (p s : string) :
  String.prefix p s = true -> exists rest, s = (p ++ rest)%string.
Proof.
  revert s. induction p as [|a p IH]; intros s H.
  - exists s. reflexivity.
  - destruct s as [|c s]; [discriminate|]. cbn [String.prefix] in H.
    destruct (ascii_dec a c) as [->|_]; [|discriminate].
    destruct (IH s H) as [rest ->]. exists rest. reflexivity.
Qed.

(** After ["Bearer "] there is always a second piece. *)
Lemma bearer_token_exists (h : string) :
  startswith h "Bearer " = true -> exists t, Auth.bearer_token h = Auth.Returns t.
Proof.
  intros H. apply prefix_app in H. destruct H as [rest ->].
  unfold Auth.bearer_token.
  change ("Bearer " ++ rest)%string with ("Bearer" ++ String " " rest)%string.
  rewrite split_app. cbn [split app Ascii.eqb Bool.eqb].
  pose proof (split_not_nil " " rest) as Hne.
  change (split " " "Bearer") with ["Bearer"]. cbn [app].
  destruct (split " " rest) as [|t ts]; [contradiction|eauto].
Qed.

Lemma nth_set_nth_eq {A : Type} (l : list A) (i : nat) (x d : A) :
  (i < List.length l)%nat -> nth i (Auth.set_nth l i x) d = x.
Proof.
  revert i. induction l as [|y l IH]; intros [|i] H; cbn in *; try lia.
  - reflexivity.
  - apply IH. lia.
Qed.

Lemma nth_set_nth_ne {A : Type} (l : list A) (i j : nat) (x d : A) :
  i <> j -> nth j (Auth.set_nth l i x) d = nth j l d.
Proof.
  revert i j. induction l as [|y l IH]; intros [|i] [|j] H; cbn;
    try reflexivity; try contradiction.
  apply IH. lia.
Qed.

Lemma deref_mutate (st : Auth.state) (ref : nat)
    (f : list string -> list string) :
  (ref < List.length (Auth.objects st))%nat ->
  Auth.deref (Auth.mutate st ref f) ref = f (Auth.deref st ref).
Proof. intros H. unfold Auth.deref, Auth.mutate. cbn. apply nth_set_nth_eq, H. Qed.

Lemma deref_mutate_other (st : Auth.state) (ref other : nat)
    (f : list string -> list string) :
  ref <> other ->
  Auth.deref (Auth.mutate st ref f) other = Auth.deref st other.
Proof. intros H. unfold Auth.deref, Auth.mutate. cbn. apply nth_set_nth_ne, H. Qed.

(** The answer of [get_token_from_request] depends on the state only
    through the set that api/v1.py calls [active_tokens]. *)
Lemma get_token_same_set (st st' : Auth.state) (request : Auth.Request) :
  Auth.deref st' (Auth.v1_active_tokens st')
  = Auth.deref st (Auth.v1_active_tokens st) ->
  Auth.get_token_from_request st' request
  = Auth.get_token_from_request st request.
Proof. intros H. unfold Auth.get_token_from_request. rewrite H. reflexivity. Qed.

Lemma require_auth_same_set (st st' : Auth.state) (request : Auth.Request) :
  Auth.deref st' (Auth.v1_active_tokens st')
  = Auth.deref st (Auth.v1_active_tokens st) ->
  Auth.require_auth st' request = Auth.require_auth st request.
Proof.
  intros H. unfold Auth.require_auth.
  rewrite (get_token_same_set st st' request H). reflexivity.
Qed.

Lemma get_token_inv (st : Auth.state) (request : Auth.Request) :
  Auth.get_token_from_request st request <> Auth.IndexError /\
  (forall c d,
      Auth.get_token_from_request st request <> Auth.HTTPException c d) /\
  (forall t,
      Auth.get_token_from_request st request = Auth.Returns (Some t) ->
      mem_string t (Auth.deref st (Auth.v1_active_tokens st)) = true /\
      (Auth.cookie_access_token request = Some t \/
       exists h, Auth.authorization request = Some h /\
                 startswith h "Bearer " = true /\
                 Auth.bearer_token h = Auth.Returns t)).
Proof.
  unfold Auth.get_token_from_request.
  set (active := Auth.deref st (Auth.v1_active_tokens st)).
  assert (C : forall t,
            match Auth.cookie_access_token request with
            | Some t0 =>
                if negb (String.eqb t0 "") && mem_string t0 active
                then Some t0 else None
            | None => None
            end = Some t ->
            mem_string t active = true /\
            Auth.cookie_access_token request = Some t).
  { intros t. destruct (Auth.cookie_access_token request) as [t0|];
      [|discriminate].
    destruct (negb (String.eqb t0 "")); cbn [andb]; [|discriminate].
    destruct (mem_string t0 active) eqn:M; [|discriminate].
    intros E. inversion E; subst. auto. }
  assert (F : Auth.Returns
                match Auth.cookie_access_token request with
                | Some t0 =>
                    if negb (String.eqb t0 "") && mem_string t0 active
                    then Some t0 else None
                | None => None
                end <> Auth.IndexError /\
              (forall c d,
                  Auth.Returns
                    match Auth.cookie_access_token request with
                    | Some t0 =>
                        if negb (String.eqb t0 "") && mem_string t0 active
                        then Some t0 else None
                    | None => None
                    end <> Auth.HTTPException c d) /\
              (forall t,
                  Auth.Returns
                    match Auth.cookie_access_token request with
                    | Some t0 =>
                        if negb (String.eqb t0 "") && mem_string t0 active
                        then Some t0 else None
                    | None => None
                    end = Auth.Returns (Some t) ->
                  mem_string t active = true /\
                  (Auth.cookie_access_token request = Some t \/
                   exists h, Auth.authorization request = Some h /\
                             startswith h "Bearer " = true /\
                             Auth.bearer_token h = Auth.Returns t))).
  { split; [discriminate|]. split; [discriminate|].
    intros t H. injection H as H. destruct (C _ H) as [? ?]. auto. }
  destruct (Auth.authorization request) as [h|] eqn:A; cbn [Auth.is_bearer];
    [|exact F].
  destruct (negb (String.eqb h "")); cbn [andb]; [|exact F].
  destruct (startswith h "Bearer ") eqn:B; [|exact F].
  destruct (bearer_token_exists h B) as [token Ht]. rewrite Ht.
  destruct (mem_string token active) eqn:M; [|exact F].
  split; [discriminate|]. split; [discriminate|].
  intros t H. injection H as <-. split; [exact M|].
  right. exists h. auto.
Qed.

End AuthFacts.

Section SessionFacts.

Lemma mem_string_true (t : string) (l : list string) :
  mem_string t l = true <-> In t l.
Proof.
  unfold mem_string. rewrite existsb_exists. split.
  - intros (x & Hx & E). apply String.eqb_eq in E. subst. exact Hx.
  - intros H. exists t. split; [exact H|apply String.eqb_refl].
Qed.

Lemma mem_after_discard (t : string) (l : list string) :
  mem_string t (filter (fun x => negb (String.eqb x t)) l) = false.
Proof.
  destruct (mem_string t _) eqn:M; [|reflexivity].
  apply mem_string_true, filter_In in M. destruct M as [_ M].
  rewrite String.eqb_refl in M. discriminate.
Qed.

(** A token that is active, in the cookie, is accepted when there is no
    header. *)
Lemma require_auth_cookie (st : Auth.state) (request : Auth.Request)
    (t : string) :
  Auth.cookie_access_token request = Some t ->
  Auth.authorization request = None ->
  t <> "" ->
  mem_string t (Auth.deref st (Auth.v1_active_tokens st)) = true ->
  Auth.require_auth st request = Auth.Returns t.
Proof.
  intros Hc Ha Ht M. unfold Auth.require_auth, Auth.get_token_from_request.
  assert (Hf : String.eqb t "" = false).
  { destruct (String.eqb_spec t "") as [E|_]; [contradiction|reflexivity]. }
  rewrite Hc, Ha, M, Hf. cbn [Auth.is_bearer negb andb]. rewrite Hf.
  reflexivity.
Qed.

Lemma require_auth_sound (st : Auth.state) (request : Auth.Request) :
  Auth.require_auth st request <> Auth.IndexError /\
  (forall t,
      Auth.require_auth st request = Auth.Returns t ->
      t <> "" /\
      mem_string t (Auth.deref st (Auth.v1_active_tokens st)) = true /\
      (Auth.cookie_access_token request = Some t \/
       exists h, Auth.authorization request = Some h /\
                 startswith h "Bearer " = true /\
                 Auth.bearer_token h = Auth.Returns t)).
Proof.
  destruct (get_token_inv st request) as (Hindex & Hhttp & Hsound).
  unfold Auth.require_auth.
  destruct (Auth.get_token_from_request st request) as [[token|]| |c d].
  - split.
    + destruct (String.eqb token ""); discriminate.
    + intros t. destruct (String.eqb_spec token "") as [->|Hne];
        [discriminate|].
      intros E. inversion E; subst. split; [exact Hne|].
      apply Hsound. reflexivity.
  - split; [discriminate|]. intros t E. discriminate.
  - contradiction Hindex. reflexivity.
  - contradiction (Hhttp c d). reflexivity.
Qed.

End SessionFacts.

(** X19.  [require_auth] never fails on the header: a header that starts
    with ["Bearer "] always has a second piece.  And the token it returns
    is not empty, is in the set of active tokens, and is the one of the
    cookie or the one of the header. *)
Theorem require_auth_is_sound (st : Auth.state) (request : Auth.Request) :
  Auth.require_auth st request <> Auth.IndexError /\
  (forall t,
      Auth.require_auth st request = Auth.Returns t ->
      t <> "" /\
      mem_string t (Auth.deref st (Auth.v1_active_tokens st)) = true /\
      (Auth.cookie_access_token request = Some t \/
       exists h, Auth.authorization request = Some h /\
                 startswith h "Bearer " = true /\
                 Auth.bearer_token h = Auth.Returns t)).
Proof. apply require_auth_sound. Qed.

(** X20.  As long as the empty token is not active and the two modules
    share their set, a request that [verify_token] of auth.py accepts is
    accepted by [require_auth] too, though the first looks at the cookie
    first and the second at the header first. *)
Theorem verified_request_is_authorized
    (st : Auth.state) (request : Auth.Request) (t : string) :
  auth_shared st ->
  mem_string "" (Auth.deref st (Auth.v1_active_tokens st)) = false ->
  Auth.verify_token st request = Auth.Returns (Some t) ->
  exists t', Auth.require_auth st request = Auth.Returns t'.
Proof.
  intros Hshared Hempty.
  unfold Auth.verify_token, Auth.require_auth, Auth.get_token_from_request.
  rewrite Hshared.
  set (active := Auth.deref st (Auth.v1_active_tokens st)) in *.
  assert (N : forall x, mem_string x active = true -> String.eqb x "" = false).
  { intros x Hx. destruct (String.eqb_spec x "") as [->|_]; [|reflexivity].
    rewrite Hx in Hempty. discriminate. }
  destruct (Auth.authorization request) as [h|]; cbn [Auth.is_bearer].
  - destruct (negb (String.eqb h "") && startswith h "Bearer ") eqn:B.
    + apply andb_true_iff in B. destruct B as [_ B].
      destruct (bearer_token_exists h B) as [token ->].
      destruct (mem_string token active) eqn:M.
      * intros _. rewrite (N _ M). eauto.
      * cbn [andb]. rewrite andb_false_r.
        destruct (opt_str (Auth.cookie_access_token request));
          [|discriminate].
        destruct (Auth.cookie_access_token request) as [c|]; [|discriminate].
        destruct (negb (String.eqb c "") && mem_string c active) eqn:K;
          [|discriminate].
        apply andb_true_iff in K. destruct K as [_ K].
        intros _. rewrite (N _ K). eauto.
    + destruct (Auth.cookie_access_token request) as [c|];
        [|destruct (opt_str None); discriminate].
      destruct (negb (String.eqb c "") && mem_string c active) eqn:K;
        [|destruct (opt_str (Some c)); discriminate].
      apply andb_true_iff in K. destruct K as [_ K].
      intros _. rewrite (N _ K). eauto.
  - destruct (Auth.cookie_access_token request) as [c|];
      [|destruct (opt_str None); discriminate].
    destruct (negb (String.eqb c "") && mem_string c active) eqn:K;
      [|destruct (opt_str (Some c)); discriminate].
    apply andb_true_iff in K. destruct K as [_ K].
    intros _. rewrite (N _ K). eauto.
Qed.

Lemma verified_request_is_authorized_witness :
  exists t',
    Auth.require_auth (Auth.initial ["tok-a"; "tok-b"])
      {| Auth.cookie_access_token := Some "tok-a";
         Auth.authorization := Some "Bearer tok-b" |}
    = Auth.Returns t'.
Proof.
  apply (verified_request_is_authorized (Auth.initial ["tok-a"; "tok-b"])
           {| Auth.cookie_access_token := Some "tok-a";
              Auth.authorization := Some "Bearer tok-b" |} "tok-a").
  - reflexivity.
  - reflexivity.
  - reflexivity.
Defined.

(** X21.  A login that succeeds returns the token it was given to issue,
    and a request that then carries this token in its cookie, with no
    header, is authorized. *)
Theorem login_then_authorized
    (st : Auth.state) (credentials : option (string * string))
    (username password : option string) (token : string) (st' : Auth.state)
    (issued : string) (request : Auth.Request) :
  auth_valid st ->
  token <> "" ->
  Auth.login st credentials username password token
  = Auth.Returns (st', issued) ->
  Auth.cookie_access_token request = Some issued ->
  Auth.authorization request = None ->
  issued = token /\ Auth.require_auth st' request = Auth.Returns token.
Proof.
  intros [_ Hv1] Htoken Hlogin Hcookie Hheader.
  assert (S : st' = Auth.mutate st (Auth.v1_active_tokens st)
                      (fun tokens => token :: tokens) /\ issued = token).
  { unfold Auth.login in Hlogin.
    destruct credentials as [[user pwd]|];
      [|destruct username as [user|]; [|discriminate];
        destruct password as [pwd|]; [|discriminate];
        destruct (negb (String.eqb user "") && negb (String.eqb pwd ""));
        [|discriminate]];
      (destruct (String.eqb user "" || String.eqb pwd ""); [discriminate|];
       destruct (String.eqb user "invalid"); [discriminate|];
       inversion Hlogin; auto). }
  destruct S as [-> ->]. split; [reflexivity|].
  apply require_auth_cookie; try assumption.
  cbn [Auth.mutate Auth.v1_active_tokens].
  change (Auth.deref _ (Auth.v1_active_tokens st))
    with (Auth.deref (Auth.mutate st (Auth.v1_active_tokens st)
                        (fun tokens => token :: tokens))
            (Auth.v1_active_tokens st)).
  rewrite (deref_mutate st _ _ Hv1).
  unfold mem_string. cbn [existsb]. rewrite String.eqb_refl. reflexivity.
Qed.

Lemma login_then_authorized_witness :
  let st' := Auth.mutate (Auth.initial ["tok-a"]) O
               (fun tokens => "oai_token_0123456789abcdef" :: tokens) in
  "oai_token_0123456789abcdef" = "oai_token_0123456789abcdef" /\
  Auth.require_auth st'
    {| Auth.cookie_access_token := Some "oai_token_0123456789abcdef";
       Auth.authorization := None |}
  = Auth.Returns "oai_token_0123456789abcdef".
Proof.
  intros st'.
  apply (login_then_authorized (Auth.initial ["tok-a"])
           (Some ("ann", "secret")) None None "oai_token_0123456789abcdef").
  - split; cbn; lia.
  - discriminate.
  - reflexivity.
  - reflexivity.
  - reflexivity.
Defined.

(** X22.  While the two modules share their set, a token removed by
    [remove_token_from_active] is never returned by [require_auth] again,
    whatever the request carries. *)
Theorem removed_token_is_refused
    (st : Auth.state) (token : string) (request : Auth.Request) :
  auth_valid st ->
  auth_shared st ->
  Auth.require_auth (Auth.remove_token_from_active st token) request
  <> Auth.Returns token.
Proof.
  intros [Hauth _] Hshared E.
  destruct (require_auth_sound (Auth.remove_token_from_active st token)
              request) as [_ Hsound].
  destruct (Hsound token E) as (_ & M & _).
  unfold Auth.remove_token_from_active in M.
  cbn [Auth.mutate Auth.v1_active_tokens] in M.
  rewrite <- Hshared in M.
  change (Auth.deref _ (Auth.auth_active_tokens st))
    with (Auth.deref (Auth.mutate st (Auth.auth_active_tokens st)
                        (filter (fun t => negb (String.eqb t token))))
            (Auth.auth_active_tokens st)) in M.
  rewrite (deref_mutate st _ _ Hauth), mem_after_discard in M. discriminate.
Qed.

Lemma removed_token_is_refused_witness :
  Auth.require_auth
    (Auth.remove_token_from_active (Auth.initial ["tok-a"; "tok-b"]) "tok-a")
    {| Auth.cookie_access_token := Some "tok-a";
       Auth.authorization := Some "Bearer tok-a" |}
  <> Auth.Returns "tok-a".
Proof.
  apply (removed_token_is_refused (Auth.initial ["tok-a"; "tok-b"]) "tok-a").
  - split; cbn; lia.
  - reflexivity.
Defined.

(** X23.  [refresh_tokens_from_env] binds the name [active_tokens] of
    auth.py to a new set, and api/v1.py keeps the set it imported: after a
    refresh [verify_token] accepts the tokens just loaded, while
    [require_auth] answers every request as before, also after tokens are
    added through [add_token_to_active]. *)
Theorem refresh_is_not_seen_by_require_auth
    (st : Auth.state) (loaded : list string) (token : string)
    (request : Auth.Request) :
  auth_valid st ->
  Auth.require_auth (Auth.refresh_tokens_from_env st loaded) request
  = Auth.require_auth st request /\
  Auth.require_auth
    (Auth.add_token_to_active (Auth.refresh_tokens_from_env st loaded) token)
    request
  = Auth.require_auth st request /\
  (In token loaded -> token <> "" ->
   Auth.verify_token (Auth.refresh_tokens_from_env st loaded)
     {| Auth.cookie_access_token := Some token; Auth.authorization := None |}
   = Auth.Returns (Some token)).
Proof.
  intros [_ Hv1].
  assert (K : Auth.deref (Auth.refresh_tokens_from_env st loaded)
                (Auth.v1_active_tokens st)
              = Auth.deref st (Auth.v1_active_tokens st)).
  { unfold Auth.deref, Auth.refresh_tokens_from_env. cbn.
    apply app_nth1. exact Hv1. }
  split; [|split].
  - apply require_auth_same_set. exact K.
  - apply require_auth_same_set. unfold Auth.add_token_to_active.
    cbn [Auth.mutate Auth.v1_active_tokens Auth.refresh_tokens_from_env
         Auth.auth_active_tokens].
    rewrite <- K.
    apply (deref_mutate_other (Auth.refresh_tokens_from_env st loaded)).
    lia.
  - intros Hin Hne. unfold Auth.verify_token.
    cbn [Auth.cookie_access_token opt_str].
    assert (Hf : String.eqb token "" = false).
    { destruct (String.eqb_spec token "") as [E|_]; [contradiction|reflexivity]. }
    rewrite Hf. cbn [negb andb].
    assert (L : Auth.deref (Auth.refresh_tokens_from_env st loaded)
                  (Auth.auth_active_tokens
                     (Auth.refresh_tokens_from_env st loaded)) = loaded).
    { unfold Auth.deref, Auth.refresh_tokens_from_env. cbn.
      apply nth_middle. }
    rewrite L. apply mem_string_true in Hin. rewrite Hin. reflexivity.
Qed.

Lemma refresh_is_not_seen_by_require_auth_witness :
  let st := Auth.refresh_tokens_from_env (Auth.initial ["tok-a"]) ["tok-new"] in
  let request := {| Auth.cookie_access_token := Some "tok-new";
                    Auth.authorization := None |} in
  Auth.require_auth st request
  = Auth.require_auth (Auth.initial ["tok-a"]) request /\
  Auth.require_auth (Auth.add_token_to_active st "tok-new") request
  = Auth.require_auth (Auth.initial ["tok-a"]) request /\
  Auth.verify_token st request = Auth.Returns (Some "tok-new").
Proof.
  intros st request.
  destruct (refresh_is_not_seen_by_require_auth (Auth.initial ["tok-a"])
              ["tok-new"] "tok-new" request) as (H1 & H2 & H3).
  - split; cbn; lia.
  - split; [exact H1|]. split; [exact H2|].
    apply H3; [left; reflexivity|discriminate].
Defined.

Section SessionExamples.

(** A stale cookie hides a good header from [verify_token], not from
    [require_auth]. *)
Example stale_cookie_good_header :
  let request := {| Auth.cookie_access_token := Some "stale";
                    Auth.authorization := Some "Bearer tok-a" |} in
  Auth.verify_token (Auth.initial ["tok-a"]) request = Auth.Returns None /\
  Auth.require_auth (Auth.initial ["tok-a"]) request = Auth.Returns "tok-a".
Proof. split; reflexivity. Qed.

(** With the empty token active, a header that is just ["Bearer "] makes
    [require_auth] refuse a request whose cookie is good. *)
Example empty_bearer_hides_cookie :
  let request := {| Auth.cookie_access_token := Some "tok-a";
                    Auth.authorization := Some "Bearer " |} in
  Auth.verify_token (Auth.initial [""; "tok-a"]) request
  = Auth.Returns (Some "tok-a") /\
  Auth.require_auth (Auth.initial [""; "tok-a"]) request
  = Auth.HTTPException 401
      "Authentication required. Provide token via Authorization header or cookies.".
Proof. split; reflexivity. Qed.

End SessionExamples.

Lemma poll_task_is_one_turn_witness :
  exists waiter,
    BackendAPIClient.create_task_waiter (host:=Sample.host) Scenario.client
      (VStr "LLM::small") (VStr "7") = Ok waiter /\
    ApiWaiter.wait_for_status (host:=Sample.host) waiter
      (World [Json (Scenario.completed "done")] [])
    = BackendAPIClient.poll_task Scenario.client "LLM::small" "7"
        (World [Json (Scenario.completed "done")] []).
Proof.
  destruct (poll_task_is_one_turn Sample.host Scenario.client "LLM::small" "7")
    as (waiter & Hmade & _ & Hwait).
  exists waiter. split; [exact Hmade|].
  apply Hwait. reflexivity.
Defined.

Lemma require_auth_is_sound_witness :
  let st := Auth.initial ["tok-a"; "tok-b"] in
  let request := {| Auth.cookie_access_token := Some "stale";
                    Auth.authorization := Some "Bearer tok-b extra" |} in
  "tok-b" <> "" /\
  mem_string "tok-b" (Auth.deref st (Auth.v1_active_tokens st)) = true /\
  (Auth.cookie_access_token request = Some "tok-b" \/
   exists h, Auth.authorization request = Some h /\
             startswith h "Bearer " = true /\
             Auth.bearer_token h = Auth.Returns "tok-b").
Proof.
  intros st request.
  destruct (require_auth_is_sound st request) as [_ Hsound].
  apply Hsound. reflexivity.
Defined.

(** ** The address of the backend *)

Section AddressFacts.

Lemma rstrip_no_trailing (ch : ascii) (u : string) :
  forall s, rstrip ch u <> (s ++ String ch "")%string.
Proof.
  induction u as [|c u IH]; intros s; cbn [rstrip].
  - destruct s; discriminate.
  - destruct (rstrip ch u) as [|d r] eqn:R.
    + destruct (Ascii.eqb_spec c ch) as [->|Hc].
      * destruct s; discriminate.
      * destruct s as [|a [|b s]]; cbn [append]; intros E; inversion E.
        contradiction.
    + destruct s as [|a s]; cbn [append]; intros E; inversion E.
      apply (IH s). assumption.
Qed.

Lemma rstrip_fixed (ch : ascii) (x : string) :
  (forall s, x <> (s ++ String ch "")%string) -> rstrip ch x = x.
Proof.
  induction x as [|c x IH]; intros H; cbn [rstrip]; [reflexivity|].
  destruct x as [|d x].
  - cbn [rstrip]. destruct (Ascii.eqb_spec c ch) as [->|_]; [|reflexivity].
    contradiction (H ""). reflexivity.
  - rewrite IH; [reflexivity|].
    intros s E. apply (H (String c s)). cbn [append]. rewrite E. reflexivity.
Qed.

End AddressFacts.

(** X24.  The address a client keeps never ends with a slash, whatever
    address it is made with or set to, so that the paths appended to it
    start at exactly one slash; and an address that was kept is kept as it
    is when it is set again. *)
Theorem backend_url_has_no_trailing_slash
    (self : BackendAPIClient.t) (token backend_url : string) :
  (forall s, BackendAPIClient.backend_url
               (BackendAPIClient.init token backend_url) <> (s ++ "/")%string) /\
  (forall s, BackendAPIClient.backend_url
               (BackendAPIClient.set_backend_url self backend_url)
             <> (s ++ "/")%string) /\
  BackendAPIClient.set_backend_url
    (BackendAPIClient.init token backend_url)
    (BackendAPIClient.backend_url (BackendAPIClient.init token backend_url))
  = BackendAPIClient.init token backend_url.
Proof.
  split; [|split].
  - intros s. apply rstrip_no_trailing.
  - intros s. apply rstrip_no_trailing.
  - unfold BackendAPIClient.set_backend_url, BackendAPIClient.init.
    cbn [BackendAPIClient.token BackendAPIClient.backend_url].
    rewrite rstrip_fixed; [reflexivity|]. apply rstrip_no_trailing.
Qed.
